(** * ZAMMER automation scripts: a shallow embedding and its properties

    The development follows three scripts of the repository:

    - [alphabake-api-multi.py], the multi-threaded try-on runner
      ([download_image], [stack_three_images_and_save], [process_folder],
      [worker], [main]);
    - [scripts/dalle_runner.py], the DALL-E batch runner ([gen_one]);
    - [scripts/generate_promo_banners.py] and
      [scripts/generate_level4_banners.py], whose key selector
      [get_next_client] is the same text in both.

    Python code is embedded as state-and-exception passing functions: a
    computation takes the state of the world and returns either a value or
    a raised exception, together with the state it leaves behind (Python
    does not roll a mutation back when an exception is raised).  What the
    outside world answers (HTTP replies and how long they take, the random
    number) is data handed to the functions, never chosen by them. *)

From Stdlib Require Import List String Ascii Bool Arith ZArith QArith Lia Lqa.
From Stdlib Require Import Permutation DecimalString.
From Stdlib Require DecimalFacts DecimalPos.
From Stdlib.Strings Require Import Byte.
Import ListNotations.

Local Open Scope string_scope.
Local Open Scope nat_scope.

(** ** Exceptions and the state-and-exception monad *)

(** A raised exception: its class name, [str(e)] and, for the exceptions of
    [requests] that carry one, the status code of the attached response
    ([e.response.status_code]; [None] when [e.response] is [None]). *)
Record exn := mkExnWith { exn_type : string; exn_text : string; exn_response : option Z }.

Definition mkExn (type text : string) : exn := mkExnWith type text None.

Inductive res (A : Type) : Type :=
| Ret (a : A)
| Raise (e : exn).
Arguments Ret {A} a.
Arguments Raise {A} e.

Definition M (S A : Type) : Type := S -> res A * S.

Definition ret {S A} (a : A) : M S A := fun s => (Ret a, s).

Definition raise {S A} (e : exn) : M S A := fun s => (Raise e, s).

Definition bind {S A B} (c : M S A) (k : A -> M S B) : M S B :=
  fun s => match c s with
           | (Ret a, s') => k a s'
           | (Raise e, s') => (Raise e, s')
           end.

Definition get {S} : M S S := fun s => (Ret s, s).

Definition modify {S} (f : S -> S) : M S unit := fun s => (Ret tt, f s).

(** [try: body / except Exception as e: handler e].  Every exception the
    model raises is a subclass of [Exception]. *)
Definition try_catch {S A} (body : M S A) (handler : exn -> M S A) : M S A :=
  fun s => match body s with
           | (Ret a, s') => (Ret a, s')
           | (Raise e, s') => handler e s'
           end.

Notation "x <- c ;; k" := (bind c (fun x => k))
  (at level 61, c at next level, right associativity).
Notation "c ;;; k" := (bind c (fun _ => k))
  (at level 61, right associativity).

Definition KeyError {S A} (key : string) : M S A :=
  raise (mkExn "KeyError" ("'" ++ key ++ "'")).

(** ** Dictionaries with string keys, in insertion order *)

Fixpoint assoc {V} (k : string) (d : list (string * V)) : option V :=
  match d with
  | [] => None
  | (k', v) :: d' => if String.eqb k k' then Some v else assoc k d'
  end.

(** [k in d] *)
Definition has_key {V} (k : string) (d : list (string * V)) : bool :=
  match assoc k d with Some _ => true | None => false end.

(** [d[k]] *)
Definition subscript {S V} (d : list (string * V)) (k : string) : M S V :=
  match assoc k d with
  | Some v => ret v
  | None => KeyError k
  end.

(** [d[k] = v]: a present key keeps its place, a new key goes last. *)
Fixpoint dict_set {V} (k : string) (v : V) (d : list (string * V)) : list (string * V) :=
  match d with
  | [] => [(k, v)]
  | (k', v') :: d' => if String.eqb k k' then (k, v) :: d' else (k', v') :: dict_set k v d'
  end.

(** [d.get(k, default)] *)
Definition dict_get {V} (d : list (string * V)) (k : string) (default : V) : V :=
  match assoc k d with Some v => v | None => default end.

(** [str(n)] for a Python int. *)
Definition str_int (z : Z) : string := NilZero.string_of_int (Z.to_int z).

(** ** Extended slices and the round-robin partition of [main] *)

(** Number of elements of [l[start::step]] for a list of [len] elements, as
    CPython's slice adjustment computes it ([0 <= start], [1 <= step]). *)
Definition slice_length (len start step : nat) : nat :=
  if start <? len then (len - start - 1) / step + 1 else 0.

(** The positions [start, start+step, start+2*step, ...] below [len]. *)
Definition slice_indices (len start step : nat) : list nat :=
  map (fun j => start + j * step) (seq 0 (slice_length len start step)).

Definition pick {A} (l : list A) (k : nat) : list A :=
  match nth_error l k with Some x => [x] | None => [] end.

(** [l[start::step]] *)
Definition slice_from {A} (l : list A) (start step : nat) : list A :=
  flat_map (pick l) (slice_indices (List.length l) start step).

(** [[folders[i::n_threads] for i in range(n_threads)]] *)
Definition folder_chunks {A} (folders : list A) (n_threads : nat) : list (list A) :=
  map (fun i => slice_from folders i n_threads) (seq 0 n_threads).

(** ** The key selector of the banner scripts *)

(** [genai.Client(api_key=key)]: all the scripts observe of a client is the
    key it was built with. *)
Record client := Client { api_key : string }.

(** [get_next_client()]; the state is the module-level [_key_index].  The
    body runs under [_key_lock], so a call is one atomic step. *)
Definition get_next_client (API_KEYS : list string) : M nat client :=
  _key_index <- get ;;
  match List.length API_KEYS with
  | 0 => raise (mkExn "ZeroDivisionError" "integer modulo by zero")
  | S _ =>
      match nth_error API_KEYS (_key_index mod List.length API_KEYS) with
      | Some key => modify S ;;; ret (Client key)
      | None => raise (mkExn "IndexError" "list index out of range")
      end
  end.

(** [n] calls in a row, collecting the clients returned. *)
Fixpoint get_next_clients (API_KEYS : list string) (n : nat) : M nat (list client) :=
  match n with
  | 0 => ret []
  | S n' =>
      c <- get_next_client API_KEYS ;;
      cs <- get_next_clients API_KEYS n' ;;
      ret (c :: cs)
  end.

(** ** Images and the compositor *)

Definition rgb : Type := (nat * nat * nat)%type.

(** A raster image: its size and the colour at column [x], row [y]. *)
Record image := mkImage { width : nat; height : nat; pixel : nat -> nat -> rgb }.

(** [Image.new('RGB', (w, h))]: a black canvas. *)
Definition Image_new (w h : nat) : image := mkImage w h (fun _ _ => (0, 0, 0)).

(** [canvas.paste(img, (x0, y0))]: the box of [img]'s size whose top-left
    corner is [(x0, y0)] takes [img]'s pixels. *)
Definition paste (canvas img : image) (x0 y0 : nat) : image :=
  mkImage (width canvas) (height canvas)
    (fun x y =>
       if (x0 <=? x) && (x <? x0 + width img) && (y0 <=? y) && (y <? y0 + height img)
       then pixel img (x - x0) (y - y0)
       else pixel canvas x y).

(** The canvas [stack_three_images_and_save] builds before saving it. *)
Definition stack_three_images (img1 img2 img3 : image) : image :=
  let h := Nat.max (Nat.max (height img1) (height img2)) (height img3) in
  let w := width img1 + width img2 + width img3 in
  let new_img := Image_new w h in
  let new_img := paste new_img img1 0 0 in
  let new_img := paste new_img img2 (width img1) 0 in
  let new_img := paste new_img img3 (width img1 + width img2) 0 in
  new_img.

(** ** JSON values, as [response.json()] decodes them *)

#[warnings="-register-all"] Inductive json : Type :=
| JNull
| JBool (b : bool)
| JInt (z : Z)
| JFloat (q : Q)
| JStr (s : string)
| JArr (items : list json)
| JObj (fields : list (string * json)).

(** [j == s] for a string literal [s]: only the string [s] equals it. *)
Definition is_str (j : json) (s : string) : bool :=
  match j with JStr t => String.eqb t s | _ => false end.

Definition type_name (j : json) : string :=
  match j with
  | JNull => "NoneType" | JBool _ => "bool" | JInt _ => "int" | JFloat _ => "float"
  | JStr _ => "str" | JArr _ => "list" | JObj _ => "dict"
  end.

(** [j[k]] for a string key [k] (message texts of CPython 3.11). *)
Definition json_subscript {S} (j : json) (k : string) : M S json :=
  match j with
  | JObj d => subscript d k
  | JArr _ => raise (mkExn "TypeError" "list indices must be integers or slices, not str")
  | JStr _ => raise (mkExn "TypeError" "string indices must be integers, not 'str'")
  | _ => raise (mkExn "TypeError" ("'" ++ type_name j ++ "' object is not subscriptable"))
  end.

(** The value of [j[k]], or the exception the subscript raises. *)
Definition item_of (j : json) (k : string) : res json :=
  fst (@json_subscript unit j k tt).

(** [j.get(k, default)] *)
Definition json_get {S} (j : json) (k : string) (default : json) : M S json :=
  match j with
  | JObj d => ret (dict_get d k default)
  | _ => raise (mkExn "AttributeError" ("'" ++ type_name j ++ "' object has no attribute 'get'"))
  end.

(** ** HTTP replies *)

(** What the scripts read of a [requests.Response]; [body] is what
    [response.json()] gives: the decoded document, or the exception the
    decoder raises on a body that is not JSON. *)
Record response := mkResponse {
  status_code : Z;
  text : string;
  content : list byte;
  body : exn + json
}.

Definition response_json {S} (r : response) : M S json :=
  match body r with
  | inl e => raise e
  | inr j => ret j
  end.

(** One HTTP exchange as the outside world decides it: the time it takes
    (seconds) and either the transport exception [requests] raises or the
    response it returns. *)
Record http_outcome := mkOutcome { latency : Q; reply : exn + response }.

(** What the outside world does for one work item.  [lost_time n] is
    the time that has gone by, when [n] calls have been made, beyond the
    seconds asked of [time.sleep] and the time of the HTTP exchanges: late
    wake-ups, waits on the locks the threads share, the progress bars.
    [makedirs_fault] and [open_fault] give the exception that
    [os.makedirs(path, exist_ok=True)] and opening [path] for writing
    raise, if they raise. *)
Record item_env := mkEnv {
  random_number : Z;                  (* random.randint(1, 1000000) *)
  submit_reply : http_outcome;        (* the POST to /tryon/ *)
  poll_reply : nat -> http_outcome;   (* the k-th POST to /tryon_status/, k from 0 *)
  get_reply : string -> http_outcome; (* a GET of the given URL *)
  lost_time : nat -> Q;
  makedirs_fault : string -> option exn;
  open_fault : string -> option exn
}.

(** ** The world of the try-on runner *)

(** A file holds bytes, or the JSON document [json.dump] wrote to it (kept
    as the document, not as its text). *)
Inductive file : Type :=
| FBytes (b : list byte)
| FJson (doc : json).

(** One entry of [results_summary['requests']]. *)
Record result_record := mkRecord {
  folder : string;
  status : string;
  duration : Q;
  note : string;
  tryon_id : json;
  garment_url : string;
  human_url : string;
  garment_id : json;
  human_id : json
}.

(** The module-level [results_summary]. *)
Record summary := mkSummary {
  requests : list result_record;
  average_duration : option Q
}.

(** One entry of [results]: [{'done': n, 'fail': m}]. *)
Record counters := mkCounters { n_done : nat; n_fail : nat }.

(** The calls that reach outside the process, in the order they are made. *)
Inductive event : Type :=
| EvSubmit (data : list (string * string))
| EvSleep (seconds : Z)
| EvPoll (id : json)
| EvGet (url : string).

(** [clock] is the time the calls made so far account for: the seconds
    asked of [time.sleep] and the time of the HTTP exchanges; [time.time()]
    adds to it the time lost otherwise.  [results] maps a thread index to
    its counters (the list [results] of [main], read and written at
    [thread_idx] only); [files] is the disk, a file for each path that
    names one (directories are not part of it: whether a directory can be
    made and a file opened for writing is for the environment of the item
    to say; the manifest file can always be written).  The [tqdm] progress
    lines and [print] only reach the console and are left out. *)
Record world := mkWorld {
  clock : Q;
  files : string -> option file;
  results_summary : summary;
  results : nat -> counters;
  trace : list event
}.

Definition advance (dt : Q) (w : world) : world :=
  mkWorld (clock w + dt)%Q (files w) (results_summary w) (results w) (trace w).

Definition log (e : event) (w : world) : world :=
  mkWorld (clock w) (files w) (results_summary w) (results w) (trace w ++ [e])%list.

Definition write_file (path : string) (f : file) (w : world) : world :=
  mkWorld (clock w)
    (fun p => if String.eqb p path then Some f else files w p)
    (results_summary w) (results w) (trace w).

Definition set_summary (s : summary) (w : world) : world :=
  mkWorld (clock w) (files w) s (results w) (trace w).

Definition set_counters (thread_idx : nat) (c : counters) (w : world) : world :=
  mkWorld (clock w) (files w) (results_summary w)
    (fun i => if Nat.eqb i thread_idx then c else results w i) (trace w).

(** [time.time()], [lost] being the time lost so far as a function of
    the number of calls made. *)
Definition time_time (lost : nat -> Q) : M world Q :=
  w <- get ;; ret (clock w + lost (List.length (trace w)))%Q.

(** [time.sleep(seconds)]: the clock counts the seconds asked for (a late
    wake-up is time lost). *)
Definition time_sleep (seconds : Z) : M world unit :=
  modify (fun w => advance (inject_Z seconds) (log (EvSleep seconds) w)).

(** A call of [requests.post] or [requests.get], answered by [o]. *)
Definition http (ev : event) (o : http_outcome) : M world response :=
  modify (fun w => advance (latency o) (log ev w)) ;;;
  match reply o with
  | inl e => raise e
  | inr r => ret r
  end.

(** [results[thread_idx]['fail'] += 1] *)
Definition count_fail (thread_idx : nat) : M world unit :=
  modify (fun w => set_counters thread_idx
                     (mkCounters (n_done (results w thread_idx)) (n_fail (results w thread_idx) + 1)) w).

(** [results[thread_idx]['done'] += 1] *)
Definition count_done (thread_idx : nat) : M world unit :=
  modify (fun w => set_counters thread_idx
                     (mkCounters (n_done (results w thread_idx) + 1) (n_fail (results w thread_idx))) w).

(** ** Paths *)

Definition starts_with_slash (s : string) : bool :=
  match s with String "/" _ => true | _ => false end.

Fixpoint ends_with_slash (s : string) : bool :=
  match s with
  | EmptyString => false
  | String c EmptyString => Ascii.eqb c "/"
  | String _ t => ends_with_slash t
  end.

(** [os.path.join(a, *ps)] of [posixpath]. *)
Definition path_join (a : string) (ps : list string) : string :=
  fold_left
    (fun path b =>
       if starts_with_slash b then b
       else if String.eqb path "" || ends_with_slash path then path ++ b
       else path ++ "/" ++ b)
    ps a.

(** [os.path.dirname(p)] of [posixpath]: [p] up to its last slash, without
    the slashes at the end unless there is nothing else. *)
Fixpoint up_to_last_slash (p : string) : string :=
  match p with
  | EmptyString => EmptyString
  | String c t =>
      match up_to_last_slash t with
      | EmptyString => if Ascii.eqb c "/" then String c EmptyString else EmptyString
      | rest => String c rest
      end
  end.

Fixpoint all_slashes (s : string) : bool :=
  match s with
  | EmptyString => true
  | String c t => Ascii.eqb c "/" && all_slashes t
  end.

Fixpoint rstrip_slashes (s : string) : string :=
  match s with
  | EmptyString => EmptyString
  | String c t =>
      match rstrip_slashes t with
      | EmptyString => if Ascii.eqb c "/" then EmptyString else String c EmptyString
      | rest => String c rest
      end
  end.

Definition dirname (p : string) : string :=
  let head := up_to_last_slash p in
  if all_slashes head then head else rstrip_slashes head.

(** [os.makedirs(path, exist_ok=True)]: it returns, or raises what
    [fault] says. *)
Definition os_makedirs {S} (fault : string -> option exn) (path : string) : M S unit :=
  match fault path with
  | Some e => raise e
  | None => ret tt
  end.

(** [c in s] for a character [c]. *)
Fixpoint occurs (c : ascii) (s : string) : bool :=
  match s with
  | EmptyString => false
  | String a t => Ascii.eqb a c || occurs c t
  end.

(** A name that is one component of a path: no slash, no NUL, and short
    enough to be a file name with a four-character extension. *)
Definition plain_name (s : string) : bool :=
  negb (occurs "/" s) && negb (occurs "000" s) && (String.length s <=? 251).

(** [s.split(c)] for a character [c]. *)
Fixpoint split_on (c : ascii) (s : string) : list string :=
  match s with
  | EmptyString => [EmptyString]
  | String a t =>
      if Ascii.eqb a c then EmptyString :: split_on c t
      else match split_on c t with
           | x :: xs => String a x :: xs
           | [] => [String a EmptyString]
           end
  end.

(** A component of a path as [pathlib] keeps it: not empty and not [.]. *)
Definition is_name (s : string) : bool :=
  negb (String.eqb s "") && negb (String.eqb s ".").

(** The text [str()] gives of a [pathlib] path other than [.]: the root
    [/], or names joined by single slashes, after one slash when the path
    is absolute.  Joining a plain name to such a path puts one slash
    between the two, as [os.path.join] does. *)
Definition pathlib_text (s : string) : bool :=
  match split_on "/" s with
  | "" :: [""] => true
  | "" :: names => forallb is_name names
  | names => forallb is_name names
  end.

Definition output_dir : string := "outputs/multi-threaded-test/".

Definition results_json_path : string := path_join output_dir ["results.json"].

Definition NUM_THREADS : nat := 5.

(** ** The manifest *)

Definition record_json (r : result_record) : json :=
  JObj [("folder", JStr (folder r)); ("status", JStr (status r));
        ("duration", JFloat (duration r)); ("note", JStr (note r));
        ("tryon_id", tryon_id r); ("garment_url", JStr (garment_url r));
        ("human_url", JStr (human_url r)); ("garment_id", garment_id r);
        ("human_id", human_id r)].

Definition summary_json (s : summary) : json :=
  JObj [("requests", JArr (map record_json (requests s)));
        ("average_duration",
         match average_duration s with Some q => JFloat q | None => JNull end)].

(** [results_summary = {'requests': [], 'average_duration': None}] *)
Definition empty_summary : summary := mkSummary [] None.

(** [with open(results_json_path, 'w') as f: json.dump(results_summary, f, indent=2)] *)
Definition persist : M world unit :=
  modify (fun w => write_file results_json_path (FJson (summary_json (results_summary w))) w).

(** The block the source repeats at each of its three exits, under
    [results_lock]: append the record, then rewrite the manifest file. *)
Definition append_and_persist (r : result_record) : M world unit :=
  modify (fun w => set_summary
                     (mkSummary (requests (results_summary w) ++ [r])%list
                                (average_duration (results_summary w))) w) ;;;
  persist.

(** ** The text of a JSON document *)

Definition quote : ascii := "034"%char.

Definition backslash : ascii := "092"%char.

Definition newline : ascii := "010"%char.

(** The [n]-th hexadecimal digit, in lower case. *)
Definition hex_digit (n : nat) : ascii :=
  nth n (list_ascii_of_string "0123456789abcdef") "0"%char.

(** What [json.dumps] writes for one character of a string, with
    [ensure_ascii] left on: a short escape for the quote, the backslash
    and five control characters, the character itself from the space to
    the tilde, and a [u]-escape for every other character.  A character
    of the model is a code point below 256. *)
Definition escape_char (c : ascii) : string :=
  let n := nat_of_ascii c in
  if Ascii.eqb c quote then String backslash (String quote "")
  else if Ascii.eqb c backslash then String backslash (String backslash "")
  else if n =? 8 then String backslash "b"
  else if n =? 12 then String backslash "f"
  else if n =? 10 then String backslash "n"
  else if n =? 13 then String backslash "r"
  else if n =? 9 then String backslash "t"
  else if (32 <=? n) && (n <=? 126) then String c ""
  else String backslash
         ("u00" ++ String (hex_digit (n / 16)) (String (hex_digit (n mod 16)) "")).

Fixpoint escape (s : string) : string :=
  match s with
  | EmptyString => EmptyString
  | String c t => escape_char c ++ escape t
  end.

Definition encode_string (s : string) : string :=
  String quote (escape s ++ String quote "").

Fixpoint spaces (n : nat) : string :=
  match n with
  | 0 => EmptyString
  | S n' => String " " (spaces n')
  end.

(** The line break and the indentation of [indent=2] at a nesting
    level. *)
Definition newline_indent (level : nat) : string :=
  String newline (spaces (2 * level)).

Section Dump.

(** [repr] on a float, for the number that stands for it. *)
Variable float_repr : Q -> string.

(** [json.dumps(j, indent=2)] at a nesting level: the literals, [repr]
    for numbers, the escaped string between quotes; [[]] and [{}] for the
    empty containers; otherwise one item per line, indented by two spaces
    more than the bracket that closes the container, a comma after every
    item but the last, and a colon and a space between a key and its
    value. *)
Fixpoint json_dump (level : nat) (j : json) : string :=
  match j with
  | JNull => "null"
  | JBool true => "true"
  | JBool false => "false"
  | JInt z => str_int z
  | JFloat q => float_repr q
  | JStr s => encode_string s
  | JArr [] => "[]"
  | JArr (x :: xs) =>
      "[" ++ newline_indent (S level) ++ json_dump (S level) x
      ++ fold_right
           (fun y more => "," ++ newline_indent (S level) ++ json_dump (S level) y ++ more)
           (newline_indent level ++ "]") xs
  | JObj [] => "{}"
  | JObj (kv :: fs) =>
      "{" ++ newline_indent (S level) ++ encode_string (fst kv) ++ ": "
      ++ json_dump (S level) (snd kv)
      ++ fold_right
           (fun kv' more => "," ++ newline_indent (S level) ++ encode_string (fst kv') ++ ": "
                            ++ json_dump (S level) (snd kv') ++ more)
           (newline_indent level ++ "}") fs
  end.

End Dump.

(** ** Reading JSON text *)

(** A document as a reader of the text finds it.  A number is kept as the
    text of its token. *)
#[warnings="-register-all"] Inductive jdoc : Type :=
| DNull
| DBool (b : bool)
| DNum (token : string)
| DStr (s : string)
| DArr (items : list jdoc)
| DObj (fields : list (string * jdoc)).

Definition is_digit (c : ascii) : bool :=
  (48 <=? nat_of_ascii c) && (nat_of_ascii c <=? 57).

Fixpoint all_digits (s : string) : bool :=
  match s with
  | EmptyString => true
  | String c t => is_digit c && all_digits t
  end.

Definition digits1 (s : string) : bool :=
  match s with
  | EmptyString => false
  | String c t => is_digit c && all_digits t
  end.

Fixpoint drop_digits (s : string) : string :=
  match s with
  | EmptyString => EmptyString
  | String c t => if is_digit c then drop_digits t else s
  end.

(** The exponent of a number, after its [e]: a sign or none, then
    digits. *)
Definition exponent (s : string) : bool :=
  match s with
  | String c t => if Ascii.eqb c "+" || Ascii.eqb c "-" then digits1 t else digits1 s
  | EmptyString => false
  end.

Definition exponent_or_end (s : string) : bool :=
  match s with
  | EmptyString => true
  | String c t => (Ascii.eqb c "e" || Ascii.eqb c "E") && exponent t
  end.

(** What may follow the integer part of a number: nothing, a fraction
    (a point and digits), an exponent, or a fraction and an exponent. *)
Definition fraction_exponent (s : string) : bool :=
  match s with
  | String c (String d t) =>
      if Ascii.eqb c "." then is_digit d && exponent_or_end (drop_digits t)
      else exponent_or_end s
  | _ => exponent_or_end s
  end.

(** The grammar of a JSON number: a minus sign or none, [0] or digits
    that do not start with [0], then a fraction and an exponent, or one of
    them, or neither. *)
Definition unsigned_number (s : string) : bool :=
  match s with
  | String d t =>
      if Ascii.eqb d "0" then fraction_exponent t
      else is_digit d && fraction_exponent (drop_digits t)
  | EmptyString => false
  end.

Definition json_number (s : string) : bool :=
  match s with
  | String c t => if Ascii.eqb c "-" then unsigned_number t else unsigned_number s
  | EmptyString => false
  end.

(** The characters a number is made of. *)
Definition number_char (c : ascii) : bool :=
  is_digit c || Ascii.eqb c "-" || Ascii.eqb c "+" || Ascii.eqb c "."
  || Ascii.eqb c "e" || Ascii.eqb c "E".

Fixpoint span_number (s : string) : string * string :=
  match s with
  | EmptyString => (EmptyString, EmptyString)
  | String c t =>
      if number_char c then let (token, rest) := span_number t in (String c token, rest)
      else (EmptyString, s)
  end.

Definition parse_number (s : string) : option (string * string) :=
  let (token, rest) := span_number s in
  if json_number token then Some (token, rest) else None.

Definition is_ws (c : ascii) : bool :=
  Ascii.eqb c " " || Ascii.eqb c newline || Ascii.eqb c "013"%char || Ascii.eqb c "009"%char.

Fixpoint skip_ws (s : string) : string :=
  match s with
  | EmptyString => EmptyString
  | String c t => if is_ws c then skip_ws t else s
  end.

Definition hex_value (c : ascii) : option nat :=
  let n := nat_of_ascii c in
  if (48 <=? n) && (n <=? 57) then Some (n - 48)
  else if (97 <=? n) && (n <=? 102) then Some (n - 87)
  else if (65 <=? n) && (n <=? 70) then Some (n - 55)
  else None.

(** The character a short escape stands for. *)
Definition unescape (c : ascii) : option ascii :=
  if Ascii.eqb c quote then Some quote
  else if Ascii.eqb c backslash then Some backslash
  else if Ascii.eqb c "/" then Some "/"%char
  else if Ascii.eqb c "b" then Some "008"%char
  else if Ascii.eqb c "f" then Some "012"%char
  else if Ascii.eqb c "n" then Some "010"%char
  else if Ascii.eqb c "r" then Some "013"%char
  else if Ascii.eqb c "t" then Some "009"%char
  else None.

Definition cons_char (c : ascii) (r : option (string * string)) : option (string * string) :=
  match r with
  | Some (s, rest) => Some (String c s, rest)
  | None => None
  end.

(** The characters of a string up to the quote that closes it, and the
    text after that quote.  A [u]-escape of a code point from 256 on has
    no character in the model and is refused, as is a control character
    that is not escaped. *)
Fixpoint parse_chars (s : string) : option (string * string) :=
  match s with
  | EmptyString => None
  | String c t =>
      if Ascii.eqb c quote then Some (EmptyString, t)
      else if Ascii.eqb c backslash then
        match t with
        | String e t1 =>
            if Ascii.eqb e "u" then
              match t1 with
              | String h1 (String h2 (String h3 (String h4 t2))) =>
                  match hex_value h1, hex_value h2, hex_value h3, hex_value h4 with
                  | Some 0, Some 0, Some a, Some b =>
                      cons_char (ascii_of_nat (16 * a + b)) (parse_chars t2)
                  | _, _, _, _ => None
                  end
              | _ => None
              end
            else
              match unescape e with
              | Some c' => cons_char c' (parse_chars t1)
              | None => None
              end
        | EmptyString => None
        end
      else if nat_of_ascii c <? 32 then None
      else cons_char c (parse_chars t)
  end.

(** The rest of a literal. *)
Fixpoint strip_prefix (word s : string) : option string :=
  match word with
  | EmptyString => Some s
  | String a word' =>
      match s with
      | String b t => if Ascii.eqb a b then strip_prefix word' t else None
      | EmptyString => None
      end
  end.

Definition expect {A} (word : string) (s : string) (value : A) : option (A * string) :=
  match strip_prefix word s with
  | Some rest => Some (value, rest)
  | None => None
  end.

(** A recursive-descent reader; [fuel] bounds the number of values
    read. *)
Fixpoint parse_value (fuel : nat) (s : string) {struct fuel} : option (jdoc * string) :=
  match fuel with
  | 0 => None
  | S fuel' =>
      match skip_ws s with
      | EmptyString => None
      | String c t =>
          if Ascii.eqb c "n" then expect "ull" t DNull
          else if Ascii.eqb c "t" then expect "rue" t (DBool true)
          else if Ascii.eqb c "f" then expect "alse" t (DBool false)
          else if Ascii.eqb c quote then
            match parse_chars t with
            | Some (str, rest) => Some (DStr str, rest)
            | None => None
            end
          else if Ascii.eqb c "[" then
            match skip_ws t with
            | String c' rest =>
                if Ascii.eqb c' "]" then Some (DArr [], rest)
                else
                  match parse_items fuel' t with
                  | Some (items, rest') => Some (DArr items, rest')
                  | None => None
                  end
            | EmptyString => None
            end
          else if Ascii.eqb c "{" then
            match skip_ws t with
            | String c' rest =>
                if Ascii.eqb c' "}" then Some (DObj [], rest)
                else
                  match parse_fields fuel' t with
                  | Some (fields, rest') => Some (DObj fields, rest')
                  | None => None
                  end
            | EmptyString => None
            end
          else
            match parse_number (String c t) with
            | Some (token, rest) => Some (DNum token, rest)
            | None => None
            end
      end
  end

with parse_items (fuel : nat) (s : string) {struct fuel} : option (list jdoc * string) :=
  match fuel with
  | 0 => None
  | S fuel' =>
      match parse_value fuel' s with
      | Some (x, rest) =>
          match skip_ws rest with
          | String c rest' =>
              if Ascii.eqb c "," then
                match parse_items fuel' rest' with
                | Some (xs, rest'') => Some (x :: xs, rest'')
                | None => None
                end
              else if Ascii.eqb c "]" then Some ([x], rest')
              else None
          | EmptyString => None
          end
      | None => None
      end
  end

with parse_fields (fuel : nat) (s : string) {struct fuel}
  : option (list (string * jdoc) * string) :=
  match fuel with
  | 0 => None
  | S fuel' =>
      match skip_ws s with
      | String c t =>
          if Ascii.eqb c quote then
            match parse_chars t with
            | Some (k, rest) =>
                match skip_ws rest with
                | String c1 rest1 =>
                    if Ascii.eqb c1 ":" then
                      match parse_value fuel' rest1 with
                      | Some (v, rest2) =>
                          match skip_ws rest2 with
                          | String c2 rest3 =>
                              if Ascii.eqb c2 "," then
                                match parse_fields fuel' rest3 with
                                | Some (fs, rest4) => Some ((k, v) :: fs, rest4)
                                | None => None
                                end
                              else if Ascii.eqb c2 "}" then Some ([(k, v)], rest3)
                              else None
                          | EmptyString => None
                          end
                      | None => None
                      end
                    else None
                | EmptyString => None
                end
            | None => None
            end
          else None
      | EmptyString => None
      end
  end.

(** [json.loads] without the conversion of numbers: the one document the
    text holds, or [None] when the text is not one JSON document. *)
Definition json_loads (s : string) : option jdoc :=
  match parse_value (String.length s) s with
  | Some (d, rest) =>
      match skip_ws rest with
      | EmptyString => Some d
      | String _ _ => None
      end
  | None => None
  end.

(** The text of the manifest file: what [json.dump(results_summary, f,
    indent=2)] wrote, when the file holds a document. *)
Definition manifest_text (float_repr : Q -> string) (w : world) : option string :=
  match files w results_json_path with
  | Some (FJson doc) => Some (json_dump float_repr 0 doc)
  | _ => None
  end.

(** ** Floating-point arithmetic *)

(** The integer nearest to [n / d] for [0 < d], a tie going to the even
    one. *)
Definition round_half_even (n d : Z) : Z :=
  let q := (n / d)%Z in
  let r := (n mod d)%Z in
  if (2 * r <? d)%Z then q
  else if (d <? 2 * r)%Z then (q + 1)%Z
  else if Z.even q then q else (q + 1)%Z.

(** The binary64 number nearest to [x] (round to nearest, ties to even):
    a significand of 53 bits, or fewer below the normal range.  The
    durations of a run are far from the top of the range, which is left
    open. *)
Definition float_round (x : Q) : Q :=
  let n := Qnum x in
  let d := Zpos (Qden x) in
  if (n =? 0)%Z then 0%Q
  else
    let a := Z.abs n in
    let e0 := (Z.log2 a - Z.log2 d - 52)%Z in
    let below :=
      if (0 <=? e0 + 52)%Z then (a <? d * 2 ^ (e0 + 52))%Z
      else (a * 2 ^ (- (e0 + 52)) <? d)%Z in
    let e := Z.max (if below then e0 - 1 else e0)%Z (-1074) in
    let m :=
      if (0 <=? e)%Z then round_half_even a (d * 2 ^ e)
      else round_half_even (a * 2 ^ (- e)) d in
    let r := if (0 <=? e)%Z then inject_Z (m * 2 ^ e) else Qred (m # Z.to_pos (2 ^ (- e))) in
    if (n <? 0)%Z then (- r)%Q else r.

(** [sum(qs)] on floats: from [0], one rounded addition for each element,
    left to right. *)
Definition py_sum (qs : list Q) : Q :=
  fold_left (fun acc q => float_round (acc + q)) qs 0%Q.

(** [sum(qs) / len(qs)] on a list of floats that is not empty. *)
Definition py_mean (qs : list Q) : Q :=
  float_round (py_sum qs / inject_Z (Z.of_nat (List.length qs))).

(** ** The try-on runner: [alphabake-api-multi.py] *)

Section Runner.

(** [str(v)] of the interpreter on a decoded JSON value, the decoder and the
    encoder of the imaging library. *)
Variable py_str : json -> string.
Variable decode_image : list byte -> option image.
Variable encode_image : image -> list byte.

(** The module-level [input_json]: work-item key to its configuration. *)
Variable input_json : list (string * list (string * string)).

(** The outside world, per work-item key. *)
Variable env : string -> item_env.

(** [download_image(url, download_path)]; the value is [True] ([Some true])
    or [None].  [open_fault] says what opening the destination raises, if
    it does: the function makes no directory. *)
Definition download_image (get : string -> http_outcome) (open_fault : string -> option exn)
    (url download_path : string) : M world (option bool) :=
  response <- http (EvGet url) (get url) ;;
  if (status_code response =? 200)%Z then
    match open_fault download_path with
    | Some e => raise e
    | None =>
        modify (write_file download_path (FBytes (content response))) ;;;
        ret (Some true)
    end
  else
    ret None.

(** Truth value of what [download_image] returns. *)
Definition truthy (v : option bool) : bool :=
  match v with Some b => b | None => false end.

(** [Image.open(path)] *)
Definition Image_open (path : string) : M world image :=
  w <- get ;;
  match files w path with
  | None =>
      raise (mkExn "FileNotFoundError" ("[Errno 2] No such file or directory: '" ++ path ++ "'"))
  | Some (FBytes b) =>
      match decode_image b with
      | Some img => ret img
      | None => raise (mkExn "UnidentifiedImageError" ("cannot identify image file '" ++ path ++ "'"))
      end
  | Some (FJson _) =>
      raise (mkExn "UnidentifiedImageError" ("cannot identify image file '" ++ path ++ "'"))
  end.

(** [stack_three_images_and_save(img1, img2, img3, output_file_path)];
    [new_img.save] opens the file for writing. *)
Definition stack_three_images_and_save (open_fault : string -> option exn)
    (img1 img2 img3 : image) (output_file_path : string) : M world unit :=
  let new_img := stack_three_images img1 img2 img3 in
  match open_fault output_file_path with
  | Some e => raise e
  | None => modify (write_file output_file_path (FBytes (encode_image new_img)))
  end.

(** The local variables of [process_folder] that the polling loop changes. *)
Record vars := mkVars {
  v_status : string;
  v_note : string;
  v_garment_id : json;
  v_human_id : json;
  v_poll_count : nat
}.

Definition set_outcome (st nt : string) (v : vars) : vars :=
  mkVars st nt (v_garment_id v) (v_human_id v) (v_poll_count v).

(** [requests.get] on a value that is not a string has no URL to fetch. *)
Definition download_json_url (get : string -> http_outcome)
    (open_fault : string -> option exn) (u : json) (path : string)
  : M world (option bool) :=
  match u with
  | JStr url => download_image get open_fault url path
  | _ => raise (mkExn "MissingSchema"
                  ("Invalid URL '" ++ py_str u ++ "': No scheme supplied. Perhaps you meant https://"
                   ++ py_str u ++ "?"))
  end.

(** The [try] ... [except Exception] of lines 193-227: what happens once a
    poll says ['done']. *)
Definition save_result (folder_name : string) (thread_idx : nat)
    (item : list (string * string)) (status_json : json) (v : vars) : M world vars :=
  try_catch
    (let makedirs := os_makedirs (makedirs_fault (env folder_name)) in
     let get := get_reply (env folder_name) in
     let opening := open_fault (env folder_name) in
     tryon_url <- json_subscript status_json "s3_url" ;;
     let tryon_out := path_join output_dir ["tryon"; folder_name ++ ".jpg"] in
     makedirs (dirname tryon_out) ;;;
     download_json_url get opening tryon_url tryon_out ;;;
     let stacked_out := path_join output_dir ["stacked"; folder_name ++ ".jpg"] in
     makedirs (dirname stacked_out) ;;;
     let garment_out := path_join output_dir ["garment"; folder_name ++ ".jpg"] in
     makedirs (dirname garment_out) ;;;
     let stack_3_images := true in
     (if has_key "garment_url" item
      then u <- subscript item "garment_url" ;;
           download_image get opening u garment_out ;;; ret tt
      else ret tt) ;;;
     let human_out := path_join output_dir ["human"; folder_name ++ ".jpg"] in
     makedirs (dirname human_out) ;;;
     (if has_key "human_url" item
      then u <- subscript item "human_url" ;;
           download_image get opening u human_out ;;; ret tt
      else ret tt) ;;;
     (if stack_3_images
      then img1 <- Image_open tryon_out ;;
           img2 <- Image_open garment_out ;;
           img3 <- Image_open human_out ;;
           stack_three_images_and_save opening img1 img2 img3 stacked_out
      else ret tt) ;;;
     count_done thread_idx ;;;
     let v := set_outcome "success" "" v in
     garment_id <- json_get status_json "garment_id" JNull ;;
     let v := mkVars (v_status v) (v_note v) garment_id (v_human_id v) (v_poll_count v) in
     human_id <- json_get status_json "human_id" JNull ;;
     ret (mkVars (v_status v) (v_note v) (v_garment_id v) human_id (v_poll_count v)))
    (fun e =>
       count_fail thread_idx ;;;
       ret (set_outcome "fail" ("Exception during save: " ++ exn_text e) v)).

Definition wait_times : list Z := [10; 5; 10; 5; 10; 20; 30; 30; 60]%Z.

(** The [for wait in wait_times: ... else: ...] of lines 175-241, run on
    the waits that are left. *)
Fixpoint poll_loop (folder_name : string) (thread_idx : nat) (item : list (string * string))
    (tryon_id : json) (waits : list Z) (v : vars) : M world vars :=
  match waits with
  | [] =>
      count_fail thread_idx ;;;
      ret (set_outcome "timeout" "TIMEOUT waiting for tryon to complete" v)
  | wait :: waits' =>
      time_sleep wait ;;;
      let k := v_poll_count v in
      let v := mkVars (v_status v) (v_note v) (v_garment_id v) (v_human_id v) (v_poll_count v + 1) in
      status_response <- http (EvPoll tryon_id) (poll_reply (env folder_name) k) ;;
      if (status_code status_response =? 200)%Z then
        status_json <- response_json status_response ;;
        message <- json_subscript status_json "message" ;;
        if negb (is_str message "success") then
          m <- json_get status_json "message" (JStr "") ;;
          count_fail thread_idx ;;;
          ret (set_outcome "fail" ("API message: " ++ py_str m) v)
        else
          st <- json_subscript status_json "status" ;;
          if is_str st "done" then
            save_result folder_name thread_idx item status_json v
          else
            poll_loop folder_name thread_idx item tryon_id waits' v
      else
        count_fail thread_idx ;;;
        ret (set_outcome "fail"
               ("Status poll failed: " ++ str_int (status_code status_response) ++ ", "
                ++ text status_response) v)
  end.

Definition url : string := "https://api.alphabake.io/api/v2/tryon/".

(** The record the two early exits append: absent URLs read as ['']. *)
Definition early_record (folder_name : string) (start_time : Q) (nt : string)
    (data : list (string * string)) (garment_id human_id : json) : M world unit :=
  t <- time_time (lost_time (env folder_name)) ;;
  let duration := (t - start_time)%Q in
  append_and_persist
    (mkRecord folder_name "fail" duration nt JNull
       (dict_get data "garment_url" "") (dict_get data "human_url" "")
       garment_id human_id).

(** Lines 122-171: the value is [None] when the function has returned from
    inside the block, and the job identifier otherwise. *)
Definition submit (folder_name : string) (thread_idx : nat) (start_time : Q)
    (data : list (string * string)) (garment_id human_id : json) : M world (option json) :=
  try_catch
    (response <- http (EvSubmit data) (submit_reply (env folder_name)) ;;
     if negb (status_code response =? 200)%Z then
       let nt := "ERROR resp " ++ folder_name ++ ", " ++ str_int (status_code response)
                 ++ ", " ++ text response in
       count_fail thread_idx ;;;
       early_record folder_name start_time nt data garment_id human_id ;;;
       ret None
     else
       json_response <- response_json response ;;
       tryon_id <- json_get json_response "tryon_id" JNull ;;
       ret (Some tryon_id))
    (fun e =>
       let nt := "Exception: " ++ exn_text e in
       count_fail thread_idx ;;;
       early_record folder_name start_time nt data garment_id human_id ;;;
       ret None).

(** Lines 103-121: the payload [data] and the identifiers the item was
    configured with, as [(data, garment_id, human_id)].  Nothing outside
    the function is read or changed, and a missing key raises [KeyError]. *)
Definition build_data {S} (item : list (string * string)) (random_number : Z)
  : M S (list (string * string) * json * json) :=
  let data := [] in
  dh <- (if has_key "human_id" item
         then h <- subscript item "human_id" ;;
              ret (dict_set "human_id" h data, JStr h)
         else u <- subscript item "human_url" ;;
              ret (dict_set "human_url" (u ++ "?v=" ++ str_int random_number) data, JNull)) ;;
  let data := fst dh in
  let human_id := snd dh in
  dg <- (if has_key "garment_id" item
         then g <- subscript item "garment_id" ;;
              ret (dict_set "garment_id" g data, JStr g)
         else u <- subscript item "garment_url" ;;
              ret (dict_set "garment_url" (u ++ "?v=" ++ str_int random_number) data, JNull)) ;;
  let data := fst dg in
  let garment_id := snd dg in
  garment_type <- subscript item "garment_type" ;;
  let data := dict_set "garment_type" garment_type data in
  let data := dict_set "mode" "fast" data in
  ret (data, garment_id, human_id).

(** [process_folder(folder_name, thread_idx, progress_bars, results, lock)] *)
Definition process_folder (folder_name : string) (thread_idx : nat) : M world unit :=
  start_time <- time_time (lost_time (env folder_name)) ;;
  item <- subscript input_json folder_name ;;
  built <- build_data item (random_number (env folder_name)) ;;
  let data := fst (fst built) in
  let garment_id := snd (fst built) in
  let human_id := snd built in
  submitted <- submit folder_name thread_idx start_time data garment_id human_id ;;
  match submitted with
  | None => ret tt
  | Some tryon_id =>
      v <- poll_loop folder_name thread_idx item tryon_id wait_times
             (mkVars "fail" "" garment_id human_id 0) ;;
      t <- time_time (lost_time (env folder_name)) ;;
      let duration := (t - start_time)%Q in
      garment_url <- subscript data "garment_url" ;;
      human_url <- subscript data "human_url" ;;
      append_and_persist
        (mkRecord folder_name (v_status v) duration (v_note v) tryon_id
           garment_url human_url (v_garment_id v) (v_human_id v))
  end.

(** [worker(thread_idx, chunk)] *)
Fixpoint worker (thread_idx : nat) (chunk : list string) : M world unit :=
  match chunk with
  | [] => ret tt
  | folder :: chunk' =>
      process_folder folder thread_idx ;;;
      worker thread_idx chunk'
  end.

(** A thread run to its end: an exception that escapes its target ends
    that thread and no other. *)
Definition run_thread (target : M world unit) : M world unit :=
  fun w => (Ret tt, snd (target w)).

(** The threads of [main], each run to its end before the next one starts
    (one of the schedules [main] allows). *)
Fixpoint run_threads (thread_idx : nat) (chunks : list (list string)) : M world unit :=
  match chunks with
  | [] => ret tt
  | chunk :: chunks' =>
      run_thread (worker thread_idx chunk) ;;;
      run_threads (S thread_idx) chunks'
  end.

(** The final flush of [main], under [results_lock]:
    [sum(durations)/len(durations) if durations else None]. *)
Definition finalize : M world unit :=
  modify (fun w =>
            let durations :=
              map duration
                (filter (fun r => String.eqb (status r) "success") (requests (results_summary w))) in
            let average :=
              match durations with
              | [] => None
              | _ :: _ => Some (py_mean durations)
              end in
            set_summary (mkSummary (requests (results_summary w)) average) w) ;;;
  persist.

(** [main()] *)
Definition main : M world unit :=
  let folders := map fst input_json in
  let n_threads := NUM_THREADS in
  let folder_chunks := folder_chunks folders n_threads in
  modify (fun w => mkWorld (clock w) (files w) (results_summary w)
                     (fun _ => mkCounters 0 0) (trace w)) ;;;
  run_threads 0 folder_chunks ;;;
  finalize.

End Runner.

(** ** The DALL-E runner: [scripts/dalle_runner.py] *)

Inductive dalle_event : Type :=
| DGenerate (prompt : string)
| DGet (url : string)
| DSleep (seconds : Z).

(** The disk and the calls made so far, in order.  [d_denied path] is
    the exception that opening [path] under [OUT] for writing raises, when
    the disk does not take the file (no such directory, no permission, a
    name it cannot hold). *)
Record dalle_world := mkDalleWorld {
  d_files : string -> option (list byte);
  d_trace : list dalle_event;
  d_denied : string -> option exn
}.

(** A disk that takes every file. *)
Definition mkDalle (files : string -> option (list byte)) (trace : list dalle_event)
  : dalle_world :=
  mkDalleWorld files trace (fun _ => None).

Definition d_log (e : dalle_event) (w : dalle_world) : dalle_world :=
  mkDalleWorld (d_files w) (d_trace w ++ [e])%list (d_denied w).

Definition d_write (path : string) (b : list byte) (w : dalle_world) : dalle_world :=
  mkDalleWorld (fun p => if String.eqb p path then Some b else d_files w p) (d_trace w)
    (d_denied w).

(** [with open(path, "wb") as f: f.write(b)] *)
Definition d_store (path : string) (b : list byte) : M dalle_world unit :=
  w <- get ;;
  match d_denied w path with
  | Some e => raise e
  | None => modify (d_write path b)
  end.

Definition d_http (ev : dalle_event) (o : http_outcome) : M dalle_world response :=
  modify (d_log ev) ;;;
  match reply o with
  | inl e => raise e
  | inr r => ret r
  end.

Definition is_generate (e : dalle_event) : bool :=
  match e with DGenerate _ => true | _ => false end.

Definition is_sleep (e : dalle_event) : bool :=
  match e with DSleep _ => true | _ => false end.

(** [Response.ok], which is also the truth value of a [Response]
    ([Response.__bool__] returns [self.ok]): the status is not an error
    status. *)
Definition response_ok (code : Z) : bool :=
  negb ((400 <=? code)%Z && (code <? 600)%Z).

(** [r.raise_for_status()]: an error status raises [HTTPError] with the
    response attached. *)
Definition raise_for_status {S} (r : response) : M S unit :=
  if (400 <=? status_code r)%Z && (status_code r <? 600)%Z then
    raise (mkExnWith "HTTPError"
             (str_int (status_code r)
              ++ (if (status_code r <? 500)%Z then " Client Error" else " Server Error"))
             (Some (status_code r)))
  else ret tt.

(** [j[0]] *)
Definition json_first {S} (j : json) : M S json :=
  match j with
  | JArr (x :: _) => ret x
  | JArr [] => raise (mkExn "IndexError" "list index out of range")
  | JObj _ => raise (mkExn "KeyError" "0")
  | JStr (String c _) => ret (JStr (String c EmptyString))
  | JStr EmptyString => raise (mkExn "IndexError" "string index out of range")
  | _ => raise (mkExn "TypeError" ("'" ++ type_name j ++ "' object is not subscriptable"))
  end.

(** The value of [code] in the [HTTPError] handler: a status code or ["?"]. *)
Inductive http_code : Type :=
| Code (z : Z)
| Unknown.

(** [code == 429] *)
Definition code_is (c : http_code) (z : Z) : bool :=
  match c with Code z' => (z' =? z)%Z | Unknown => false end.

Definition PREFIX : string :=
  "For this image follow these rules strictly: "
  ++ "3:4 portrait ratio (1024x1365). Full body shot of a real Indian model, head to shoes visible, no cropping. "
  ++ "Ultra-realistic commercial e-commerce photography, NOT illustration. "
  ++ "Shot on Sony A7III 85mm f/1.4, shallow DOF. Natural Indian skin tones, realistic texture. "
  ++ "NO text, watermark, brand name or typography on the image. "
  ++ "Solid color clean background. ".

Section Dalle.

(** [OUT], the directory [generated_brand_products] next to the script. *)
Variable OUT : string.

(** The outside world: the reply to the k-th generation request (k from 0)
    and to the GET of a URL. *)
Variable generate_reply : nat -> http_outcome.
Variable image_reply : string -> http_outcome.

(** [out_path.exists() and out_path.stat().st_size > 10000] *)
Definition already_generated (w : dalle_world) (out_path : string) : bool :=
  match d_files w out_path with
  | Some b => (10000 <? Z.of_nat (List.length b))%Z
  | None => false
  end.

(** [gen_one(item, idx, total)].  The function calls itself; [fuel] bounds
    the depth of calls the model follows, and the value is [None] when it
    is used up. *)
Fixpoint gen_one (fuel : nat) (item : list (string * string)) (idx total : nat) {struct fuel}
  : M dalle_world (option (string * option string)) :=
  match fuel with
  | 0 => ret None
  | S fuel' =>
      fname <- subscript item "filename" ;;
      let out_path := path_join OUT [fname ++ ".png"] in
      w <- get ;;
      if already_generated w out_path then ret (Some (fname, Some out_path))
      else
        try_catch
          (prompt <- subscript item "prompt" ;;
           let k := List.length (filter is_generate (d_trace w)) in
           r <- d_http (DGenerate (PREFIX ++ prompt)) (generate_reply k) ;;
           raise_for_status r ;;;
           j <- response_json r ;;
           data <- json_subscript j "data" ;;
           first <- json_first data ;;
           u <- json_subscript first "url" ;;
           match u with
           | JStr url =>
               img <- d_http (DGet url) (image_reply url) ;;
               raise_for_status img ;;;
               d_store out_path (content img) ;;;
               ret (Some (fname, Some out_path))
           | _ => raise (mkExn "MissingSchema" "Invalid URL")
           end)
          (fun e =>
             if String.eqb (exn_type e) "HTTPError" then
               let code :=
                 match exn_response e with
                 | Some c => if response_ok c then Code c else Unknown
                 | None => Unknown
                 end in
               if code_is code 429 then
                 modify (d_log (DSleep 60)) ;;;
                 gen_one fuel' item idx total
               else ret (Some (fname, None))
             else ret (Some (fname, None)))
  end.

End Dalle.

(** ** Inputs and replies used to run the embedding *)

(** [str(v)] on [None], booleans, integers and strings; the runs below meet
    no other value. *)
Definition str_of_scalar (j : json) : string :=
  match j with
  | JNull => "None"
  | JBool true => "True"
  | JBool false => "False"
  | JInt z => str_int z
  | JStr s => s
  | _ => ""
  end.

(** Stand-ins for the decoder and the encoder of the imaging library. *)
Definition one_pixel_decoder (b : list byte) : option image :=
  Some (mkImage 1 1 (fun _ _ => (0, 0, 0))).

Definition empty_encoder (img : image) : list byte := [].

(** The [input_json] of the source. *)
Definition source_input_json : list (string * list (string * string)) :=
  [("h40__g20",
    [("human_url", "https://api-alphabake-public.s3.us-east-1.amazonaws.com/Scale/example-dataset-google-25pairs/h40__g20/human.jpg");
     ("garment_url", "https://api-alphabake-public.s3.us-east-1.amazonaws.com/Scale/example-dataset-google-25pairs/h40__g20/garment.jpg");
     ("garment_type", "full");
     ("mode", "fast")]);
   ("h9__g11",
    [("human_url", "https://api-alphabake-public.s3.us-east-1.amazonaws.com/Scale/example-dataset-google-25pairs/h9__g11/human.jpg");
     ("garment_url", "https://api-alphabake-public.s3.us-east-1.amazonaws.com/Scale/example-dataset-google-25pairs/h9__g11/garment.jpg");
     ("garment_type", "top");
     ("mode", "fast")])].

(** The entry the source keeps in a comment, configured with identifiers,
    put in front of the first entry of the source. *)
Definition ids_input_json : list (string * list (string * string)) :=
  [("h20__g4",
    [("human_id", "096ee950-e3b0-4c7d-9e47-b2c2ecc5e506-H727");
     ("garment_id", "cf17d39b-fa31-412f-9285-069af51a5c51-G327");
     ("garment_type", "full");
     ("mode", "fast")]);
   ("h40__g20",
    [("human_url", "https://api-alphabake-public.s3.us-east-1.amazonaws.com/Scale/example-dataset-google-25pairs/h40__g20/human.jpg");
     ("garment_url", "https://api-alphabake-public.s3.us-east-1.amazonaws.com/Scale/example-dataset-google-25pairs/h40__g20/garment.jpg");
     ("garment_type", "full");
     ("mode", "fast")])].

Definition json_reply (seconds : Q) (code : Z) (doc : json) : http_outcome :=
  mkOutcome seconds (inr (mkResponse code "" [] (inr doc))).

Definition plain_reply (seconds : Q) (code : Z) (txt : string) : http_outcome :=
  mkOutcome seconds
    (inr (mkResponse code txt []
            (inl (mkExn "JSONDecodeError" "Expecting value: line 1 column 1 (char 0)")))).

Definition transport_fault (seconds : Q) : http_outcome :=
  mkOutcome seconds (inl (mkExn "ConnectionError" "Connection refused")).

(** A run in which no time is lost and the disk takes every directory and
    every file. *)
Definition no_time_lost (n : nat) : Q := 0.

Definition no_fault (path : string) : option exn := None.

(** A service that takes one second to accept a job and then reports it as
    still running at every status query, each answered at once. *)
Definition never_done_env (folder_name : string) : item_env :=
  mkEnv 7
    (json_reply 1 200 (JObj [("tryon_id", JStr "T-1")]))
    (fun _ => json_reply 0 200 (JObj [("message", JStr "success"); ("status", JStr "processing")]))
    (fun _ => plain_reply 0 404 "Not Found")
    no_time_lost no_fault no_fault.

(** A service that refuses the job with HTTP 403. *)
Definition forbidden_env (folder_name : string) : item_env :=
  mkEnv 7
    (plain_reply 0 403 "Forbidden")
    (fun _ => transport_fault 0)
    (fun _ => transport_fault 0)
    no_time_lost no_fault no_fault.

(** A service that accepts the job and answers every status query with [o]. *)
Definition polled_env (o : http_outcome) (folder_name : string) : item_env :=
  mkEnv 7
    (json_reply 1 200 (JObj [("tryon_id", JStr "T-1")]))
    (fun _ => o)
    (fun _ => plain_reply 0 404 "Not Found")
    no_time_lost no_fault no_fault.

Definition status_reply (message st : string) : http_outcome :=
  json_reply 0 200 (JObj [("message", JStr message); ("status", JStr st)]).


Definition h40_item : list (string * string) :=
  dict_get source_input_json "h40__g20" [].

(** An image-generation service that answers every request with HTTP 429. *)
Definition rate_limited (k : nat) : http_outcome :=
  plain_reply 0 429 "Too Many Requests".

Definition brand_item : list (string * string) :=
  [("filename", "brand_001"); ("prompt", "red cotton kurta")].

Definition empty_disk : dalle_world := mkDalle (fun _ => None) [].

(** The process as it starts: an empty disk, the summary as the module
    initialises it, and no call made yet. *)
Definition initial_world : world :=
  mkWorld 0 (fun _ => None) empty_summary (fun _ => mkCounters 0 0) [].

(** * Properties *)

(** ** The round-robin partition *)

Lemma slice_length_bound (len start step j : nat) :
  1 <= step -> j < slice_length len start step -> start + j * step < len.
Proof.
  unfold slice_length. intros Hstep Hj.
  destruct (start <? len) eqn:E; [| lia].
  apply Nat.ltb_lt in E.
  assert (Hd : j <= (len - start - 1) / step) by lia.
  assert (Hm : step * ((len - start - 1) / step) <= len - start - 1)
    by (apply Nat.Div0.mul_div_le).
  nia.
Qed.

Lemma slice_length_reach (len start step j : nat) :
  1 <= step -> start + j * step < len -> j < slice_length len start step.
Proof.
  unfold slice_length. intros Hstep Hj.
  assert (E : (start <? len) = true) by (apply Nat.ltb_lt; lia).
  rewrite E.
  assert (Hd : j <= (len - start - 1) / step).
  { apply Nat.div_le_lower_bound; [lia | nia]. }
  lia.
Qed.

Lemma in_slice_indices (len start step k : nat) :
  1 <= step -> start < step ->
  In k (slice_indices len start step) <-> k < len /\ k mod step = start.
Proof.
  intros Hstep Hstart. unfold slice_indices. rewrite in_map_iff. split.
  - intros [j [Hk Hj]]. apply in_seq in Hj. subst k. split.
    + apply slice_length_bound; lia.
    + rewrite Nat.Div0.mod_add. apply Nat.mod_small. exact Hstart.
  - intros [Hk Hm]. exists (k / step).
    assert (Hdm : k = step * (k / step) + k mod step) by (apply Nat.div_mod_eq).
    split; [lia |].
    apply in_seq. split; [lia |]. simpl.
    apply slice_length_reach; [lia |]. lia.
Qed.

Lemma NoDup_slice_indices (len start step : nat) :
  1 <= step -> NoDup (slice_indices len start step).
Proof.
  intros Hstep. unfold slice_indices.
  apply Finite.Injective_map_NoDup_in.
  - intros a b _ _ Hab. nia.
  - apply seq_NoDup.
Qed.

(** All positions handed out, chunk after chunk. *)
Definition chunk_positions (len n : nat) : list nat :=
  flat_map (fun i => slice_indices len i n) (seq 0 n).

Lemma NoDup_flat_map_disjoint {A B} (f : A -> list B) (l : list A) :
  NoDup l ->
  (forall a, In a l -> NoDup (f a)) ->
  (forall a a' b, In a l -> In a' l -> In b (f a) -> In b (f a') -> a = a') ->
  NoDup (flat_map f l).
Proof.
  induction l as [| a l IH]; intros Hl Hf Hdis; simpl.
  - constructor.
  - inversion Hl as [| ? ? Hnotin Hl']; subst.
    apply NoDup_app.
    + apply Hf. now left.
    + apply IH; [assumption | |].
      * intros a' Ha'. apply Hf. now right.
      * intros a1 a2 b H1 H2. apply Hdis; now right.
    + intros b Hb Hb'. apply in_flat_map in Hb'. destruct Hb' as [a' [Ha' Hb']].
      assert (a = a') by (apply (Hdis a a' b); [now left | now right | assumption | assumption]).
      subst a'. contradiction.
Qed.

Lemma in_chunk_positions (len n k : nat) :
  1 <= n -> In k (chunk_positions len n) <-> k < len.
Proof.
  intros Hn. unfold chunk_positions. rewrite in_flat_map. split.
  - intros [i [Hi Hk]]. apply in_seq in Hi.
    apply in_slice_indices in Hk; [tauto | lia | lia].
  - intros Hk. exists (k mod n). split.
    + apply in_seq. split; [lia |]. simpl. apply Nat.mod_upper_bound. lia.
    + apply in_slice_indices; [lia | apply Nat.mod_upper_bound; lia | tauto].
Qed.

Lemma NoDup_chunk_positions (len n : nat) :
  1 <= n -> NoDup (chunk_positions len n).
Proof.
  intros Hn. unfold chunk_positions. apply NoDup_flat_map_disjoint.
  - apply seq_NoDup.
  - intros i _. apply NoDup_slice_indices. exact Hn.
  - intros i i' k Hi Hi' Hk Hk'.
    apply in_seq in Hi. apply in_seq in Hi'.
    apply in_slice_indices in Hk; [| lia | lia].
    apply in_slice_indices in Hk'; [| lia | lia].
    lia.
Qed.

Lemma chunk_positions_perm (len n : nat) :
  1 <= n -> Permutation (chunk_positions len n) (seq 0 len).
Proof.
  intros Hn. apply NoDup_Permutation.
  - apply NoDup_chunk_positions. exact Hn.
  - apply seq_NoDup.
  - intros k. rewrite in_chunk_positions by exact Hn. rewrite in_seq. lia.
Qed.

Lemma flat_map_pick_shift {A} (x : A) (l : list A) (ks : list nat) :
  flat_map (pick (x :: l)) (map S ks) = flat_map (pick l) ks.
Proof.
  induction ks as [| k ks IH]; simpl; [reflexivity |].
  rewrite IH. reflexivity.
Qed.

Lemma flat_map_pick_all {A} (l : list A) :
  flat_map (pick l) (seq 0 (List.length l)) = l.
Proof.
  induction l as [| x l IH]; [reflexivity |].
  cbn [List.length]. rewrite <- cons_seq, <- seq_shift.
  cbn [flat_map]. rewrite flat_map_pick_shift, IH. reflexivity.
Qed.

Lemma concat_folder_chunks {A} (l : list A) (n : nat) :
  List.concat (folder_chunks l n) = flat_map (pick l) (chunk_positions (List.length l) n).
Proof.
  unfold folder_chunks, chunk_positions, slice_from.
  induction (seq 0 n) as [| i rest IH]; simpl; [reflexivity |].
  rewrite flat_map_app, IH. reflexivity.
Qed.

Lemma pick_in_range {A} (l : list A) (k : nat) :
  k < List.length l -> List.length (pick l k) = 1.
Proof.
  intros Hk. unfold pick.
  destruct (nth_error l k) eqn:E; [reflexivity |].
  apply nth_error_None in E. lia.
Qed.

Lemma length_slice_from {A} (l : list A) (start step : nat) :
  1 <= step -> List.length (slice_from l start step) = slice_length (List.length l) start step.
Proof.
  intros Hstep. unfold slice_from, slice_indices.
  assert (H : forall js, (forall j, In j js -> start + j * step < List.length l) ->
            List.length (flat_map (pick l) (map (fun j => start + j * step) js)) = List.length js).
  { induction js as [| j js IH]; intros Hjs; simpl; [reflexivity |].
    rewrite length_app, pick_in_range by (apply Hjs; now left).
    rewrite IH; [reflexivity |]. intros j' Hj'. apply Hjs. now right. }
  rewrite H.
  - apply length_seq.
  - intros j Hj. apply in_seq in Hj. apply slice_length_bound; lia.
Qed.

Lemma slice_length_balanced (len n i i' : nat) :
  i < n -> i' < n -> slice_length len i n <= slice_length len i' n + 1.
Proof.
  intros Hi Hi'. unfold slice_length.
  destruct (i <? len) eqn:E; [| lia].
  apply Nat.ltb_lt in E.
  destruct (i' <? len) eqn:E'.
  - apply Nat.ltb_lt in E'.
    assert (H : (len - i - 1) / n <= (len - i' - 1 + 1 * n) / n)
      by (apply Nat.Div0.div_le_mono; lia).
    rewrite Nat.div_add in H by lia. lia.
  - apply Nat.ltb_ge in E'.
    rewrite Nat.div_small by lia. lia.
Qed.

(** C7. For every list of work-item keys and every thread count
    [n_threads >= 1], the chunks [folders[i::n_threads]] put every item in
    exactly one chunk: there are [n_threads] chunks, chunk [i] holds the
    items at the positions congruent to [i], so each position of the list
    belongs to one chunk and to no other, and the chunks laid end to end
    are a rearrangement of the list (hence pairwise disjoint when the keys
    are distinct).  Any two chunk sizes differ by at most one. *)
Theorem round_robin_partition {A} (folders : list A) (n_threads : nat) :
  1 <= n_threads ->
  List.length (folder_chunks folders n_threads) = n_threads
  /\ Permutation (List.concat (folder_chunks folders n_threads)) folders
  /\ (forall k i, k < List.length folders -> i < n_threads ->
        (In k (slice_indices (List.length folders) i n_threads) <-> i = k mod n_threads))
  /\ (NoDup folders -> NoDup (List.concat (folder_chunks folders n_threads)))
  /\ (forall c c', In c (folder_chunks folders n_threads) ->
                   In c' (folder_chunks folders n_threads) ->
                   List.length c <= List.length c' + 1).
Proof.
  intros Hn.
  assert (Hperm : Permutation (List.concat (folder_chunks folders n_threads)) folders).
  { rewrite concat_folder_chunks.
    rewrite (chunk_positions_perm (List.length folders) n_threads Hn).
    rewrite flat_map_pick_all. reflexivity. }
  split; [| split; [| split; [| split]]].
  - unfold folder_chunks. rewrite length_map, length_seq. reflexivity.
  - exact Hperm.
  - intros k i Hk Hi. rewrite in_slice_indices by lia. split.
    + intros [_ H]. symmetry. exact H.
    + intros ->. split; [exact Hk | reflexivity].
  - intros Hnd. apply (Permutation_NoDup (Permutation_sym Hperm)). exact Hnd.
  - intros c c' Hc Hc'. unfold folder_chunks in Hc, Hc'.
    apply in_map_iff in Hc. destruct Hc as [i [<- Hi]].
    apply in_map_iff in Hc'. destruct Hc' as [i' [<- Hi']].
    apply in_seq in Hi. apply in_seq in Hi'.
    rewrite !length_slice_from by exact Hn.
    apply slice_length_balanced; lia.
Qed.

(** ** The key selector *)

Lemma get_next_client_step (API_KEYS : list string) (k : nat) :
  API_KEYS <> [] ->
  exists key,
    nth_error API_KEYS (k mod List.length API_KEYS) = Some key
    /\ get_next_client API_KEYS k = (Ret (Client key), S k).
Proof.
  intros Hne. unfold get_next_client, bind, get, modify, ret.
  destruct API_KEYS as [| key0 keys]; [congruence |].
  set (n := List.length (key0 :: keys)).
  assert (Hn : 0 < n) by (subst n; simpl; lia).
  destruct (nth_error (key0 :: keys) (k mod n)) as [key |] eqn:E.
  - exists key. split; [reflexivity |]. destruct n; [lia | reflexivity].
  - apply nth_error_None in E.
    pose proof (Nat.mod_upper_bound k n). fold n in E. lia.
Qed.

Lemma get_next_clients_run (API_KEYS : list string) (n s : nat) :
  API_KEYS <> [] ->
  get_next_clients API_KEYS n s =
    (Ret (map Client
            (flat_map (pick API_KEYS)
               (map (fun j => j mod List.length API_KEYS) (seq s n)))),
     s + n).
Proof.
  intros Hne. revert s. induction n as [| n IH]; intros s.
  - simpl. unfold ret. rewrite Nat.add_0_r. reflexivity.
  - cbn [get_next_clients seq map flat_map]. unfold bind at 1.
    destruct (get_next_client_step API_KEYS s Hne) as [key [Hkey Hstep]].
    rewrite Hstep. unfold bind at 1. rewrite IH. unfold ret.
    replace (pick API_KEYS (s mod List.length API_KEYS)) with [key]
      by (unfold pick; rewrite Hkey; reflexivity).
    simpl. f_equal. lia.
Qed.

Lemma window_residues (n s : nat) :
  1 <= n -> Permutation (map (fun j => j mod n) (seq s n)) (seq 0 n).
Proof.
  intros Hn. apply NoDup_Permutation_bis.
  - apply Finite.Injective_map_NoDup_in; [| apply seq_NoDup].
    intros a b Ha Hb Hab. apply in_seq in Ha. apply in_seq in Hb.
    pose proof (Nat.div_mod_eq a n) as Da. pose proof (Nat.div_mod_eq b n) as Db.
    rewrite Hab in Da.
    assert (a / n = b / n) by nia.
    congruence.
  - rewrite length_map, !length_seq. lia.
  - intros x Hx. apply in_map_iff in Hx. destruct Hx as [j [<- _]].
    apply in_seq. split; [lia |]. simpl. apply Nat.mod_upper_bound. lia.
Qed.

(** C10. With a non-empty [API_KEYS], a call of [get_next_client] made when
    the counter is [k] (the k-th call, counting from 0, as the counter
    starts at 0 and every call adds one to it) returns a client built with
    [API_KEYS[k mod len(API_KEYS)]] and leaves the counter at [k + 1]; the
    first [k] calls leave it at [k]; and any [len(API_KEYS)] calls in a row
    use each key of [API_KEYS] exactly once. *)
Theorem get_next_client_round_robin (API_KEYS : list string) (k : nat) :
  API_KEYS <> [] ->
  (exists key,
      nth_error API_KEYS (k mod List.length API_KEYS) = Some key
      /\ get_next_client API_KEYS k = (Ret (Client key), S k))
  /\ snd (get_next_clients API_KEYS k 0) = k
  /\ (exists cs,
        get_next_clients API_KEYS (List.length API_KEYS) k
          = (Ret cs, k + List.length API_KEYS)
        /\ Permutation (map api_key cs) API_KEYS).
Proof.
  intros Hne. split; [| split].
  - apply get_next_client_step. exact Hne.
  - rewrite get_next_clients_run by exact Hne. reflexivity.
  - eexists. split.
    + apply get_next_clients_run. exact Hne.
    + rewrite map_map. cbn [api_key]. rewrite map_id.
      assert (Hn : 1 <= List.length API_KEYS).
      { destruct API_KEYS; [congruence | simpl; lia]. }
      rewrite (window_residues (List.length API_KEYS) k Hn).
      rewrite flat_map_pick_all. reflexivity.
Qed.

(** ** The compositor *)

Ltac box_cases :=
  repeat match goal with
         | |- context [if ?b then _ else _] => destruct b eqn:?
         end;
  repeat match goal with
         | H : (_ && _)%bool = true |- _ => apply andb_true_iff in H; destruct H
         | H : (_ && _)%bool = false |- _ => apply andb_false_iff in H; destruct H
         | H : (_ <=? _) = true |- _ => apply Nat.leb_le in H
         | H : (_ <=? _) = false |- _ => apply Nat.leb_gt in H
         | H : (_ <? _) = true |- _ => apply Nat.ltb_lt in H
         | H : (_ <? _) = false |- _ => apply Nat.ltb_ge in H
         end;
  try lia.

Lemma pixel_at (img : image) (x x' y y' : nat) :
  x = x' -> y = y' -> pixel img x y = pixel img x' y'.
Proof. intros -> ->. reflexivity. Qed.

(** C8. The canvas [stack_three_images_and_save] builds and saves (when
    the file can be opened; when it cannot, the exception is raised and
    nothing is written) is
    [w1 + w2 + w3] wide and [max(h1, h2, h3)] high; image 1 sits at
    horizontal offset 0, image 2 at [w1] and image 3 at [w1 + w2], each
    with its top row on the top row of the canvas: the pixel [(x, y)] of an
    image is the pixel of the canvas at its offset plus [x], row [y], and
    under an image that is shorter than the canvas the canvas keeps the
    black it started with. *)
Theorem stack_three_images_layout (encode_image : image -> list byte)
    (open_fault : string -> option exn)
    (img1 img2 img3 : image) (output_file_path : string) (w : world) :
  let canvas := stack_three_images img1 img2 img3 in
  stack_three_images_and_save encode_image open_fault img1 img2 img3 output_file_path w
    = match open_fault output_file_path with
      | None => (Ret tt, write_file output_file_path (FBytes (encode_image canvas)) w)
      | Some e => (Raise e, w)
      end
  /\ width canvas = width img1 + width img2 + width img3
  /\ height canvas = Nat.max (Nat.max (height img1) (height img2)) (height img3)
  /\ (forall x y, x < width img1 -> y < height img1 ->
        pixel canvas x y = pixel img1 x y)
  /\ (forall x y, x < width img2 -> y < height img2 ->
        pixel canvas (width img1 + x) y = pixel img2 x y)
  /\ (forall x y, x < width img3 -> y < height img3 ->
        pixel canvas (width img1 + width img2 + x) y = pixel img3 x y)
  /\ (forall x y, x < width img1 -> height img1 <= y -> pixel canvas x y = (0, 0, 0))
  /\ (forall x y, x < width img2 -> height img2 <= y ->
        pixel canvas (width img1 + x) y = (0, 0, 0))
  /\ (forall x y, x < width img3 -> height img3 <= y ->
        pixel canvas (width img1 + width img2 + x) y = (0, 0, 0)).
Proof.
  intros canvas. subst canvas.
  split; [unfold stack_three_images_and_save;
          destruct (open_fault output_file_path); reflexivity |].
  split; [reflexivity |]. split; [reflexivity |].
  unfold stack_three_images, paste, Image_new. cbn [pixel width height].
  repeat split; intros x y Hx Hy; box_cases; first [reflexivity | apply pixel_at; lia].
Qed.

(** ** The image transfer helper *)

(** The world after an HTTP exchange answered by [o]. *)
Definition after_http (ev : event) (o : http_outcome) (w : world) : world :=
  advance (latency o) (log ev w).

Lemma http_run (ev : event) (o : http_outcome) (w : world) :
  http ev o w =
    (match reply o with inl e => Raise e | inr r => Ret r end, after_http ev o w).
Proof.
  unfold http, bind, modify, raise, ret, after_http.
  destruct (reply o); reflexivity.
Qed.

(** The sentence of the specification on [download_image], as it is
    written: success on HTTP 200, and otherwise (another status, or a
    transport fault) a false value is returned and nothing is raised. *)
Definition download_image_as_specified : Prop :=
  forall (get : string -> http_outcome) (open_fault : string -> option exn)
         (url path : string) (w : world),
    (forall r, reply (get url) = inr r -> status_code r = 200%Z ->
       exists w', download_image get open_fault url path w = (Ret (Some true), w')
                  /\ files w' path = Some (FBytes (content r)))
    /\ ((forall r, reply (get url) = inr r -> status_code r <> 200%Z) ->
        exists v w', download_image get open_fault url path w = (Ret v, w')
                     /\ truthy v = false).

(** C5, as the code has it.  On HTTP 200 [download_image] opens the
    destination, and when that succeeds it writes the whole body there and
    returns [True]; when the destination cannot be opened (the function
    makes no directory) the exception of [open] leaves [download_image]
    and nothing is written.  On any other HTTP status it returns [None], a
    false value, raises nothing and writes nothing.  On a transport fault
    the exception of [requests.get] leaves [download_image] and reaches
    the caller, and nothing is written. *)
Theorem download_image_outcomes (get : string -> http_outcome)
    (open_fault : string -> option exn) (url path : string) (w : world) :
  let w1 := after_http (EvGet url) (get url) w in
  let run := download_image get open_fault url path w in
  match reply (get url) with
  | inr r =>
      if (status_code r =? 200)%Z then
        match open_fault path with
        | None =>
            run = (Ret (Some true), write_file path (FBytes (content r)) w1)
            /\ files (snd run) path = Some (FBytes (content r))
        | Some e =>
            run = (Raise e, w1)
            /\ files (snd run) = files w
        end
      else
        run = (Ret None, w1)
        /\ truthy None = false
        /\ files (snd run) = files w
  | inl e =>
      run = (Raise e, w1)
      /\ files (snd run) = files w
  end.
Proof.
  intros w1 run. subst w1 run. unfold download_image, bind. rewrite http_run.
  destruct (reply (get url)) as [e | r]; cbn [fst snd].
  - split; reflexivity.
  - destruct (status_code r =? 200)%Z; cbn [fst snd].
    + destruct (open_fault path) as [e |]; [split; reflexivity |].
      split; [reflexivity |]. unfold modify, ret, write_file. cbn [snd files].
      rewrite String.eqb_refl. reflexivity.
    + repeat split; reflexivity.
Qed.

(** ** The try-on runner *)

Lemma string_app_assoc (a b c : string) : ((a ++ b) ++ c)%string = (a ++ b ++ c)%string.
Proof. induction a as [| x a IH]; simpl; [reflexivity | now rewrite IH]. Qed.

(** [sub] occurs in [s]. *)
Definition contains (s sub : string) : Prop :=
  exists pre post, s = (pre ++ sub ++ post)%string.

Lemma contains_here (pre sub post : string) : contains (pre ++ sub ++ post) sub.
Proof. now exists pre, post. Qed.

Lemma contains_end (pre sub : string) : contains (pre ++ sub) sub.
Proof.
  exists pre, ""%string. f_equal.
  induction sub as [| x sub IH]; simpl; [reflexivity | now rewrite <- IH].
Qed.

Lemma contains_after (pre s sub : string) : contains s sub -> contains (pre ++ s) sub.
Proof.
  intros [a [b ->]]. exists (pre ++ a)%string, b. now rewrite string_app_assoc.
Qed.

Definition is_poll (e : event) : bool :=
  match e with EvPoll _ => true | _ => false end.

Definition is_submit (e : event) : bool :=
  match e with EvSubmit _ => true | _ => false end.


(** The status queries made so far: the poll count. *)
Definition polls_made (w : world) : nat := List.length (filter is_poll (trace w)).

(** The manifest file holds the summary as it is in memory. *)
Definition manifest_synced (w : world) : Prop :=
  files w results_json_path = Some (FJson (summary_json (results_summary w))).

Lemma build_data_pure {S} (item : list (string * string)) (rnd : Z) (s : S) :
  build_data item rnd s = (fst (build_data item rnd tt), s).
Proof.
  unfold build_data, bind, subscript, ret, KeyError, raise.
  repeat match goal with
         | |- context [if ?b then _ else _] => destruct b
         | |- context [match assoc ?k ?d with _ => _ end] => destruct (assoc k d)
         end; reflexivity.
Qed.

Lemma append_and_persist_run (r : result_record) (w : world) :
  append_and_persist r w =
    (Ret tt,
     write_file results_json_path
       (FJson (summary_json (mkSummary (requests (results_summary w) ++ [r])
                                       (average_duration (results_summary w)))))
       (set_summary (mkSummary (requests (results_summary w) ++ [r])
                               (average_duration (results_summary w))) w)).
Proof. reflexivity. Qed.

Lemma append_and_persist_synced (r : result_record) (w : world) :
  manifest_synced (snd (append_and_persist r w)).
Proof.
  rewrite append_and_persist_run. unfold manifest_synced, write_file, set_summary.
  cbn [snd files results_summary]. rewrite String.eqb_refl. reflexivity.
Qed.

(** *** Three properties of computations, and how they compose *)

(** [c] leaves the observation [obs] of the state as it found it. *)
Definition keeps {S X A} (obs : S -> X) (c : M S A) : Prop :=
  forall s, obs (snd (c s)) = obs s.


(** Whatever [c] returns satisfies [Q]. *)
Definition ensures {S A} (Q : A -> Prop) (c : M S A) : Prop :=
  forall s a, fst (c s) = Ret a -> Q a.

Section Keeps.

Context {S X : Type} (obs : S -> X).

Lemma keeps_ret {A} (a : A) : keeps obs (@ret S A a).
Proof. intros s. reflexivity. Qed.

Lemma keeps_raise {A} (e : exn) : keeps obs (@raise S A e).
Proof. intros s. reflexivity. Qed.

Lemma keeps_get : keeps obs (@get S).
Proof. intros s. reflexivity. Qed.

Lemma keeps_bind {A B} (c : M S A) (k : A -> M S B) :
  keeps obs c -> (forall a, keeps obs (k a)) -> keeps obs (bind c k).
Proof.
  intros Hc Hk s. unfold bind. specialize (Hc s).
  destruct (c s) as [[a | e] s1]; cbn [snd] in *.
  - rewrite Hk. exact Hc.
  - exact Hc.
Qed.

Lemma keeps_try_catch {A} (c : M S A) (h : exn -> M S A) :
  keeps obs c -> (forall e, keeps obs (h e)) -> keeps obs (try_catch c h).
Proof.
  intros Hc Hh s. unfold try_catch. specialize (Hc s).
  destruct (c s) as [[a | e] s1]; cbn [snd] in *.
  - exact Hc.
  - rewrite Hh. exact Hc.
Qed.

Lemma keeps_modify (f : S -> S) :
  (forall s, obs (f s) = obs s) -> keeps obs (modify f).
Proof. intros Hf s. unfold modify. cbn [snd]. apply Hf. Qed.

Lemma keeps_subscript {V} (d : list (string * V)) (k : string) :
  keeps obs (@subscript S V d k).
Proof. intros s. unfold subscript, KeyError. destruct (assoc k d); reflexivity. Qed.

Lemma keeps_json_subscript (j : json) (k : string) : keeps obs (@json_subscript S j k).
Proof. destruct j; try apply keeps_raise. apply keeps_subscript. Qed.

Lemma keeps_json_get (j : json) (k : string) (d : json) : keeps obs (@json_get S j k d).
Proof. destruct j; try apply keeps_raise. apply keeps_ret. Qed.

Lemma keeps_response_json (r : response) : keeps obs (@response_json S r).
Proof. unfold response_json. destruct (body r); [apply keeps_raise | apply keeps_ret]. Qed.

End Keeps.

















Lemma ensures_ret {S A} (Q : A -> Prop) (a : A) : Q a -> ensures Q (@ret S A a).
Proof. intros Ha s b Hb. unfold ret in Hb. cbn in Hb. congruence. Qed.

Lemma ensures_raise {S A} (Q : A -> Prop) (e : exn) : ensures Q (@raise S A e).
Proof. intros s b Hb. discriminate Hb. Qed.

Lemma ensures_bind {S A B} (Q : B -> Prop) (c : M S A) (k : A -> M S B) :
  (forall a, ensures Q (k a)) -> ensures Q (bind c k).
Proof.
  intros Hk s b. unfold bind. destruct (c s) as [[a | e] s1]; cbn.
  - apply Hk.
  - discriminate.
Qed.

Lemma ensures_try_catch {S A} (Q : A -> Prop) (c : M S A) (h : exn -> M S A) :
  ensures Q c -> (forall e, ensures Q (h e)) -> ensures Q (try_catch c h).
Proof.
  intros Hc Hh s a. unfold try_catch. specialize (Hc s).
  destruct (c s) as [[a' | e] s1]; cbn in *.
  - apply Hc.
  - apply Hh.
Qed.

Lemma ensures_json_get {S} (Q : json -> Prop) (j : json) (k : string) (d : json) :
  (forall x, Q x) -> ensures Q (@json_get S j k d).
Proof. intros H s a _. apply H. Qed.

(** *** What the steps leave unchanged *)

Lemma after_http_facts (ev : event) (o : http_outcome) (w : world) :
  let w' := after_http ev o w in
  trace w' = (trace w ++ [ev])%list
  /\ clock w' = (clock w + latency o)%Q
  /\ results_summary w' = results_summary w
  /\ files w' = files w.
Proof. repeat split. Qed.

Lemma count_fail_frame (thread_idx : nat) (w : world) :
  let w' := snd (count_fail thread_idx w) in
  trace w' = trace w
  /\ clock w' = clock w
  /\ results_summary w' = results_summary w
  /\ files w' = files w.
Proof. repeat split. Qed.

Lemma append_and_persist_facts (r : result_record) (w : world) :
  let w' := snd (append_and_persist r w) in
  append_and_persist r w = (Ret tt, w')
  /\ requests (results_summary w') = (requests (results_summary w) ++ [r])%list
  /\ trace w' = trace w
  /\ clock w' = clock w
  /\ average_duration (results_summary w') = average_duration (results_summary w)
  /\ manifest_synced w'.
Proof.
  cbv zeta. split; [reflexivity |]. split; [reflexivity |]. split; [reflexivity |].
  split; [reflexivity |]. split; [reflexivity |]. apply append_and_persist_synced.
Qed.

Section RunnerFacts.

Variable py_str : json -> string.
Variable decode_image : list byte -> option image.
Variable encode_image : image -> list byte.
Variable input_json : list (string * list (string * string)).
Variable env : string -> item_env.

Local Abbreviation process_folder' := (process_folder py_str decode_image encode_image input_json env).
Local Abbreviation poll_loop' := (poll_loop py_str decode_image encode_image env).
Local Abbreviation save_result' := (save_result py_str decode_image encode_image env).

(** What [time.time()] reads in [w] for the item [folder_name]. *)
Definition started (folder_name : string) (w : world) : Q :=
  (clock w + lost_time (env folder_name) (List.length (trace w)))%Q.

(** The record an early exit appends, and the world it leaves. *)
Definition failed_submission (folder_name : string) (thread_idx : nat) (start_time : Q)
    (nt : string) (data : list (string * string)) (garment_id human_id : json)
    (w : world) : world :=
  let w1 := after_http (EvSubmit data) (submit_reply (env folder_name)) w in
  snd (early_record env folder_name start_time nt data garment_id human_id
         (snd (count_fail thread_idx w1))).

Lemma submit_refused (folder_name : string) (thread_idx : nat) (start_time : Q)
    (data : list (string * string)) (garment_id human_id : json) (w : world) (r : response) :
  reply (submit_reply (env folder_name)) = inr r ->
  status_code r <> 200%Z ->
  submit env folder_name thread_idx start_time data garment_id human_id w =
    (Ret None,
     failed_submission folder_name thread_idx start_time
       ("ERROR resp " ++ folder_name ++ ", " ++ str_int (status_code r) ++ ", " ++ text r)
       data garment_id human_id w).
Proof.
  intros Hr Hcode. unfold submit, try_catch, failed_submission.
  unfold bind at 1. rewrite http_run, Hr.
  apply Z.eqb_neq in Hcode. rewrite Hcode. cbn [negb]. reflexivity.
Qed.

Lemma submit_fault (folder_name : string) (thread_idx : nat) (start_time : Q)
    (data : list (string * string)) (garment_id human_id : json) (w : world) (e : exn) :
  reply (submit_reply (env folder_name)) = inl e ->
  submit env folder_name thread_idx start_time data garment_id human_id w =
    (Ret None,
     failed_submission folder_name thread_idx start_time
       ("Exception: " ++ exn_text e) data garment_id human_id w).
Proof.
  intros Hr. unfold submit, try_catch, failed_submission.
  unfold bind at 1. rewrite http_run, Hr. reflexivity.
Qed.

Lemma failed_submission_facts (folder_name : string) (thread_idx : nat) (start_time : Q)
    (nt : string) (data : list (string * string)) (garment_id human_id : json) (w : world) :
  let w' := failed_submission folder_name thread_idx start_time nt data garment_id human_id w in
  let rec := mkRecord folder_name "fail"
               (clock w + latency (submit_reply (env folder_name))
                + lost_time (env folder_name) (List.length (trace w ++ [EvSubmit data]))
                - start_time)%Q nt JNull
               (dict_get data "garment_url" "") (dict_get data "human_url" "")
               garment_id human_id in
  requests (results_summary w') = (requests (results_summary w) ++ [rec])%list
  /\ trace w' = (trace w ++ [EvSubmit data])%list
  /\ manifest_synced w'
  /\ n_fail (results w' thread_idx) = n_fail (results w thread_idx) + 1.
Proof.
  unfold failed_submission, early_record, manifest_synced.
  cbv [bind time_time get ret append_and_persist persist modify count_fail after_http
       advance log set_summary set_counters write_file snd fst
       clock files results_summary results trace requests average_duration n_fail n_done].
  rewrite String.eqb_refl, Nat.eqb_refl. repeat split; reflexivity.
Qed.

Lemma process_folder_start (folder_name : string) (thread_idx : nat)
    (item : list (string * string)) (data : list (string * string))
    (garment_id human_id : json) (w : world) :
  assoc folder_name input_json = Some item ->
  fst (build_data item (random_number (env folder_name)) tt) = Ret (data, garment_id, human_id) ->
  process_folder' folder_name thread_idx w =
    match submit env folder_name thread_idx (started folder_name w) data garment_id human_id w
    with
    | (Ret None, w1) => (Ret tt, w1)
    | (Ret (Some tryon_id), w1) =>
        (v <- poll_loop' folder_name thread_idx item tryon_id wait_times
                (mkVars "fail" "" garment_id human_id 0) ;;
         t <- time_time (lost_time (env folder_name)) ;;
         garment_url <- subscript data "garment_url" ;;
         human_url <- subscript data "human_url" ;;
         append_and_persist
           (mkRecord folder_name (v_status v) (t - started folder_name w)%Q (v_note v) tryon_id
              garment_url human_url (v_garment_id v) (v_human_id v))) w1
    | (Raise e, w1) => (Raise e, w1)
    end.
Proof.
  intros Hitem Hdata. unfold process_folder, started.
  unfold bind at 1. unfold time_time at 1, bind at 1, get, ret.
  unfold bind at 1. unfold subscript at 1. rewrite Hitem. unfold ret at 1.
  unfold bind at 1. rewrite build_data_pure, Hdata. cbn [fst snd].
  unfold bind at 1.
  destruct (submit env folder_name thread_idx
              (clock w + lost_time (env folder_name) (List.length (trace w)))%Q
              data garment_id human_id w)
    as [[[tryon_id |] | e] w1]; reflexivity.
Qed.

(** C4. When the job-creation POST returns a status other than 200, or
    raises, the item ends at once: [process_folder] returns, having made
    that one request and no status query (the poll count is unchanged),
    and having appended one record whose status is ['fail'] and whose note
    holds the status code and the body of the response, or the text of the
    exception. *)
Theorem submission_failure_is_terminal (folder_name : string) (thread_idx : nat)
    (item : list (string * string)) (data : list (string * string))
    (garment_id human_id : json) (w : world) :
  assoc folder_name input_json = Some item ->
  fst (build_data item (random_number (env folder_name)) tt) = Ret (data, garment_id, human_id) ->
  (forall r, reply (submit_reply (env folder_name)) = inr r -> status_code r <> 200%Z) ->
  exists rec w',
    process_folder' folder_name thread_idx w = (Ret tt, w')
    /\ requests (results_summary w') = (requests (results_summary w) ++ [rec])%list
    /\ folder rec = folder_name
    /\ status rec = "fail"
    /\ match reply (submit_reply (env folder_name)) with
       | inr r => contains (note rec) (str_int (status_code r)) /\ contains (note rec) (text r)
       | inl e => contains (note rec) (exn_text e)
       end
    /\ trace w' = (trace w ++ [EvSubmit data])%list
    /\ polls_made w' = polls_made w
    /\ manifest_synced w'.
Proof.
  intros Hitem Hdata Hfail.
  rewrite (process_folder_start folder_name thread_idx item data garment_id human_id w Hitem Hdata).
  destruct (reply (submit_reply (env folder_name))) as [e | r] eqn:Hr.
  - rewrite (submit_fault _ _ _ _ _ _ _ _ Hr).
    destruct (failed_submission_facts folder_name thread_idx (started folder_name w)
                ("Exception: " ++ exn_text e) data garment_id human_id w)
      as [Hreq [Htrace [Hsync _]]].
    eexists. eexists. split; [reflexivity |].
    split; [exact Hreq |]. split; [reflexivity |]. split; [reflexivity |].
    split; [apply contains_end |]. split; [exact Htrace |]. split; [| exact Hsync].
    unfold polls_made. rewrite Htrace, filter_app. cbn. now rewrite app_nil_r.
  - rewrite (submit_refused _ _ _ _ _ _ _ _ Hr (Hfail r eq_refl)).
    destruct (failed_submission_facts folder_name thread_idx (started folder_name w)
                ("ERROR resp " ++ folder_name ++ ", " ++ str_int (status_code r) ++ ", " ++ text r)
                data garment_id human_id w)
      as [Hreq [Htrace [Hsync _]]].
    eexists. eexists. split; [reflexivity |].
    split; [exact Hreq |]. split; [reflexivity |]. split; [reflexivity |].
    split.
    { cbn [note]. split.
      - apply contains_after. apply contains_after. apply contains_here.
      - do 4 apply contains_after. apply contains_end. }
    split; [exact Htrace |]. split; [| exact Hsync].
    unfold polls_made. rewrite Htrace, filter_app. cbn. now rewrite app_nil_r.
Qed.

(** *** What a poll decides *)





(** One more poll has been counted. *)
Definition counted (v : vars) : vars :=
  mkVars (v_status v) (v_note v) (v_garment_id v) (v_human_id v) (v_poll_count v + 1).

(** The world after the sleep and the status query of one iteration. *)
Definition after_poll (folder_name : string) (tryon_id : json) (wait : Z) (k : nat)
    (w : world) : world :=
  after_http (EvPoll tryon_id) (poll_reply (env folder_name) k)
    (advance (inject_Z wait) (log (EvSleep wait) w)).

Lemma poll_loop_step (folder_name : string) (thread_idx : nat)
    (item : list (string * string)) (tryon_id : json) (wait : Z) (waits : list Z)
    (v : vars) (w : world) :
  poll_loop' folder_name thread_idx item tryon_id (wait :: waits) v w =
    let w1 := after_poll folder_name tryon_id wait (v_poll_count v) w in
    match reply (poll_reply (env folder_name) (v_poll_count v)) with
    | inl e => (Raise e, w1)
    | inr status_response =>
        if (status_code status_response =? 200)%Z then
          (status_json <- response_json status_response ;;
           message <- json_subscript status_json "message" ;;
           if negb (is_str message "success") then
             m <- json_get status_json "message" (JStr "") ;;
             count_fail thread_idx ;;;
             ret (set_outcome "fail" ("API message: " ++ py_str m) (counted v))
           else
             st <- json_subscript status_json "status" ;;
             if is_str st "done" then
               save_result' folder_name thread_idx item status_json (counted v)
             else
               poll_loop' folder_name thread_idx item tryon_id waits (counted v)) w1
        else
          (Ret (set_outcome "fail"
                  ("Status poll failed: " ++ str_int (status_code status_response) ++ ", "
                   ++ text status_response) (counted v)),
           snd (count_fail thread_idx w1))
    end.
Proof.
  cbn [poll_loop]. unfold bind at 1. unfold time_sleep at 1, modify at 1.
  unfold bind at 1. rewrite http_run. unfold after_poll, counted.
  destruct (reply (poll_reply (env folder_name) (v_poll_count v))) as [e | r]; [reflexivity |].
  destruct (status_code r =? 200)%Z; reflexivity.
Qed.

Lemma trace_after_poll (folder_name : string) (tryon_id : json) (wait : Z) (k : nat) (w : world) :
  trace (after_poll folder_name tryon_id wait k w)
    = (trace w ++ [EvSleep wait; EvPoll tryon_id])%list.
Proof.
  unfold after_poll, after_http, advance, log. cbn [trace].
  now rewrite <- app_assoc.
Qed.

Lemma poll_loop_exhausted (folder_name : string) (thread_idx : nat)
    (item : list (string * string)) (tryon_id : json) (v : vars) (w : world) :
  poll_loop' folder_name thread_idx item tryon_id [] v w =
    (Ret (set_outcome "timeout" "TIMEOUT waiting for tryon to complete" v),
     snd (count_fail thread_idx w)).
Proof. reflexivity. Qed.

Lemma poll_continues (folder_name : string) (thread_idx : nat)
    (item : list (string * string)) (tryon_id : json) (wait : Z) (waits : list Z)
    (v : vars) (w : world) (status_response : response)
    (d : list (string * json)) (message st : json) :
  reply (poll_reply (env folder_name) (v_poll_count v)) = inr status_response ->
  status_code status_response = 200%Z ->
  body status_response = inr (JObj d) ->
  assoc "message" d = Some message ->
  is_str message "success" = true ->
  assoc "status" d = Some st ->
  is_str st "done" = false ->
  poll_loop' folder_name thread_idx item tryon_id (wait :: waits) v w =
    poll_loop' folder_name thread_idx item tryon_id waits (counted v)
      (after_poll folder_name tryon_id wait (v_poll_count v) w).
Proof.
  intros Hreply Hcode Hbody Hm Hsucc Hst Hnot.
  rewrite poll_loop_step, Hreply. cbv zeta.
  apply Z.eqb_eq in Hcode. rewrite Hcode.
  unfold bind at 1. unfold response_json. rewrite Hbody. unfold ret at 1.
  unfold bind at 1. cbn [json_subscript]. unfold subscript. rewrite Hm. unfold ret at 1.
  rewrite Hsucc. cbn [negb].
  unfold bind at 1. rewrite Hst. unfold ret at 1. rewrite Hnot. reflexivity.
Qed.


Lemma item_of_object (j : json) (k : string) (x : json) :
  item_of j k = Ret x -> exists d, j = JObj d /\ assoc k d = Some x.
Proof.
  unfold item_of. destruct j as [| | | | | | d]; try discriminate.
  cbn [json_subscript]. unfold subscript. intros H. exists d. split; [reflexivity |].
  destruct (assoc k d) as [y |]; [| discriminate H]. injection H as <-. reflexivity.
Qed.


(** *** A job that never reports ['done'] *)

(** The status query is answered with HTTP 200, message ['success'] and a
    status other than ['done']. *)
Definition pending_reply (o : http_outcome) : bool :=
  match reply o with
  | inr r =>
      (status_code r =? 200)%Z
      && match body r with
         | inr (JObj d) =>
             match assoc "message" d, assoc "status" d with
             | Some message, Some st => is_str message "success" && negb (is_str st "done")
             | _, _ => false
             end
         | _ => false
         end
  | inl _ => false
  end.

(** The job-creation POST is answered with HTTP 200 and a JSON object: a
    job exists. *)
Definition accepted (o : http_outcome) : bool :=
  match reply o with
  | inr r =>
      (status_code r =? 200)%Z
      && match body r with inr (JObj _) => true | _ => false end
  | inl _ => false
  end.

(** The job identifier [submit] reads in an accepted reply. *)
Definition job_id (o : http_outcome) : json :=
  match reply o with
  | inr r => match body r with inr (JObj d) => dict_get d "tryon_id" JNull | _ => JNull end
  | inl _ => JNull
  end.

(** The item gives both inputs by URL, and a garment type. *)
Definition uses_urls (item : list (string * string)) : bool :=
  negb (has_key "human_id" item) && negb (has_key "garment_id" item)
  && has_key "human_url" item && has_key "garment_url" item && has_key "garment_type" item.

(** The payload built for an item that gives both inputs by URL. *)
Definition url_payload (item : list (string * string)) (rnd : Z) : list (string * string) :=
  [("human_url", dict_get item "human_url" "" ++ "?v=" ++ str_int rnd);
   ("garment_url", dict_get item "garment_url" "" ++ "?v=" ++ str_int rnd);
   ("garment_type", dict_get item "garment_type" "");
   ("mode", "fast")].

(** The world after the sleeps and status queries of [waits], the first
    query being the [k]-th. *)
Fixpoint after_polls (folder_name : string) (tryon_id : json) (waits : list Z) (k : nat)
    (w : world) : world :=
  match waits with
  | [] => w
  | wait :: waits' =>
      after_polls folder_name tryon_id waits' (S k) (after_poll folder_name tryon_id wait k w)
  end.

(** Seconds slept over a schedule. *)
Definition schedule_time (waits : list Z) : Q :=
  fold_right (fun wait acc => inject_Z wait + acc)%Q 0%Q waits.

(** Seconds spent in the status queries number [k] to [k + n - 1]. *)
Definition polls_time (folder_name : string) (k n : nat) : Q :=
  fold_right (fun j acc => latency (poll_reply (env folder_name) j) + acc)%Q 0%Q (seq k n).

Lemma build_data_urls (item : list (string * string)) (rnd : Z) :
  uses_urls item = true ->
  fst (build_data item rnd tt) = Ret (url_payload item rnd, JNull, JNull).
Proof.
  unfold uses_urls, has_key, build_data, url_payload, dict_get, subscript, bind, ret.
  unfold has_key.
  destruct (assoc "human_id" item); [discriminate |].
  destruct (assoc "garment_id" item); [discriminate |].
  destruct (assoc "human_url" item); [| discriminate].
  destruct (assoc "garment_url" item); [| discriminate].
  destruct (assoc "garment_type" item); [| discriminate].
  reflexivity.
Qed.

Lemma submit_accepted (folder_name : string) (thread_idx : nat) (start_time : Q)
    (data : list (string * string)) (garment_id human_id : json) (w : world) :
  accepted (submit_reply (env folder_name)) = true ->
  submit env folder_name thread_idx start_time data garment_id human_id w =
    (Ret (Some (job_id (submit_reply (env folder_name)))),
     after_http (EvSubmit data) (submit_reply (env folder_name)) w).
Proof.
  unfold accepted, job_id, submit, try_catch. unfold bind at 1. rewrite http_run.
  destruct (reply (submit_reply (env folder_name))) as [e | r]; [discriminate |].
  destruct (status_code r =? 200)%Z; [| discriminate]. cbn [andb negb].
  unfold bind at 1, response_json.
  destruct (body r) as [e | j]; [discriminate |].
  destruct j; try discriminate. reflexivity.
Qed.

Lemma poll_loop_pending (folder_name : string) (thread_idx : nat)
    (item : list (string * string)) (tryon_id : json) (waits : list Z) (v : vars) (w : world) :
  (forall j, j < List.length waits ->
             pending_reply (poll_reply (env folder_name) (v_poll_count v + j)) = true) ->
  poll_loop' folder_name thread_idx item tryon_id waits v w =
    (Ret (mkVars "timeout" "TIMEOUT waiting for tryon to complete"
            (v_garment_id v) (v_human_id v) (v_poll_count v + List.length waits)),
     snd (count_fail thread_idx
            (after_polls folder_name tryon_id waits (v_poll_count v) w))).
Proof.
  revert v w. induction waits as [| wait waits IH]; intros v w Hpending.
  - rewrite poll_loop_exhausted. unfold set_outcome. cbn [List.length].
    rewrite Nat.add_0_r. reflexivity.
  - pose proof (Hpending 0 (Nat.lt_0_succ _)) as H0. rewrite Nat.add_0_r in H0.
    unfold pending_reply in H0.
    destruct (reply (poll_reply (env folder_name) (v_poll_count v))) as [e | r] eqn:Hr;
      [discriminate |].
    apply andb_true_iff in H0. destruct H0 as [Hcode Hbody].
    destruct (body r) as [e | j] eqn:Hj; [discriminate |].
    destruct j as [| | | | | | d]; try discriminate.
    destruct (assoc "message" d) as [message |] eqn:Hm; [| discriminate].
    destruct (assoc "status" d) as [st |] eqn:Hst; [| discriminate].
    apply andb_true_iff in Hbody. destruct Hbody as [Hsucc Hnot].
    apply negb_true_iff in Hnot. apply Z.eqb_eq in Hcode.
    rewrite (poll_continues folder_name thread_idx item tryon_id wait waits v w r d message st
               Hr Hcode Hj Hm Hsucc Hst Hnot), IH.
    + cbn [after_polls List.length counted v_poll_count v_garment_id v_human_id].
      replace (v_poll_count v + 1 + List.length waits) with (v_poll_count v + S (List.length waits))
        by lia.
      replace (v_poll_count v + 1) with (S (v_poll_count v)) by lia.
      reflexivity.
    + intros j Hlt. cbn [counted v_poll_count].
      replace (v_poll_count v + 1 + j) with (v_poll_count v + S j) by lia.
      apply Hpending. cbn [List.length]. lia.
Qed.

Lemma after_polls_facts (folder_name : string) (tryon_id : json) (waits : list Z) (k : nat)
    (w : world) :
  let w' := after_polls folder_name tryon_id waits k w in
  trace w' = (trace w ++ flat_map (fun wait => [EvSleep wait; EvPoll tryon_id]) waits)%list
  /\ results_summary w' = results_summary w
  /\ files w' = files w
  /\ (clock w' == clock w + schedule_time waits + polls_time folder_name k (List.length waits))%Q.
Proof.
  revert k w. induction waits as [| wait waits IH]; intros k w; cbn zeta.
  - cbn. rewrite app_nil_r. repeat split; try reflexivity. ring.
  - cbn [after_polls]. specialize (IH (S k) (after_poll folder_name tryon_id wait k w)).
    cbn zeta in IH. destruct IH as [Ht [Hs [Hf Hc]]].
    split; [| split; [| split]].
    + rewrite Ht, trace_after_poll. cbn [flat_map]. rewrite <- app_assoc. reflexivity.
    + rewrite Hs. reflexivity.
    + rewrite Hf. reflexivity.
    + rewrite Hc. unfold after_poll, after_http, advance, log. cbn [clock].
      cbn [schedule_time polls_time fold_right List.length seq].
      fold (schedule_time waits). fold (polls_time folder_name (S k) (List.length waits)).
      ring.
Qed.

Lemma polls_time_nonneg (folder_name : string) (k n : nat) :
  (forall j, j < n -> (0 <= latency (poll_reply (env folder_name) (k + j)))%Q) ->
  (0 <= polls_time folder_name k n)%Q.
Proof.
  revert k. induction n as [| n IH]; intros k H.
  - cbn. lra.
  - unfold polls_time. cbn [seq fold_right]. fold (polls_time folder_name (S k) n).
    pose proof (H 0 (Nat.lt_0_succ _)) as H0. rewrite Nat.add_0_r in H0.
    assert (Hn : (0 <= polls_time folder_name (S k) n)%Q).
    { apply IH. intros j Hj. replace (S k + j) with (k + S j) by lia. apply H. lia. }
    lra.
Qed.

Lemma duration_bounds (d a b l : Q) :
  (d == 180 + a + b + l)%Q -> (0 <= a)%Q -> (0 <= b)%Q -> (0 <= l)%Q ->
  (180 <= d)%Q /\ (180 + a + b <= d)%Q.
Proof. intros Hd Ha Hb Hl. split; lra. Qed.

Lemma schedule_time_wait_times : (schedule_time wait_times == 180)%Q.
Proof. reflexivity. Qed.

(** C2, as the code has it.  For a work item that gives both inputs by URL,
    whose job was created and whose nine status queries are all answered
    with HTTP 200, message ['success'] and a status other than ['done']:
    [process_folder] makes exactly nine status queries, each after the
    sleep the schedule [10, 5, 10, 5, 10, 20, 30, 30, 60] prescribes, and
    appends one record whose status is ['timeout'].  The duration it
    records is the 180 seconds of the schedule, plus the time spent in the
    job-creation request and in the nine status queries, plus the time
    the thread lost meanwhile (late wake-ups, waits on the locks, the
    progress bars): at least 180 plus the time of the ten requests, with
    no bound from above. *)
Theorem timeout_after_schedule (folder_name : string) (thread_idx : nat)
    (item : list (string * string)) (w : world) :
  assoc folder_name input_json = Some item ->
  uses_urls item = true ->
  accepted (submit_reply (env folder_name)) = true ->
  (forall k, k < 9 -> pending_reply (poll_reply (env folder_name) k) = true) ->
  (0 <= latency (submit_reply (env folder_name)))%Q ->
  (forall k, k < 9 -> (0 <= latency (poll_reply (env folder_name) k))%Q) ->
  (forall n m, n <= m -> (lost_time (env folder_name) n <= lost_time (env folder_name) m)%Q) ->
  exists rec w',
    process_folder' folder_name thread_idx w = (Ret tt, w')
    /\ requests (results_summary w') = (requests (results_summary w) ++ [rec])%list
    /\ folder rec = folder_name
    /\ status rec = "timeout"
    /\ trace w' =
         (trace w
          ++ EvSubmit (url_payload item (random_number (env folder_name)))
             :: flat_map (fun wait => [EvSleep wait;
                                       EvPoll (job_id (submit_reply (env folder_name)))])
                  [10; 5; 10; 5; 10; 20; 30; 30; 60]%Z)%list
    /\ polls_made w' = polls_made w + 9
    /\ (duration rec == 180 + latency (submit_reply (env folder_name))
                         + polls_time folder_name 0 9
                         + (lost_time (env folder_name) (List.length (trace w'))
                            - lost_time (env folder_name) (List.length (trace w))))%Q
    /\ (180 <= duration rec)%Q
    /\ (180 + latency (submit_reply (env folder_name)) + polls_time folder_name 0 9
        <= duration rec)%Q.
Proof.
  intros Hitem Hurls Haccepted Hpending Hsubmit Hpolls Hlost.
  set (data := url_payload item (random_number (env folder_name))).
  set (id := job_id (submit_reply (env folder_name))).
  rewrite (process_folder_start folder_name thread_idx item data JNull JNull w Hitem
             (build_data_urls item _ Hurls)).
  rewrite submit_accepted by exact Haccepted. fold id.
  destruct (after_http_facts (EvSubmit data) (submit_reply (env folder_name)) w)
    as [Ht1 [Hc1 [Hs1 _]]].
  remember (after_http (EvSubmit data) (submit_reply (env folder_name)) w) as w1 eqn:E1.
  unfold bind at 1. rewrite poll_loop_pending by (cbn [v_poll_count Nat.add]; exact Hpending).
  cbn [v_poll_count Nat.add].
  destruct (after_polls_facts folder_name id wait_times 0 w1) as [Ht2 [Hs2 [_ Hc2]]].
  remember (after_polls folder_name id wait_times 0 w1) as w2 eqn:E2.
  destruct (count_fail_frame thread_idx w2) as [Ht3 [Hc3 [Hs3 _]]].
  remember (snd (count_fail thread_idx w2)) as w3 eqn:E3.
  remember (started folder_name w) as t0 eqn:Et0.
  unfold bind at 1, time_time at 1, bind at 1, get, ret at 1.
  unfold bind at 1. unfold data at 1, subscript at 1.
  cbn [url_payload assoc String.eqb Ascii.eqb Bool.eqb].
  unfold ret at 1. unfold bind at 1. unfold data at 1, subscript at 1.
  cbn [url_payload assoc String.eqb Ascii.eqb Bool.eqb]. unfold ret at 1.
  cbn [v_status v_note v_garment_id v_human_id].
  match goal with
  | |- exists rec w', append_and_persist ?r _ = _ /\ _ =>
      destruct (append_and_persist_facts r w3) as [Hrun [Hreq [Ht4 _]]];
      remember (snd (append_and_persist r w3)) as w4 eqn:E4;
      exists r, w4
  end.
  split; [exact Hrun |].
  rewrite Hreq, Hs3, Hs2, Hs1. split; [reflexivity |].
  split; [reflexivity |]. split; [reflexivity |].
  assert (Htrace : trace w4
           = (trace w ++ EvSubmit data
                :: flat_map (fun wait => [EvSleep wait; EvPoll id]) wait_times)%list).
  { rewrite Ht4, Ht3, Ht2, Ht1, <- app_assoc. reflexivity. }
  split; [exact Htrace |]. split.
  { unfold polls_made. rewrite Htrace, filter_app, length_app. reflexivity. }
  cbn [duration]. rewrite <- Ht4.
  remember (lost_time (env folder_name) (List.length (trace w4))) as l1 eqn:El1.
  assert (Hl : (lost_time (env folder_name) (List.length (trace w)) <= l1)%Q).
  { subst l1. apply Hlost. rewrite Htrace, length_app. lia. }
  assert (Hclock : (clock w3 + l1 - t0
                    == 180 + latency (submit_reply (env folder_name))
                       + polls_time folder_name 0 9
                       + (l1 - lost_time (env folder_name) (List.length (trace w))))%Q).
  { subst t0. unfold started.
    rewrite Hc3, Hc2, Hc1, schedule_time_wait_times. cbn [List.length wait_times]. ring. }
  split; [exact Hclock |].
  apply (duration_bounds _ _ _ _ Hclock Hsubmit).
  - apply polls_time_nonneg. exact Hpolls.
  - lra.
Qed.

(** *** An item whose payload has no ['garment_url'] *)

Lemma http_keeps_summary (ev : event) (o : http_outcome) :
  keeps results_summary (http ev o).
Proof. intros w. rewrite http_run. reflexivity. Qed.

Ltac frame :=
  repeat first
    [ apply keeps_ret | apply keeps_raise | apply keeps_get
    | apply keeps_json_subscript | apply keeps_json_get | apply keeps_subscript
    | apply keeps_response_json | apply http_keeps_summary
    | apply keeps_modify; reflexivity
    | apply keeps_bind; [| intros ?]
    | apply keeps_try_catch; [| intros ?]
    | match goal with |- keeps _ (if ?b then _ else _) => destruct b end
    | match goal with |- keeps _ (match ?x with _ => _ end) => destruct x end ].

Lemma save_result_keeps_summary (folder_name : string) (thread_idx : nat)
    (item : list (string * string)) (status_json : json) (v : vars) :
  keeps results_summary (save_result' folder_name thread_idx item status_json v).
Proof.
  unfold save_result, download_json_url, download_image, Image_open,
    stack_three_images_and_save, count_done, count_fail, os_makedirs.
  cbv zeta. frame.
Qed.

Lemma poll_loop_keeps_summary (folder_name : string) (thread_idx : nat)
    (item : list (string * string)) (tryon_id : json) (waits : list Z) (v : vars) :
  keeps results_summary (poll_loop' folder_name thread_idx item tryon_id waits v).
Proof.
  revert v. induction waits as [| wait waits IH]; intros v; cbn [poll_loop].
  - unfold count_fail. frame.
  - unfold time_sleep, count_fail.
    apply keeps_bind; [apply keeps_modify; reflexivity | intros _].
    apply keeps_bind; [apply http_keeps_summary | intros r].
    destruct (status_code r =? 200)%Z; [| frame].
    apply keeps_bind; [apply keeps_response_json | intros status_json].
    apply keeps_bind; [apply keeps_json_subscript | intros message].
    destruct (negb (is_str message "success")); [frame |].
    apply keeps_bind; [apply keeps_json_subscript | intros st].
    destruct (is_str st "done"); [apply save_result_keeps_summary | apply IH].
Qed.

Lemma build_data_with_garment_id (item : list (string * string)) (rnd : Z)
    (data : list (string * string)) (garment_id human_id : json) :
  has_key "garment_id" item = true ->
  fst (build_data item rnd tt) = Ret (data, garment_id, human_id) ->
  assoc "garment_url" data = None.
Proof.
  intros Hid. unfold build_data, bind, subscript, ret, KeyError, raise. rewrite Hid.
  destruct (has_key "human_id" item);
    repeat match goal with
           | |- context [match assoc ?k item with _ => _ end] => destruct (assoc k item)
           end; cbn; intros H; try discriminate H;
    injection H as <- _ _; reflexivity.
Qed.

Lemma process_folder_unbuilt (folder_name : string) (thread_idx : nat)
    (item : list (string * string)) (e : exn) (w : world) :
  assoc folder_name input_json = Some item ->
  fst (build_data item (random_number (env folder_name)) tt) = Raise e ->
  process_folder' folder_name thread_idx w = (Raise e, w).
Proof.
  intros Hitem Hdata. unfold process_folder.
  unfold bind at 1. unfold time_time at 1, bind at 1, get, ret.
  unfold bind at 1. unfold subscript at 1. rewrite Hitem. unfold ret at 1.
  unfold bind at 1. rewrite build_data_pure, Hdata. reflexivity.
Qed.

Lemma record_needs_garment_url (c : M world vars) (folder_name : string) (start_time : Q)
    (lost : nat -> Q) (tryon_id : json) (data : list (string * string)) (w : world) :
  keeps results_summary c ->
  assoc "garment_url" data = None ->
  let run :=
    (v <- c ;;
     t <- time_time lost ;;
     garment_url <- subscript data "garment_url" ;;
     human_url <- subscript data "human_url" ;;
     append_and_persist
       (mkRecord folder_name (v_status v) (t - start_time)%Q (v_note v) tryon_id
          garment_url human_url (v_garment_id v) (v_human_id v))) w in
  (exists e, fst run = Raise e) /\ results_summary (snd run) = results_summary w.
Proof.
  intros Hc Hmissing run.
  assert (Hrun : exists e, run = (Raise e, snd (c w))).
  { subst run. unfold bind at 1. destruct (c w) as [[v | e] w2]; cbn [snd].
    - unfold bind at 1, time_time at 1, bind at 1, get, ret at 1.
      unfold bind at 1, subscript at 1. rewrite Hmissing. eexists. reflexivity.
    - eexists. reflexivity. }
  destruct Hrun as [e ->]. cbn [fst snd]. split; [eexists; reflexivity | apply Hc].
Qed.

(** Whatever the service answers once the job is created, an item that
    gives its garment by ['garment_id'] leaves [process_folder] by an
    exception and without a record. *)
Lemma garment_id_item_is_lost (folder_name : string) (thread_idx : nat)
    (item : list (string * string)) (w : world) :
  assoc folder_name input_json = Some item ->
  has_key "garment_id" item = true ->
  accepted (submit_reply (env folder_name)) = true ->
  (exists e, fst (process_folder' folder_name thread_idx w) = Raise e)
  /\ results_summary (snd (process_folder' folder_name thread_idx w)) = results_summary w.
Proof.
  intros Hitem Hid Haccepted.
  destruct (fst (build_data item (random_number (env folder_name)) tt))
    as [[[data garment_id] human_id] | e] eqn:Hdata.
  - pose proof (build_data_with_garment_id _ _ _ _ _ Hid Hdata) as Hmissing.
    rewrite (process_folder_start folder_name thread_idx item data garment_id human_id w
               Hitem Hdata).
    rewrite submit_accepted by exact Haccepted.
    destruct (after_http_facts (EvSubmit data) (submit_reply (env folder_name)) w)
      as [_ [_ [Hs1 _]]].
    rewrite <- Hs1.
    apply record_needs_garment_url; [apply poll_loop_keeps_summary | exact Hmissing].
  - rewrite (process_folder_unbuilt folder_name thread_idx item e w Hitem Hdata).
    split; [eexists; reflexivity | reflexivity].
Qed.

End RunnerFacts.

(** ** The manifest *)

Definition opt_bind {A B} (o : option A) (k : A -> option B) : option B :=
  match o with Some a => k a | None => None end.

Definition field_str (d : list (string * json)) (k : string) : option string :=
  match assoc k d with Some (JStr s) => Some s | _ => None end.

Definition field_float (d : list (string * json)) (k : string) : option Q :=
  match assoc k d with Some (JFloat q) => Some q | _ => None end.

(** Reading one entry of ['requests'] back from the document. *)
Definition record_of_json (j : json) : option result_record :=
  match j with
  | JObj d =>
      opt_bind (field_str d "folder") (fun f =>
      opt_bind (field_str d "status") (fun s =>
      opt_bind (field_float d "duration") (fun q =>
      opt_bind (field_str d "note") (fun n =>
      opt_bind (assoc "tryon_id" d) (fun t =>
      opt_bind (field_str d "garment_url") (fun gu =>
      opt_bind (field_str d "human_url") (fun hu =>
      opt_bind (assoc "garment_id" d) (fun gi =>
      opt_bind (assoc "human_id" d) (fun hi =>
      Some (mkRecord f s q n t gu hu gi hi))))))))))
  | _ => None
  end.

Fixpoint all_some {A} (l : list (option A)) : option (list A) :=
  match l with
  | [] => Some []
  | o :: l' => opt_bind o (fun a => opt_bind (all_some l') (fun r => Some (a :: r)))
  end.

(** The records a manifest document holds, in the order of its
    ['requests'] array. *)
Definition manifest_requests (doc : json) : option (list result_record) :=
  match doc with
  | JObj d =>
      match assoc "requests" d with
      | Some (JArr items) => all_some (map record_of_json items)
      | _ => None
      end
  | _ => None
  end.

(** The ['average_duration'] of a manifest document: a number or [null]. *)
Definition manifest_average (doc : json) : option (option Q) :=
  match doc with
  | JObj d =>
      match assoc "average_duration" d with
      | Some JNull => Some None
      | Some (JFloat q) => Some (Some q)
      | _ => None
      end
  | _ => None
  end.

(** The manifest file as a reader finds it on disk. *)
Definition manifest_on_disk (w : world) : option json :=
  match files w results_json_path with
  | Some (FJson doc) => Some doc
  | _ => None
  end.

(** The records a run counts as successes. *)
Definition successes (s : summary) : list result_record :=
  filter (fun r => String.eqb (status r) "success") (requests s).

Lemma record_roundtrip (r : result_record) : record_of_json (record_json r) = Some r.
Proof. destruct r. reflexivity. Qed.

Lemma requests_roundtrip (rs : list result_record) :
  all_some (map record_of_json (map record_json rs)) = Some rs.
Proof.
  induction rs as [| r rs IH]; [reflexivity |].
  cbn [map all_some]. rewrite record_roundtrip, IH. reflexivity.
Qed.

Lemma manifest_roundtrip (s : summary) :
  manifest_requests (summary_json s) = Some (requests s)
  /\ manifest_average (summary_json s) = Some (average_duration s).
Proof.
  split.
  - unfold manifest_requests, summary_json. cbn [assoc String.eqb Ascii.eqb Bool.eqb].
    apply requests_roundtrip.
  - unfold manifest_average, summary_json. cbn [assoc String.eqb Ascii.eqb Bool.eqb].
    destruct (average_duration s); reflexivity.
Qed.

Lemma synced_on_disk (w : world) :
  manifest_synced w -> manifest_on_disk w = Some (summary_json (results_summary w)).
Proof. unfold manifest_synced, manifest_on_disk. intros ->. reflexivity. Qed.

Lemma finalize_facts (w : world) :
  let w' := snd (finalize w) in
  finalize w = (Ret tt, w')
  /\ requests (results_summary w') = requests (results_summary w)
  /\ average_duration (results_summary w') =
       match map duration (successes (results_summary w)) with
       | [] => None
       | _ :: _ => Some (py_mean (map duration (successes (results_summary w))))
       end
  /\ manifest_synced w'.
Proof.
  cbv zeta. split; [reflexivity |]. split; [reflexivity |]. split; [reflexivity |].
  unfold manifest_synced, finalize, persist, bind, modify, write_file. cbn [snd files].
  rewrite String.eqb_refl. reflexivity.
Qed.

(** ** The claims as written, where the code departs from them *)

(** The timeout bound as the specification words it: the recorded duration
    is at most the 180 seconds of the schedule plus the time spent in the
    status queries. *)
Definition timeout_bound_as_specified : Prop :=
  forall (py_str : json -> string) (decode_image : list byte -> option image)
         (encode_image : image -> list byte)
         (input_json : list (string * list (string * string))) (env : string -> item_env)
         (folder_name : string) (thread_idx : nat) (item : list (string * string)) (w : world),
    assoc folder_name input_json = Some item ->
    uses_urls item = true ->
    accepted (submit_reply (env folder_name)) = true ->
    (forall k, pending_reply (poll_reply (env folder_name) k) = true) ->
    (0 <= latency (submit_reply (env folder_name)))%Q ->
    (forall k, (0 <= latency (poll_reply (env folder_name) k))%Q) ->
    exists rec w',
      process_folder py_str decode_image encode_image input_json env folder_name thread_idx w
        = (Ret tt, w')
      /\ requests (results_summary w') = (requests (results_summary w) ++ [rec])%list
      /\ status rec = "timeout"
      /\ polls_made w' = polls_made w + 9
      /\ (180 <= duration rec)%Q
      /\ (duration rec <= 180 + polls_time env folder_name 0 9)%Q.

(** The first entry of the source's [input_json], with a service that takes
    one second to create the job and answers every status query at once:
    the record says 181 seconds, and no time was spent in status queries. *)
Lemma timeout_bound_counterexample : ~ timeout_bound_as_specified.
Proof.
  intros H.
  destruct (H str_of_scalar one_pixel_decoder empty_encoder source_input_json never_done_env
              "h40__g20" 0 _ initial_world eq_refl eq_refl eq_refl (fun _ => eq_refl))
    as [rec [w' [Hrun [Hreq [_ [_ [_ Hle]]]]]]].
  - vm_compute. discriminate.
  - intros k. vm_compute. discriminate.
  - assert (E : map duration
                  (requests (results_summary
                     (snd (process_folder str_of_scalar one_pixel_decoder empty_encoder
                             source_input_json never_done_env "h40__g20" 0 initial_world))))
                = [181%Q]) by (vm_compute; reflexivity).
    rewrite Hrun in E. cbn [snd] in E. rewrite Hreq in E.
    cbn [initial_world results_summary requests empty_summary app map] in E.
    injection E as E.
    rewrite E in Hle. vm_compute in Hle. apply Hle. reflexivity.
Qed.




(** A URL that cannot be reached: [requests.get] raises, and so does
    [download_image]. *)
Lemma download_image_counterexample : ~ download_image_as_specified.
Proof.
  intros H.
  destruct (H (fun _ => transport_fault 0) no_fault "https://unreachable.invalid/x.jpg"
              "outputs/x.jpg" initial_world) as [_ Hfail].
  destruct Hfail as [v [w' [E _]]].
  - intros r Hr. discriminate Hr.
  - apply (f_equal fst) in E. vm_compute in E. discriminate E.
Qed.

(** ** Work items configured with identifiers *)

(** C1 does not hold of the code.  The work item the source keeps in a
    comment gives its inputs by ['human_id'] and ['garment_id'].  Its job
    is created and polled to the end of the schedule; then the record is
    built with [data['garment_url']], a key this payload does not have:
    [KeyError] leaves [process_folder], no record is appended and the
    manifest file is not written.  In [worker] the exception ends the
    loop over the chunk: the item that follows is never submitted, and the
    two items leave no record at all.  A run of [main] over the two items
    ends with one record. *)
Theorem identifiers_raise_key_error :
  let run := process_folder str_of_scalar one_pixel_decoder empty_encoder ids_input_json
               never_done_env "h20__g4" 0 initial_world in
  let chunk := worker str_of_scalar one_pixel_decoder empty_encoder ids_input_json
                 never_done_env 0 ["h20__g4"; "h40__g20"] initial_world in
  let whole := main str_of_scalar one_pixel_decoder empty_encoder ids_input_json
                 never_done_env initial_world in
  fst run = Raise (mkExn "KeyError" "'garment_url'")
  /\ requests (results_summary (snd run)) = []
  /\ manifest_on_disk (snd run) = None
  /\ polls_made (snd run) = 9
  /\ fst chunk = Raise (mkExn "KeyError" "'garment_url'")
  /\ requests (results_summary (snd chunk)) = []
  /\ List.length (filter is_submit (trace (snd chunk))) = 1
  /\ fst whole = Ret tt
  /\ List.length ids_input_json = 2
  /\ map folder (requests (results_summary (snd whole))) = ["h40__g20"].
Proof. vm_compute. repeat split. Qed.

(** The status query sits outside any [try]: a transport fault during a
    poll leaves [process_folder] too, for an item configured with URLs. *)
Lemma poll_fault_escapes :
  let run := process_folder str_of_scalar one_pixel_decoder empty_encoder source_input_json
               (polled_env (transport_fault 0)) "h40__g20" 0 initial_world in
  fst run = Raise (mkExn "ConnectionError" "Connection refused")
  /\ requests (results_summary (snd run)) = [].
Proof. vm_compute. split; reflexivity. Qed.

(** ** The DALL-E runner *)

Lemma handler_never_retries (e : exn) :
  code_is
    match exn_response e with
    | Some c => if response_ok c then Code c else Unknown
    | None => Unknown
    end 429 = false.
Proof.
  destruct (exn_response e) as [c |]; [| reflexivity].
  destruct (response_ok c) eqn:Hok; [| reflexivity].
  cbn [code_is]. destruct (c =? 429)%Z eqn:Hc; [| reflexivity].
  apply Z.eqb_eq in Hc. subst c. discriminate Hok.
Qed.

Lemma try_catch_ext {S A} (c : M S A) (h1 h2 : exn -> M S A) (s : S) :
  (forall e s', h1 e s' = h2 e s') -> try_catch c h1 s = try_catch c h2 s.
Proof.
  intros H. unfold try_catch. destruct (c s) as [[a | e] s']; [reflexivity | apply H].
Qed.

Lemma bind_ext {S A B} (c : M S A) (k1 k2 : A -> M S B) (s : S) :
  (forall a s', k1 a s' = k2 a s') -> bind c k1 s = bind c k2 s.
Proof.
  intros H. unfold bind. destruct (c s) as [[a | e] s']; [apply H | reflexivity].
Qed.

(** [gen_one] with the retry of its [HTTPError] handler taken out: one
    attempt, and [(fname, None)] on any exception. *)
Definition gen_one_once (OUT : string) (generate_reply : nat -> http_outcome)
    (image_reply : string -> http_outcome) (item : list (string * string))
  : M dalle_world (option (string * option string)) :=
  fname <- subscript item "filename" ;;
  let out_path := path_join OUT [fname ++ ".png"] in
  w <- get ;;
  if already_generated w out_path then ret (Some (fname, Some out_path))
  else
    try_catch
      (prompt <- subscript item "prompt" ;;
       let k := List.length (filter is_generate (d_trace w)) in
       r <- d_http (DGenerate (PREFIX ++ prompt)) (generate_reply k) ;;
       raise_for_status r ;;;
       j <- response_json r ;;
       data <- json_subscript j "data" ;;
       first <- json_first data ;;
       u <- json_subscript first "url" ;;
       match u with
       | JStr url =>
           img <- d_http (DGet url) (image_reply url) ;;
           raise_for_status img ;;;
           d_store out_path (content img) ;;;
           ret (Some (fname, Some out_path))
       | _ => raise (mkExn "MissingSchema" "Invalid URL")
       end)
      (fun e => ret (Some (fname, None))).

Lemma gen_one_is_once (OUT : string) (generate_reply : nat -> http_outcome)
    (image_reply : string -> http_outcome) (fuel : nat)
    (item : list (string * string)) (idx total : nat) (w : dalle_world) :
  gen_one OUT generate_reply image_reply (S fuel) item idx total w
    = gen_one_once OUT generate_reply image_reply item w.
Proof.
  cbn [gen_one]. unfold gen_one_once.
  apply bind_ext. intros fname w1. apply bind_ext. intros w0 w2.
  destruct (already_generated w0 (path_join OUT [(fname ++ ".png")%string])); [reflexivity |].
  apply try_catch_ext. intros e s'.
  rewrite handler_never_retries. destruct (exn_type e =? "HTTPError")%string; reflexivity.
Qed.

Definition sleeps (w : dalle_world) : list dalle_event := filter is_sleep (d_trace w).

Lemma keeps_sleeps_d_http (ev : dalle_event) (o : http_outcome) :
  is_sleep ev = false -> keeps sleeps (d_http ev o).
Proof.
  intros Hev w.
  assert (H : snd (d_http ev o w) = d_log ev w).
  { unfold d_http, bind, modify. destruct (reply o); reflexivity. }
  rewrite H. unfold sleeps, d_log. cbn [d_trace].
  rewrite filter_app. cbn [filter]. rewrite Hev. apply app_nil_r.
Qed.

Lemma keeps_raise_for_status {S X} (obs : S -> X) (r : response) :
  keeps obs (@raise_for_status S r).
Proof.
  unfold raise_for_status.
  destruct ((400 <=? status_code r)%Z && (status_code r <? 600)%Z);
    [apply keeps_raise | apply keeps_ret].
Qed.

Lemma keeps_json_first {S X} (obs : S -> X) (j : json) : keeps obs (@json_first S j).
Proof.
  destruct j as [| | | | s | items |]; try apply keeps_raise.
  - destruct s; [apply keeps_raise | apply keeps_ret].
  - destruct items; [apply keeps_raise | apply keeps_ret].
Qed.

Lemma keeps_d_store {X} (obs : dalle_world -> X) (path : string) (b : list byte) :
  (forall w, obs (d_write path b w) = obs w) -> keeps obs (d_store path b).
Proof.
  intros H. unfold d_store. apply keeps_bind; [apply keeps_get | intros w].
  destruct (d_denied w path); [apply keeps_raise | apply keeps_modify; exact H].
Qed.

Lemma gen_one_once_never_sleeps (OUT : string) (generate_reply : nat -> http_outcome)
    (image_reply : string -> http_outcome) (item : list (string * string)) :
  keeps sleeps (gen_one_once OUT generate_reply image_reply item).
Proof.
  unfold gen_one_once.
  apply keeps_bind; [apply keeps_subscript | intros fname].
  apply keeps_bind; [apply keeps_get | intros w].
  destruct (already_generated w _); [apply keeps_ret |].
  apply keeps_try_catch; [| intros e; apply keeps_ret].
  apply keeps_bind; [apply keeps_subscript | intros prompt].
  apply keeps_bind; [now apply keeps_sleeps_d_http | intros r].
  apply keeps_bind; [apply keeps_raise_for_status | intros _].
  apply keeps_bind; [apply keeps_response_json | intros j].
  apply keeps_bind; [apply keeps_json_subscript | intros data].
  apply keeps_bind; [apply keeps_json_first | intros first].
  apply keeps_bind; [apply keeps_json_subscript | intros u].
  destruct u; try apply keeps_raise.
  apply keeps_bind; [now apply keeps_sleeps_d_http | intros img].
  apply keeps_bind; [apply keeps_raise_for_status | intros _].
  apply keeps_bind; [apply keeps_d_store; reflexivity | intros _].
  apply keeps_ret.
Qed.

Lemma gen_one_once_gives_a_pair (OUT : string) (generate_reply : nat -> http_outcome)
    (image_reply : string -> http_outcome) (item : list (string * string)) :
  ensures (fun r => r <> None) (gen_one_once OUT generate_reply image_reply item).
Proof.
  unfold gen_one_once.
  apply ensures_bind. intros fname. apply ensures_bind. intros w.
  destruct (already_generated w _); [apply ensures_ret; discriminate |].
  apply ensures_try_catch; [| intros e; apply ensures_ret; discriminate].
  repeat (apply ensures_bind; intros ?).
  match goal with |- ensures _ (match ?u with _ => _ end) => destruct u end;
    try apply ensures_raise.
  repeat (apply ensures_bind; intros ?).
  apply ensures_ret. discriminate.
Qed.

(** C9 does not hold of the code.  A [requests.Response] with an error
    status is false in a boolean context, so [e.response.status_code if
    e.response else "?"] is ["?"] for every [HTTPError] that
    [raise_for_status] raises, [code == 429] is never true, and the
    branch that sleeps 60 seconds and calls [gen_one] again is never
    taken.  Whatever the replies and whatever depth of calls the model
    allows, [gen_one] is its single attempt: it returns a pair and never
    sleeps; answered with HTTP 429 it returns [(fname, None)] after that
    one request. *)
Theorem gen_one_never_retries (OUT : string) (generate_reply : nat -> http_outcome)
    (image_reply : string -> http_outcome) (fuel : nat)
    (item : list (string * string)) (idx total : nat) (w : dalle_world) :
  let run := gen_one OUT generate_reply image_reply (S fuel) item idx total w in
  run = gen_one_once OUT generate_reply image_reply item w
  /\ fst run <> Ret None
  /\ sleeps (snd run) = sleeps w
  /\ gen_one "generated_brand_products" rate_limited (fun _ => transport_fault 0)
       (S fuel) brand_item 1 1 empty_disk
     = (Ret (Some ("brand_001", None)),
        mkDalle (fun _ => None) [DGenerate (PREFIX ++ "red cotton kurta")]).
Proof.
  cbv zeta. rewrite gen_one_is_once. split; [reflexivity |]. split; [| split].
  - intros H. exact (gen_one_once_gives_a_pair OUT generate_reply image_reply item w None H eq_refl).
  - apply gen_one_once_never_sleeps.
  - rewrite gen_one_is_once. vm_compute. reflexivity.
Qed.

(** ** The theorems at concrete inputs *)

Definition red_100x100 : image := mkImage 100 100 (fun _ _ => (255, 0, 0)).
Definition green_80x150 : image := mkImage 80 150 (fun _ _ => (0, 255, 0)).
Definition blue_120x90 : image := mkImage 120 90 (fun _ _ => (0, 0, 255)).

Definition three_keys : list string := ["key-A"; "key-B"; "key-C"].

(** Two work-item keys over five threads. *)
Lemma round_robin_partition_witness :
  1 <= NUM_THREADS
  /\ List.length (folder_chunks (map fst source_input_json) NUM_THREADS) = NUM_THREADS
  /\ Permutation (List.concat (folder_chunks (map fst source_input_json) NUM_THREADS))
       (map fst source_input_json).
Proof.
  assert (H : 1 <= NUM_THREADS) by (unfold NUM_THREADS; lia).
  destruct (round_robin_partition (map fst source_input_json) NUM_THREADS H)
    as [Hlen [Hperm _]].
  split; [exact H |]. split; [exact Hlen | exact Hperm].
Defined.

(** Three keys, the call made when the counter is 7. *)
Lemma get_next_client_round_robin_witness :
  three_keys <> []
  /\ get_next_client three_keys 7 = (Ret (Client "key-B"), 8)
  /\ snd (get_next_clients three_keys 7 0) = 7.
Proof.
  assert (H : three_keys <> []) by discriminate.
  destruct (get_next_client_round_robin three_keys 7 H) as [[key [Hkey Hcall]] [Hcount _]].
  split; [exact H |]. split; [| exact Hcount].
  injection Hkey as <-. exact Hcall.
Defined.

(** The images of the specification's example: heights 100, 150 and 90,
    widths 100, 80 and 120. *)
Lemma stack_three_images_layout_witness :
  let canvas := stack_three_images red_100x100 green_80x150 blue_120x90 in
  width canvas = 300
  /\ height canvas = 150
  /\ pixel canvas 99 99 = (255, 0, 0)
  /\ pixel canvas (100 + 79) 149 = (0, 255, 0)
  /\ pixel canvas (100 + 80 + 0) 0 = (0, 0, 255)
  /\ pixel canvas 99 100 = (0, 0, 0).
Proof.
  destruct (stack_three_images_layout empty_encoder no_fault red_100x100 green_80x150 blue_120x90
              "outputs/multi-threaded-test/stacked/x.jpg" initial_world)
    as [_ [Hw [Hh [H1 [H2 [H3 [B1 _]]]]]]].
  split; [exact Hw |]. split; [exact Hh |].
  split; [apply (H1 99 99); cbn; lia |].
  split; [apply (H2 79 149); cbn; lia |].
  split; [apply (H3 0 0); cbn; lia |].
  apply (B1 99 100); cbn; lia.
Defined.

(** The HTTP 403 of the specification's example, for the item configured
    with identifiers. *)
Lemma submission_failure_witness :
  exists rec w',
    process_folder str_of_scalar one_pixel_decoder empty_encoder ids_input_json forbidden_env
      "h20__g4" 0 initial_world = (Ret tt, w')
    /\ requests (results_summary w') = [rec]
    /\ status rec = "fail"
    /\ contains (note rec) "403"
    /\ contains (note rec) "Forbidden"
    /\ polls_made w' = 0.
Proof.
  edestruct (submission_failure_is_terminal str_of_scalar one_pixel_decoder empty_encoder
               ids_input_json forbidden_env "h20__g4" 0)
    as [rec [w' [Hrun [Hreq [_ [Hstatus [Hnote [_ [Hpolls _]]]]]]]]].
  - reflexivity.
  - reflexivity.
  - intros r Hr. injection Hr as <-. discriminate.
  - exists rec, w'. split; [exact Hrun |]. split; [exact Hreq |]. split; [exact Hstatus |].
    destruct Hnote as [Hcode Htext].
    split; [exact Hcode |]. split; [exact Htext | exact Hpolls].
Defined.

(** The first item of the source, with a job that never reports ['done']. *)
Lemma timeout_after_schedule_witness :
  exists rec w',
    process_folder str_of_scalar one_pixel_decoder empty_encoder source_input_json never_done_env
      "h40__g20" 0 initial_world = (Ret tt, w')
    /\ requests (results_summary w') = [rec]
    /\ status rec = "timeout"
    /\ polls_made w' = 9
    /\ (180 <= duration rec)%Q.
Proof.
  edestruct (timeout_after_schedule str_of_scalar one_pixel_decoder empty_encoder
               source_input_json never_done_env "h40__g20" 0)
    as [rec [w' [Hrun [Hreq [_ [Hstatus [_ [Hpolls [_ [Hlow _]]]]]]]]]].
  - reflexivity.
  - reflexivity.
  - reflexivity.
  - intros k _. reflexivity.
  - cbn. discriminate.
  - intros k _. cbn. discriminate.
  - intros n m _. cbn. discriminate.
  - exists rec, w'. split; [exact Hrun |]. split; [exact Hreq |]. split; [exact Hstatus |].
    split; [exact Hpolls | exact Hlow].
Defined.


(** * Further properties of the code *)

(** ** Chunks, position by position *)

Lemma nth_error_flat_map_pick {A} (l : list A) (ks : list nat) (j : nat) :
  (forall k, In k ks -> k < List.length l) ->
  nth_error (flat_map (pick l) ks) j =
    match nth_error ks j with
    | Some k => nth_error l k
    | None => None
    end.
Proof.
  revert j. induction ks as [| k ks IH]; intros j Hks.
  - destruct j; reflexivity.
  - cbn [flat_map]. unfold pick at 1.
    destruct (nth_error l k) as [x |] eqn:Hk.
    + destruct j as [| j]; cbn.
      * symmetry. exact Hk.
      * apply IH. intros k' Hk'. apply Hks. now right.
    + apply nth_error_None in Hk. specialize (Hks k (or_introl eq_refl)). lia.
Qed.

Lemma nth_error_slice_from {A} (l : list A) (start step j : nat) :
  1 <= step ->
  nth_error (slice_from l start step) j = nth_error l (start + j * step).
Proof.
  intros Hstep. unfold slice_from, slice_indices.
  rewrite nth_error_flat_map_pick.
  - rewrite nth_error_map.
    destruct (nth_error (seq 0 (slice_length (List.length l) start step)) j) as [j' |] eqn:Hj.
    + pose proof (nth_error_Some (seq 0 (slice_length (List.length l) start step)) j) as Hlt.
      rewrite length_seq in Hlt.
      assert (j < slice_length (List.length l) start step) by (apply Hlt; congruence).
      rewrite nth_error_nth' with (d := 0) in Hj by (rewrite length_seq; lia).
      rewrite seq_nth in Hj by lia. injection Hj as <-. reflexivity.
    + apply nth_error_None in Hj. rewrite length_seq in Hj. cbn.
      symmetry. apply nth_error_None.
      destruct (Nat.lt_ge_cases (start + j * step) (List.length l)) as [Hlt | Hge];
        [| exact Hge].
      pose proof (slice_length_reach _ _ _ _ Hstep Hlt). lia.
  - intros k Hk. apply in_map_iff in Hk. destruct Hk as [j' [<- Hj']].
    apply in_seq in Hj'. apply slice_length_bound; lia.
Qed.

(** X1. With at least one thread, item [j] of chunk [i] is item
    [i + j * n_threads] of the list of keys, and chunk [i] ends exactly
    where the list does: [folder_chunks[i][j] = folders[i + j * n_threads]]
    whether the position exists or not. *)
Theorem chunk_item {A} (folders : list A) (n_threads i j : nat) :
  1 <= n_threads ->
  i < n_threads ->
  nth_error (nth i (folder_chunks folders n_threads) []) j
    = nth_error folders (i + j * n_threads).
Proof.
  intros Hn Hi. unfold folder_chunks.
  rewrite (nth_indep _ [] (slice_from folders 0 n_threads))
    by (rewrite length_map, length_seq; exact Hi).
  rewrite (map_nth (fun i => slice_from folders i n_threads) (seq 0 n_threads) 0 i).
  rewrite seq_nth by exact Hi. cbn [Nat.add].
  apply nth_error_slice_from. exact Hn.
Qed.

Lemma chunk_item_witness :
  1 <= 2 /\ 1 < 2
  /\ nth_error (nth 1 (folder_chunks ["a"; "b"; "c"; "d"; "e"] 2) []) 1 = Some "d".
Proof.
  assert (H1 : 1 <= 2) by lia. assert (H2 : 1 < 2) by lia.
  split; [exact H1 |]. split; [exact H2 |].
  exact (chunk_item ["a"; "b"; "c"; "d"; "e"] 2 1 1 H1 H2).
Defined.

Lemma map_pick_all {A} (l : list A) :
  map (pick l) (seq 0 (List.length l)) = map (fun x => [x]) l.
Proof.
  induction l as [| x l IH]; [reflexivity |].
  cbn [List.length]. rewrite <- cons_seq, <- seq_shift. cbn [map].
  rewrite map_map. f_equal. exact IH.
Qed.

(** X2. When there are no more keys than threads, every key is a chunk of
    its own, in the order of the list, and the threads that are left get
    an empty chunk. *)
Theorem few_items_one_per_thread {A} (folders : list A) (n_threads : nat) :
  List.length folders <= n_threads ->
  folder_chunks folders n_threads
    = (map (fun x => [x]) folders ++ repeat [] (n_threads - List.length folders))%list.
Proof.
  intros Hlen. unfold folder_chunks.
  replace n_threads with (List.length folders + (n_threads - List.length folders)) at 1 by lia.
  rewrite seq_app, map_app. cbn [Nat.add]. f_equal.
  - rewrite <- map_pick_all. apply map_ext_in. intros i Hi. apply in_seq in Hi.
    unfold slice_from, slice_indices, slice_length.
    assert (E : (i <? List.length folders) = true) by (apply Nat.ltb_lt; lia).
    rewrite E. rewrite Nat.div_small by lia. cbn. rewrite Nat.add_0_r, app_nil_r. reflexivity.
  - assert (H : forall m s, List.length folders <= s ->
                map (fun i => slice_from folders i n_threads) (seq s m) = repeat [] m).
    { induction m as [| m IH]; intros s Hs; [reflexivity |].
      cbn [seq map repeat]. f_equal.
      - unfold slice_from, slice_indices, slice_length.
        assert (E : (s <? List.length folders) = false) by (apply Nat.ltb_ge; lia).
        rewrite E. reflexivity.
      - apply IH. lia. }
    apply H. lia.
Qed.

Lemma few_items_one_per_thread_witness :
  List.length (map fst source_input_json) <= NUM_THREADS
  /\ folder_chunks (map fst source_input_json) NUM_THREADS
     = [["h40__g20"]; ["h9__g11"]; []; []; []].
Proof.
  assert (H : List.length (map fst source_input_json) <= NUM_THREADS)
    by (unfold NUM_THREADS; cbn; lia).
  split; [exact H |].
  exact (few_items_one_per_thread (map fst source_input_json) NUM_THREADS H).
Defined.

(** ** The payload of a work item *)

(** The item names each input, by identifier or by URL, and a garment type. *)
Definition payload_keys_present (item : list (string * string)) : bool :=
  (has_key "human_id" item || has_key "human_url" item)
  && (has_key "garment_id" item || has_key "garment_url" item)
  && has_key "garment_type" item.

Lemma has_key_assoc {V} (k : string) (d : list (string * V)) :
  has_key k d = true <-> exists v, assoc k d = Some v.
Proof.
  unfold has_key. destruct (assoc k d) as [v |]; split; intros H.
  - now exists v.
  - reflexivity.
  - discriminate.
  - destruct H as [v H]. discriminate.
Qed.

(** X3. What [process_folder] puts in the request, for an item whose
    payload can be built.  The payload has four entries.  Each input is
    named once: by its identifier when the item has one (a URL given
    beside it is ignored), otherwise by its URL followed by [?v=] and the
    random number.  The garment type is the item's, and ['mode'] is
    ['fast'] whatever mode the item asks for. *)
Theorem build_data_payload (item : list (string * string)) (rnd : Z)
    (data : list (string * string)) (garment_id human_id : json) :
  fst (build_data item rnd tt) = Ret (data, garment_id, human_id) ->
  List.length data = 4
  /\ assoc "mode" data = Some "fast"
  /\ assoc "garment_type" data = assoc "garment_type" item
  /\ (if has_key "human_id" item
      then assoc "human_id" data = assoc "human_id" item
           /\ assoc "human_url" data = None
           /\ Some human_id = option_map JStr (assoc "human_id" item)
      else assoc "human_url" data
             = option_map (fun u => u ++ "?v=" ++ str_int rnd) (assoc "human_url" item)
           /\ assoc "human_id" data = None
           /\ human_id = JNull)
  /\ (if has_key "garment_id" item
      then assoc "garment_id" data = assoc "garment_id" item
           /\ assoc "garment_url" data = None
           /\ Some garment_id = option_map JStr (assoc "garment_id" item)
      else assoc "garment_url" data
             = option_map (fun u => u ++ "?v=" ++ str_int rnd) (assoc "garment_url" item)
           /\ assoc "garment_id" data = None
           /\ garment_id = JNull).
Proof.
  unfold build_data, bind, subscript, ret, KeyError, raise, has_key.
  destruct (assoc "human_id" item) as [h |];
    [| destruct (assoc "human_url" item) as [hu |]; [| discriminate]];
    (destruct (assoc "garment_id" item) as [g |];
       [| destruct (assoc "garment_url" item) as [gu |]; [| discriminate]]);
    (destruct (assoc "garment_type" item) as [gt |]; [| discriminate]);
    cbn; intros H; injection H as <- <- <-; repeat split.
Qed.

Lemma build_data_payload_witness :
  assoc "mode"
    [("human_id", "H1"); ("garment_url", "https://x/g.jpg"); ("garment_type", "top");
     ("mode", "balanced")] = Some "balanced"
  /\ assoc "mode"
       [("human_id", "H1"); ("garment_url", "https://x/g.jpg?v=7"); ("garment_type", "top");
        ("mode", "fast")] = Some "fast".
Proof.
  split; [reflexivity |].
  exact (proj1 (proj2 (build_data_payload
                         [("human_id", "H1"); ("garment_url", "https://x/g.jpg");
                          ("garment_type", "top"); ("mode", "balanced")] 7
                         [("human_id", "H1"); ("garment_url", "https://x/g.jpg?v=7");
                          ("garment_type", "top"); ("mode", "fast")]
                         JNull (JStr "H1") eq_refl))).
Defined.

Lemma build_data_raises (item : list (string * string)) (rnd : Z) :
  payload_keys_present item = false ->
  exists k, fst (build_data item rnd tt) = Raise (mkExn "KeyError" ("'" ++ k ++ "'"))
            /\ has_key k item = false.
Proof.
  unfold payload_keys_present, build_data, bind, subscript, ret, KeyError, raise, has_key.
  destruct (assoc "human_id" item) as [h |];
    [| destruct (assoc "human_url" item) as [hu |] eqn:Ehu;
       [| intros _; exists "human_url"; rewrite Ehu; split; reflexivity]];
    (destruct (assoc "garment_id" item) as [g |];
       [| destruct (assoc "garment_url" item) as [gu |] eqn:Egu;
          [| intros _; exists "garment_url"; rewrite Egu; split; reflexivity]]);
    (destruct (assoc "garment_type" item) as [gt |] eqn:Egt;
       [discriminate | intros _; exists "garment_type"; rewrite Egt; split; reflexivity]).
Qed.

Lemma build_data_returns (item : list (string * string)) (rnd : Z) :
  payload_keys_present item = true ->
  exists built, fst (build_data item rnd tt) = Ret built.
Proof.
  unfold payload_keys_present, build_data, bind, subscript, ret, KeyError, raise, has_key.
  destruct (assoc "human_id" item) as [h |];
    [| destruct (assoc "human_url" item) as [hu |]; [| discriminate]];
    (destruct (assoc "garment_id" item) as [g |];
       [| destruct (assoc "garment_url" item) as [gu |]; [| discriminate]]);
    (destruct (assoc "garment_type" item) as [gt |]; [| discriminate]);
    intros _; eexists; reflexivity.
Qed.

(** X4. A work item that does not name one of its inputs, or has no
    garment type, or a key that is not in [input_json] at all, makes
    [process_folder] raise [KeyError] for the missing key before anything
    is done: no request is sent, no record is appended, no counter moves;
    the world is left as it was. *)
Theorem malformed_item_raises_at_once (py_str : json -> string)
    (decode_image : list byte -> option image) (encode_image : image -> list byte)
    (input_json : list (string * list (string * string))) (env : string -> item_env)
    (folder_name : string) (thread_idx : nat) (w : world) :
  match assoc folder_name input_json with
  | Some item => payload_keys_present item = false
  | None => True
  end ->
  exists k,
    process_folder py_str decode_image encode_image input_json env folder_name thread_idx w
      = (Raise (mkExn "KeyError" ("'" ++ k ++ "'")), w)
    /\ match assoc folder_name input_json with
       | Some item => has_key k item = false
       | None => k = folder_name
       end.
Proof.
  destruct (assoc folder_name input_json) as [item |] eqn:Hitem; intros Hbad.
  - destruct (build_data_raises item (random_number (env folder_name)) Hbad) as [k [Hk Hmiss]].
    exists k. split; [| exact Hmiss].
    apply process_folder_unbuilt with (item := item); assumption.
  - exists folder_name. split; [| reflexivity].
    unfold process_folder.
    unfold bind at 1. unfold time_time at 1, bind at 1, get, ret.
    unfold bind at 1. unfold subscript at 1. rewrite Hitem. reflexivity.
Qed.

Lemma malformed_item_raises_at_once_witness :
  process_folder str_of_scalar one_pixel_decoder empty_encoder
    [("h1", [("human_url", "https://x/h.jpg"); ("garment_url", "https://x/g.jpg")])]
    never_done_env "h1" 0 initial_world
  = (Raise (mkExn "KeyError" "'garment_type'"), initial_world).
Proof.
  destruct (malformed_item_raises_at_once str_of_scalar one_pixel_decoder empty_encoder
              [("h1", [("human_url", "https://x/h.jpg"); ("garment_url", "https://x/g.jpg")])]
              never_done_env "h1" 0 initial_world eq_refl) as [k [Hrun Hk]].
  rewrite Hrun. f_equal.
  assert (E : fst (process_folder str_of_scalar one_pixel_decoder empty_encoder
              [("h1", [("human_url", "https://x/h.jpg"); ("garment_url", "https://x/g.jpg")])]
              never_done_env "h1" 0 initial_world)
              = Raise (mkExn "KeyError" "'garment_type'")) by reflexivity.
  rewrite Hrun in E. exact E.
Defined.

(** ** Where the files of an item go *)

(** The four files [process_folder] writes for an item: the [kind] is
    ['tryon'], ['stacked'], ['garment'] or ['human']. *)
Definition out_path (kind folder_name : string) : string :=
  path_join output_dir [kind; folder_name ++ ".jpg"].

Definition kinds : list string := ["tryon"; "stacked"; "garment"; "human"].

Lemma starts_with_slash_app (a b : string) :
  starts_with_slash a = false -> a <> "" \/ starts_with_slash b = false ->
  starts_with_slash (a ++ b) = false.
Proof.
  destruct a as [| c a]; cbn.
  - intros _ [H | H]; [congruence | exact H].
  - intros H _. exact H.
Qed.

Lemma out_path_relative (kind folder_name : string) :
  In kind kinds ->
  starts_with_slash folder_name = false ->
  out_path kind folder_name = output_dir ++ kind ++ "/" ++ folder_name ++ ".jpg".
Proof.
  intros Hkind Hrel.
  assert (Hb : starts_with_slash (folder_name ++ ".jpg") = false)
    by (apply starts_with_slash_app; [exact Hrel | now right]).
  unfold out_path, path_join. cbn [fold_left].
  destruct Hkind as [<- | [<- | [<- | [<- | []]]]]; cbn; rewrite Hb; reflexivity.
Qed.

Lemma out_path_absolute (kind folder_name : string) :
  starts_with_slash folder_name = true ->
  out_path kind folder_name = folder_name ++ ".jpg".
Proof.
  intros Habs. unfold out_path, path_join. cbn [fold_left].
  assert (Hb : starts_with_slash (folder_name ++ ".jpg") = true).
  { destruct folder_name as [| c s]; [discriminate | exact Habs]. }
  rewrite Hb. reflexivity.
Qed.

Lemma string_app_length (a b : string) :
  String.length (a ++ b) = String.length a + String.length b.
Proof. induction a as [| c a IH]; cbn; [reflexivity | now rewrite IH]. Qed.

Lemma string_app_inv_head (a b c : string) : a ++ b = a ++ c -> b = c.
Proof. induction a as [| x a IH]; cbn; intros H; [exact H | injection H as H; auto]. Qed.

Lemma string_app_inv_tail (a b c : string) : a ++ c = b ++ c -> a = b.
Proof.
  revert b. induction a as [| x a IH]; intros [| y b] H; cbn in H.
  - reflexivity.
  - apply (f_equal String.length) in H. cbn in H. rewrite string_app_length in H. lia.
  - apply (f_equal String.length) in H. cbn in H. rewrite string_app_length in H. lia.
  - injection H as -> H. f_equal. now apply IH.
Qed.

(** X5. The files of an item never collide with the manifest, and for a
    key that does not start with [/] they never collide with each other
    or with the files of another key: the four paths are different from
    [results.json], different from one another, and two keys that give
    the same path of a kind are the same key.  A key that starts with [/]
    is taken as an absolute path by [os.path.join]: its four files are
    one and the same file, outside the output directory. *)
Theorem out_paths_apart (kind kind' folder_name folder_name' : string) :
  In kind kinds -> In kind' kinds ->
  out_path kind folder_name <> results_json_path
  /\ (starts_with_slash folder_name = false ->
      starts_with_slash folder_name' = false ->
      out_path kind folder_name = out_path kind' folder_name' ->
      kind = kind' /\ folder_name = folder_name')
  /\ (starts_with_slash folder_name = true ->
      out_path kind folder_name = folder_name ++ ".jpg"
      /\ out_path kind folder_name = out_path kind' folder_name).
Proof.
  intros Hkind Hkind'. split; [| split].
  - destruct (starts_with_slash folder_name) eqn:Hrel.
    + rewrite out_path_absolute by exact Hrel.
      destruct folder_name as [| c s]; [discriminate |]. cbn in Hrel.
      intros H. cbn in H. injection H as -> _.
      revert Hrel. cbv. discriminate.
    + rewrite out_path_relative by assumption.
      destruct Hkind as [<- | [<- | [<- | [<- | []]]]]; cbv; discriminate.
  - intros Hrel Hrel' H.
    rewrite !out_path_relative in H by assumption.
    apply string_app_inv_head in H.
    assert (Hk : kind = kind').
    { destruct Hkind as [<- | [<- | [<- | [<- | []]]]];
        destruct Hkind' as [<- | [<- | [<- | [<- | []]]]];
        first [reflexivity | cbn in H; discriminate H]. }
    split; [exact Hk |]. subst kind'.
    apply string_app_inv_head in H. apply string_app_inv_head in H.
    apply string_app_inv_tail in H. exact H.
  - intros Habs. rewrite !out_path_absolute by exact Habs. split; reflexivity.
Qed.

Lemma out_paths_apart_witness :
  out_path "tryon" "h40__g20" = "outputs/multi-threaded-test/tryon/h40__g20.jpg"
  /\ out_path "tryon" "h40__g20" <> out_path "garment" "h40__g20"
  /\ out_path "tryon" "/h40" = out_path "garment" "/h40".
Proof.
  destruct (out_paths_apart "tryon" "garment" "h40__g20" "h40__g20")
    as [_ [Hrel _]]; [cbn; tauto | cbn; tauto |].
  destruct (out_paths_apart "tryon" "garment" "/h40" "/h40")
    as [_ [_ Habs]]; [cbn; tauto | cbn; tauto |].
  split; [reflexivity |]. split.
  - intros H. destruct (Hrel eq_refl eq_refl H) as [Hk _]. discriminate Hk.
  - exact (proj2 (Habs eq_refl)).
Defined.

(** ** Triples: what a computation needs, gives, and leaves when it raises *)

Definition triple {S A} (P : S -> Prop) (c : M S A)
    (Q : A -> S -> Prop) (E : exn -> S -> Prop) : Prop :=
  forall s, P s ->
    match c s with
    | (Ret a, s') => Q a s'
    | (Raise e, s') => E e s'
    end.

Section Triples.

Context {S : Type}.

Lemma triple_ret {A} (P : S -> Prop) (a : A) (Q : A -> S -> Prop) (E : exn -> S -> Prop) :
  (forall s, P s -> Q a s) -> triple P (ret a) Q E.
Proof. intros H s Hs. apply H. exact Hs. Qed.

Lemma triple_raise {A} (P : S -> Prop) (e : exn) (Q : A -> S -> Prop) (E : exn -> S -> Prop) :
  (forall s, P s -> E e s) -> triple P (raise e) Q E.
Proof. intros H s Hs. apply H. exact Hs. Qed.

Lemma triple_bind {A B} (P : S -> Prop) (c : M S A) (k : A -> M S B)
    (R : A -> S -> Prop) (Q : B -> S -> Prop) (E : exn -> S -> Prop) :
  triple P c R E -> (forall a, triple (R a) (k a) Q E) -> triple P (bind c k) Q E.
Proof.
  intros Hc Hk s Hs. unfold bind. specialize (Hc s Hs).
  destruct (c s) as [[a | e] s1]; [apply Hk; exact Hc | exact Hc].
Qed.

Lemma triple_try {A} (P : S -> Prop) (c : M S A) (h : exn -> M S A)
    (Q : A -> S -> Prop) (E' E : exn -> S -> Prop) :
  triple P c Q E' -> (forall e, triple (E' e) (h e) Q E) -> triple P (try_catch c h) Q E.
Proof.
  intros Hc Hh s Hs. unfold try_catch. specialize (Hc s Hs).
  destruct (c s) as [[a | e] s1]; [exact Hc | apply Hh; exact Hc].
Qed.

Lemma triple_conseq {A} (P P' : S -> Prop) (c : M S A)
    (Q Q' : A -> S -> Prop) (E E' : exn -> S -> Prop) :
  triple P c Q E ->
  (forall s, P' s -> P s) -> (forall a s, Q a s -> Q' a s) -> (forall e s, E e s -> E' e s) ->
  triple P' c Q' E'.
Proof.
  intros Hc HP HQ HE s Hs. specialize (Hc s (HP s Hs)).
  destruct (c s) as [[a | e] s1]; [apply HQ | apply HE]; exact Hc.
Qed.

(** A computation that keeps an observation keeps every property of it. *)
Lemma triple_keeps {A X} (obs : S -> X) (I : X -> Prop) (c : M S A) :
  keeps obs c ->
  triple (fun s => I (obs s)) c (fun _ s => I (obs s)) (fun _ s => I (obs s)).
Proof.
  intros Hc s Hs. specialize (Hc s).
  destruct (c s) as [[a | e] s1]; cbn [snd] in Hc; rewrite Hc; exact Hs.
Qed.

Lemma triple_bind_ret {A B} (P : S -> Prop) (a : A) (k : A -> M S B)
    (Q : B -> S -> Prop) (E : exn -> S -> Prop) :
  triple P (k a) Q E -> triple P (bind (ret a) k) Q E.
Proof. intros H s Hs. exact (H s Hs). Qed.

End Triples.

(** ** The books of the runner *)

(** What [process_folder] keeps account of: the summary, the counters of
    the threads and the manifest file. *)
Definition books (w : world) : summary * (nat -> counters) * option file :=
  (results_summary w, results w, files w results_json_path).

(** [results] after [results[thread_idx]['fail'] += 1], and after
    [results[thread_idx]['done'] += 1]. *)
Definition add_fail (thread_idx : nat) (R : nat -> counters) : nat -> counters :=
  fun i => if Nat.eqb i thread_idx
           then mkCounters (n_done (R thread_idx)) (n_fail (R thread_idx) + 1)
           else R i.

Definition add_done (thread_idx : nat) (R : nat -> counters) : nat -> counters :=
  fun i => if Nat.eqb i thread_idx
           then mkCounters (n_done (R thread_idx) + 1) (n_fail (R thread_idx))
           else R i.

(** The books after one more item was counted for [thread_idx]: as done
    when its status is ['success'], as failed otherwise. *)
Definition counted_as (st : string) (thread_idx : nat)
    (B B' : summary * (nat -> counters) * option file) : Prop :=
  fst (fst B') = fst (fst B) /\ snd B' = snd B
  /\ ((st = "success" /\ snd (fst B') = add_done thread_idx (snd (fst B)))
      \/ (st <> "success" /\ snd (fst B') = add_fail thread_idx (snd (fst B)))).

Lemma out_path_not_manifest (kind folder_name : string) :
  In kind kinds -> String.eqb results_json_path (out_path kind folder_name) = false.
Proof.
  intros Hkind. apply String.eqb_neq. intros H. symmetry in H. revert H.
  destruct (starts_with_slash folder_name) eqn:Hrel.
  - rewrite out_path_absolute by exact Hrel.
    destruct folder_name as [| c s]; [discriminate |]. cbn in Hrel.
    intros H. cbn in H. injection H as -> _.
    revert Hrel. cbv. discriminate.
  - rewrite out_path_relative by assumption.
    destruct Hkind as [<- | [<- | [<- | [<- | []]]]]; cbv; discriminate.
Qed.

Lemma keeps_books_http (ev : event) (o : http_outcome) : keeps books (http ev o).
Proof. intros w. rewrite http_run. reflexivity. Qed.

Lemma keeps_books_write (kind folder_name : string) (f : file) :
  In kind kinds -> keeps books (modify (write_file (out_path kind folder_name) f)).
Proof.
  intros Hkind w. unfold modify, books, write_file. cbn [snd results_summary results files].
  rewrite (out_path_not_manifest kind folder_name Hkind). reflexivity.
Qed.

Lemma keeps_books_download (get : string -> http_outcome)
    (open_fault : string -> option exn) (url kind folder_name : string) :
  In kind kinds ->
  keeps books (download_image get open_fault url (out_path kind folder_name)).
Proof.
  intros Hkind. unfold download_image.
  apply keeps_bind; [apply keeps_books_http | intros r].
  destruct (status_code r =? 200)%Z; [| apply keeps_ret].
  destruct (open_fault _); [apply keeps_raise |].
  apply keeps_bind; [now apply keeps_books_write | intros _; apply keeps_ret].
Qed.

Lemma keeps_makedirs {S X} (obs : S -> X) (fault : string -> option exn) (path : string) :
  keeps obs (@os_makedirs S fault path).
Proof. unfold os_makedirs. destruct (fault path); [apply keeps_raise | apply keeps_ret]. Qed.

Lemma keeps_books_open (decode_image : list byte -> option image) (path : string) :
  keeps books (Image_open decode_image path).
Proof.
  unfold Image_open. apply keeps_bind; [apply keeps_get | intros w].
  destruct (files w path) as [[b | doc] |]; try apply keeps_raise.
  destruct (decode_image b); [apply keeps_ret | apply keeps_raise].
Qed.

Lemma keeps_books_time (lost : nat -> Q) : keeps books (time_time lost).
Proof. unfold time_time. apply keeps_bind; [apply keeps_get | intros; apply keeps_ret]. Qed.

Lemma keeps_build_data {S X} (obs : S -> X) (item : list (string * string)) (rnd : Z) :
  keeps obs (@build_data S item rnd).
Proof. intros s. rewrite build_data_pure. reflexivity. Qed.

Lemma count_fail_books (thread_idx : nat) (w : world) :
  count_fail thread_idx w = (Ret tt, snd (count_fail thread_idx w))
  /\ books (snd (count_fail thread_idx w))
     = (results_summary w, add_fail thread_idx (results w), files w results_json_path).
Proof. split; reflexivity. Qed.

Lemma count_done_books (thread_idx : nat) (w : world) :
  count_done thread_idx w = (Ret tt, snd (count_done thread_idx w))
  /\ books (snd (count_done thread_idx w))
     = (results_summary w, add_done thread_idx (results w), files w results_json_path).
Proof. split; reflexivity. Qed.

Lemma triple_count_fail (thread_idx : nat) (B : summary * (nat -> counters) * option file)
    (E : exn -> world -> Prop) :
  triple (fun s => books s = B) (count_fail thread_idx)
    (fun _ s => books s = (fst (fst B), add_fail thread_idx (snd (fst B)), snd B)) E.
Proof.
  intros s Hs. destruct (count_fail_books thread_idx s) as [Hrun Hb].
  rewrite Hrun, Hb. subst B. reflexivity.
Qed.

Lemma triple_count_done (thread_idx : nat) (B : summary * (nat -> counters) * option file)
    (E : exn -> world -> Prop) :
  triple (fun s => books s = B) (count_done thread_idx)
    (fun _ s => books s = (fst (fst B), add_done thread_idx (snd (fst B)), snd B)) E.
Proof.
  intros s Hs. destruct (count_done_books thread_idx s) as [Hrun Hb].
  rewrite Hrun, Hb. subst B. reflexivity.
Qed.

Section Bookkeeping.

Variable py_str : json -> string.
Variable decode_image : list byte -> option image.
Variable encode_image : image -> list byte.
Variable input_json : list (string * list (string * string)).
Variable env : string -> item_env.

Let ledger : Type := (summary * (nat -> counters) * option file)%type.

Ltac keep_books :=
  repeat first
    [ apply keeps_ret | apply keeps_raise | apply keeps_get
    | apply keeps_json_subscript | apply keeps_json_get | apply keeps_subscript
    | apply keeps_response_json | apply keeps_books_http | apply keeps_books_time
    | apply keeps_books_open | apply keeps_build_data | apply keeps_makedirs
    | apply keeps_books_download; cbn; tauto
    | apply keeps_books_write; cbn; tauto
    | apply keeps_modify; reflexivity
    | apply keeps_bind; [| intros ?]
    | match goal with |- keeps _ (if ?b then _ else _) => destruct b end
    | match goal with |- keeps _ (match ?x with _ => _ end) => destruct x end ].

(** One statement that keeps the books, then the rest. *)
Ltac step_kept :=
  eapply triple_bind;
  [ apply (triple_keeps books (fun b => b = _)); keep_books
  | intros ?; cbv beta ].

Lemma save_result_books (folder_name : string) (thread_idx : nat)
    (item : list (string * string)) (status_json : json) (v : vars) (B : ledger) :
  triple (fun s => books s = B)
    (save_result py_str decode_image encode_image env folder_name thread_idx item status_json v)
    (fun v' s' => v_poll_count v' = v_poll_count v
                  /\ (v_status v' = "success" \/ v_status v' = "fail")
                  /\ counted_as (v_status v') thread_idx B (books s'))
    (fun _ _ => False).
Proof.
  unfold save_result, download_json_url, stack_three_images_and_save.
  fold (out_path "tryon" folder_name). fold (out_path "garment" folder_name).
  fold (out_path "human" folder_name). fold (out_path "stacked" folder_name).
  cbv zeta.
  apply triple_try with (E' := fun _ s => books s = B).
  - destruct status_json as [| | | | | | d];
      try (intros w0 Hw0; exact Hw0).
    cbn [json_subscript json_get].
    do 9 step_kept.
    eapply triple_bind; [apply triple_count_done | intros ?; cbv beta].
    apply triple_bind_ret. apply triple_bind_ret.
    apply triple_ret. intros s Hs. cbn [v_poll_count v_status set_outcome].
    split; [reflexivity |]. split; [now left |].
    unfold counted_as. rewrite Hs. cbn [fst snd].
    split; [reflexivity |]. split; [reflexivity |]. left. split; reflexivity.
  - intros e.
    eapply triple_bind; [apply triple_count_fail | intros ?; cbv beta].
    apply triple_ret. intros s Hs. cbn [v_poll_count v_status set_outcome].
    split; [reflexivity |]. split; [now right |].
    unfold counted_as. rewrite Hs. cbn [fst snd].
    split; [reflexivity |]. split; [reflexivity |]. right. split; [discriminate | reflexivity].
Qed.

Lemma poll_loop_books (folder_name : string) (thread_idx : nat)
    (item : list (string * string)) (tryon_id : json) (waits : list Z) (v : vars) (B : ledger) :
  triple (fun s => books s = B)
    (poll_loop py_str decode_image encode_image env folder_name thread_idx item tryon_id waits v)
    (fun v' s' => counted_as (v_status v') thread_idx B (books s'))
    (fun _ s' => books s' = B).
Proof.
  revert v. induction waits as [| wait waits IH]; intros v; cbn [poll_loop].
  - eapply triple_bind; [apply triple_count_fail | intros ?; cbv beta].
    apply triple_ret. intros s Hs. unfold counted_as. rewrite Hs. cbn [fst snd v_status set_outcome].
    split; [reflexivity |]. split; [reflexivity |]. right. split; [discriminate | reflexivity].
  - unfold time_sleep. cbv zeta.
    step_kept. step_kept.
    destruct (status_code a0 =? 200)%Z.
    + step_kept. step_kept.
      destruct (negb (is_str a2 "success")).
      * step_kept.
        eapply triple_bind; [apply triple_count_fail | intros ?; cbv beta].
        apply triple_ret. intros s Hs. unfold counted_as. rewrite Hs.
        cbn [fst snd v_status set_outcome].
        split; [reflexivity |]. split; [reflexivity |].
        right. split; [discriminate | reflexivity].
      * step_kept.
        destruct (is_str a3 "done"); [| apply IH].
        eapply triple_conseq; [apply save_result_books | | |].
        -- intros s Hs. exact Hs.
        -- intros v' s [_ [_ H]]. exact H.
        -- intros e s [].
    + eapply triple_bind; [apply triple_count_fail | intros ?; cbv beta].
      apply triple_ret. intros s Hs. unfold counted_as. rewrite Hs.
      cbn [fst snd v_status set_outcome].
      split; [reflexivity |]. split; [reflexivity |].
      right. split; [discriminate | reflexivity].
Qed.

(** The books after a submission that failed: one more record, for this
    item and with status ['fail']; one more failure counted; the manifest
    file written from the summary. *)
Definition failure_booked (folder_name : string) (thread_idx : nat) (B : ledger)
    (s' : world) : Prop :=
  exists r,
    results_summary s'
      = mkSummary (requests (fst (fst B)) ++ [r])%list (average_duration (fst (fst B)))
    /\ folder r = folder_name
    /\ status r = "fail"
    /\ results s' = add_fail thread_idx (snd (fst B))
    /\ manifest_synced s'.

Lemma early_exit_books (folder_name : string) (thread_idx : nat) (start_time : Q)
    (nt : string) (data : list (string * string)) (garment_id human_id : json) (B : ledger)
    (E : exn -> world -> Prop) :
  triple (fun s => books s = B)
    (count_fail thread_idx ;;;
     early_record env folder_name start_time nt data garment_id human_id ;;;
     ret (@None json))
    (fun sub s' => sub = None /\ failure_booked folder_name thread_idx B s')
    E.
Proof.
  intros s Hs. cbn. split; [reflexivity |].
  unfold failure_booked. eexists. subst B. cbn [fst snd books].
  split; [reflexivity |]. split; [reflexivity |]. split; [reflexivity |].
  split; [reflexivity |].
  unfold manifest_synced. cbn. reflexivity.
Qed.

Lemma submit_books (folder_name : string) (thread_idx : nat) (start_time : Q)
    (data : list (string * string)) (garment_id human_id : json) (B : ledger) :
  triple (fun s => books s = B)
    (submit env folder_name thread_idx start_time data garment_id human_id)
    (fun sub s' =>
       match sub with
       | Some _ => books s' = B
       | None => failure_booked folder_name thread_idx B s'
       end)
    (fun _ _ => False).
Proof.
  unfold submit. apply triple_try with (E' := fun _ s => books s = B).
  - step_kept.
    destruct (negb (status_code a =? 200)%Z).
    + eapply triple_conseq; [apply early_exit_books with (E := fun _ s => books s = B) | | |].
      * intros s Hs. exact Hs.
      * intros sub s [-> H]. exact H.
      * intros e s H. exact H.
    + step_kept. step_kept. apply triple_ret. intros s Hs. exact Hs.
  - intros e. eapply triple_conseq; [apply early_exit_books with (E := fun _ _ => False) | | |].
    + intros s Hs. exact Hs.
    + intros sub s [-> H]. exact H.
    + intros e' s H. exact H.
Qed.

(** What a call of [process_folder] for [folder_name] on thread
    [thread_idx] leaves when it returns, from books [B]. *)
Definition item_booked (folder_name : string) (thread_idx : nat) (B : ledger)
    (s' : world) : Prop :=
  exists r,
    results_summary s'
      = mkSummary (requests (fst (fst B)) ++ [r])%list (average_duration (fst (fst B)))
    /\ folder r = folder_name
    /\ manifest_synced s'
    /\ ((status r = "success" /\ results s' = add_done thread_idx (snd (fst B)))
        \/ (status r <> "success" /\ results s' = add_fail thread_idx (snd (fst B)))).

Lemma process_folder_books (folder_name : string) (thread_idx : nat) (B : ledger) :
  triple (fun s => books s = B)
    (process_folder py_str decode_image encode_image input_json env folder_name thread_idx)
    (fun _ s' => item_booked folder_name thread_idx B s')
    (fun _ s' => results_summary s' = fst (fst B) /\ files s' results_json_path = snd B).
Proof.
  assert (Hkept : forall b : ledger, b = B -> fst (fst b) = fst (fst B) /\ snd b = snd B)
    by (intros b ->; split; reflexivity).
  unfold process_folder.
  eapply triple_conseq with
    (E := fun _ s' => books s' = B
                      \/ exists st, counted_as st thread_idx B (books s'));
    [| intros s Hs; exact Hs | intros a s H; exact H | ].
  2:{ intros e s [H | [st [H1 [H2 _]]]].
      - apply (Hkept _ H).
      - split; assumption. }
  eapply triple_bind;
    [eapply triple_conseq; [apply (triple_keeps books (fun b => b = B)); keep_books | | |];
     [intros s Hs; exact Hs | intros a s H; exact H | intros e s H; left; exact H]
    | intros start_time; cbv beta].
  eapply triple_bind;
    [eapply triple_conseq; [apply (triple_keeps books (fun b => b = B)); keep_books | | |];
     [intros s Hs; exact Hs | intros a s H; exact H | intros e s H; left; exact H]
    | intros item; cbv beta].
  eapply triple_bind;
    [eapply triple_conseq; [apply (triple_keeps books (fun b => b = B)); keep_books | | |];
     [intros s Hs; exact Hs | intros a s H; exact H | intros e s H; left; exact H]
    | intros built; cbv beta zeta].
  eapply triple_bind;
    [eapply triple_conseq; [apply submit_books | | |];
     [intros s Hs; exact Hs | intros a s H; exact H | intros e s []]
    | intros submitted; cbv beta].
  destruct submitted as [tryon_id |].
  - eapply triple_bind;
      [eapply triple_conseq; [apply poll_loop_books | | |];
       [intros s Hs; exact Hs | intros a s H; exact H | intros e s H; left; exact H]
      | intros v; cbv beta].
    eapply triple_bind;
      [eapply triple_conseq;
       [apply (triple_keeps books (fun b => counted_as (v_status v) thread_idx B b)); keep_books
       | | |];
       [intros s Hs; exact Hs | intros a s H; exact H
       | intros e s H; right; exists (v_status v); exact H]
      | intros t; cbv beta zeta].
    eapply triple_bind;
      [eapply triple_conseq;
       [apply (triple_keeps books (fun b => counted_as (v_status v) thread_idx B b)); keep_books
       | | |];
       [intros s Hs; exact Hs | intros a s H; exact H
       | intros e s H; right; exists (v_status v); exact H]
      | intros garment_url; cbv beta].
    eapply triple_bind;
      [eapply triple_conseq;
       [apply (triple_keeps books (fun b => counted_as (v_status v) thread_idx B b)); keep_books
       | | |];
       [intros s Hs; exact Hs | intros a s H; exact H
       | intros e s H; right; exists (v_status v); exact H]
      | intros human_url; cbv beta].
    intros s [Hsum [_ Hcount]]. cbn [books fst snd] in Hsum, Hcount.
    match goal with
    | |- context [append_and_persist ?r s] =>
        destruct (append_and_persist_facts r s) as [Hrun [Hreq [_ [_ [Havg Hsync]]]]];
        rewrite Hrun; exists r
    end.
    split.
    { destruct (results_summary (snd (append_and_persist _ s))) as [reqs avg].
      cbn [requests average_duration] in Hreq, Havg. rewrite Hreq, Havg, Hsum. reflexivity. }
    split; [reflexivity |]. split; [exact Hsync |].
    cbn [status]. exact Hcount.
  - apply triple_ret. intros s [r [H1 [H2 [H3 [H4 H5]]]]].
    exists r. split; [exact H1 |]. split; [exact H2 |]. split; [exact H5 |].
    right. split; [rewrite H3; discriminate | exact H4].
Qed.

(** X6. A call of [process_folder] that returns has appended exactly one
    record, the record of its own item, after the records that were
    there, which it leaves as they were; a call that raises has appended
    none.  The average is never touched. *)
Theorem process_folder_one_record (folder_name : string) (thread_idx : nat) (w : world) :
  let run := process_folder py_str decode_image encode_image input_json env
               folder_name thread_idx w in
  match fst run with
  | Ret _ =>
      exists r,
        requests (results_summary (snd run)) = (requests (results_summary w) ++ [r])%list
        /\ folder r = folder_name
        /\ average_duration (results_summary (snd run)) = average_duration (results_summary w)
  | Raise _ => results_summary (snd run) = results_summary w
  end.
Proof.
  cbv zeta. pose proof (process_folder_books folder_name thread_idx (books w) w eq_refl) as H.
  destruct (process_folder py_str decode_image encode_image input_json env
              folder_name thread_idx w) as [[a | e] w']; cbn [fst snd books] in *.
  - destruct H as [r [Hsum [Hfolder _]]]. exists r. rewrite Hsum. cbn. auto.
  - apply H.
Qed.

(** X7. When [process_folder] returns, the counters of its thread agree
    with the record it appended: a record whose status is ['success'] goes
    with one more ['done'], any other status with one more ['fail'], the
    other counter of the thread and the counters of all other threads
    being as before. *)
Theorem counters_follow_status (folder_name : string) (thread_idx : nat) (w w' : world) :
  process_folder py_str decode_image encode_image input_json env folder_name thread_idx w
    = (Ret tt, w') ->
  exists r,
    requests (results_summary w') = (requests (results_summary w) ++ [r])%list
    /\ (forall i, i <> thread_idx -> results w' i = results w i)
    /\ ((status r = "success"
         /\ n_done (results w' thread_idx) = n_done (results w thread_idx) + 1
         /\ n_fail (results w' thread_idx) = n_fail (results w thread_idx))
        \/ (status r <> "success"
            /\ n_done (results w' thread_idx) = n_done (results w thread_idx)
            /\ n_fail (results w' thread_idx) = n_fail (results w thread_idx) + 1)).
Proof.
  intros Hrun.
  pose proof (process_folder_books folder_name thread_idx (books w) w eq_refl) as H.
  rewrite Hrun in H. cbn [books fst snd] in H.
  destruct H as [r [Hsum [_ [_ Hcount]]]]. exists r.
  split; [rewrite Hsum; reflexivity |].
  assert (Hother : forall R i, i <> thread_idx ->
            add_done thread_idx R i = R i /\ add_fail thread_idx R i = R i).
  { intros R i Hi. unfold add_done, add_fail.
    apply Nat.eqb_neq in Hi. rewrite Hi. split; reflexivity. }
  destruct Hcount as [[Hst ->] | [Hst ->]].
  - split; [intros i Hi; apply (Hother _ i Hi) |].
    left. unfold add_done. rewrite Nat.eqb_refl. cbn. auto.
  - split; [intros i Hi; apply (Hother _ i Hi) |].
    right. unfold add_fail. rewrite Nat.eqb_refl. cbn. auto.
Qed.

(** X8. The manifest file is written by the append-and-persist step and
    by nothing else in [process_folder]: when the call returns, the file
    holds the document of the summary as it now is; when the call raises,
    the file is what it was before the call, whatever was downloaded. *)
Theorem manifest_only_persisted (folder_name : string) (thread_idx : nat) (w : world) :
  let run := process_folder py_str decode_image encode_image input_json env
               folder_name thread_idx w in
  match fst run with
  | Ret _ => manifest_on_disk (snd run) = Some (summary_json (results_summary (snd run)))
  | Raise _ => files (snd run) results_json_path = files w results_json_path
  end.
Proof.
  cbv zeta. pose proof (process_folder_books folder_name thread_idx (books w) w eq_refl) as H.
  destruct (process_folder py_str decode_image encode_image input_json env
              folder_name thread_idx w) as [[a | e] w']; cbn [fst snd books] in *.
  - destruct H as [r [_ [_ [Hsync _]]]]. apply synced_on_disk. exact Hsync.
  - apply H.
Qed.
End Bookkeeping.

(** The HTTP 403 run: one failure counted for thread 0, none for thread 1. *)
Lemma counters_follow_status_witness :
  exists w',
    process_folder str_of_scalar one_pixel_decoder empty_encoder ids_input_json forbidden_env
      "h20__g4" 0 initial_world = (Ret tt, w')
    /\ n_fail (results w' 0) = 1
    /\ n_done (results w' 0) = 0
    /\ results w' 1 = mkCounters 0 0.
Proof.
  exists (snd (process_folder str_of_scalar one_pixel_decoder empty_encoder ids_input_json
                 forbidden_env "h20__g4" 0 initial_world)).
  assert (Hrun : process_folder str_of_scalar one_pixel_decoder empty_encoder ids_input_json
                   forbidden_env "h20__g4" 0 initial_world
                 = (Ret tt, snd (process_folder str_of_scalar one_pixel_decoder empty_encoder
                                   ids_input_json forbidden_env "h20__g4" 0 initial_world)))
    by reflexivity.
  destruct (counters_follow_status str_of_scalar one_pixel_decoder empty_encoder
              ids_input_json forbidden_env "h20__g4" 0 initial_world _ Hrun)
    as [r [Hreq [Hother Hcount]]].
  split; [exact Hrun |].
  assert (Hst : status r = "fail").
  { assert (E : map status (requests (results_summary
                  (snd (process_folder str_of_scalar one_pixel_decoder empty_encoder
                          ids_input_json forbidden_env "h20__g4" 0 initial_world))))
                = ["fail"]) by reflexivity.
    rewrite Hreq in E. cbn in E. injection E as E. exact E. }
  destruct Hcount as [[Hs _] | [_ [Hd Hf]]]; [rewrite Hst in Hs; discriminate Hs |].
  split; [exact Hf |]. split; [exact Hd |].
  apply (Hother 1). discriminate.
Defined.

(** ** Reading back the text that was written *)

Lemma append_assoc_s (a b c : string) : ((a ++ b) ++ c = a ++ (b ++ c))%string.
Proof. induction a as [| x a IH]; cbn; [reflexivity | now rewrite IH]. Qed.

Lemma length_append_s (a b : string) :
  String.length (a ++ b) = String.length a + String.length b.
Proof. induction a as [| x a IH]; cbn; [reflexivity | now rewrite IH]. Qed.

Lemma parse_chars_escape_char (c : ascii) (r : string) :
  parse_chars (escape_char c ++ r) = cons_char c (parse_chars r).
Proof. destruct c as [[] [] [] [] [] [] [] []]; reflexivity. Qed.

Lemma parse_chars_escape (s rest : string) :
  parse_chars (escape s ++ String quote rest) = Some (s, rest).
Proof.
  induction s as [| c s IH]; [reflexivity |].
  cbn [escape]. rewrite append_assoc_s, parse_chars_escape_char, IH. reflexivity.
Qed.

Lemma parse_encoded_string (s rest : string) :
  exists t, (encode_string s ++ rest = String quote t)%string
            /\ parse_chars t = Some (s, rest).
Proof.
  exists (escape s ++ String quote rest)%string. split.
  - unfold encode_string. cbn [append]. rewrite append_assoc_s. reflexivity.
  - apply parse_chars_escape.
Qed.

(** *** Numbers *)

Fixpoint number_chars (s : string) : bool :=
  match s with
  | EmptyString => true
  | String c t => number_char c && number_chars t
  end.

(** The text that follows a token does not go on with it. *)
Definition ends_token (rest : string) : bool :=
  match rest with
  | EmptyString => true
  | String c _ => negb (number_char c)
  end.

Lemma span_number_token (token rest : string) :
  number_chars token = true -> ends_token rest = true ->
  span_number (token ++ rest) = (token, rest).
Proof.
  intros Ht Hr. induction token as [| c t IH].
  - cbn. destruct rest as [| c r]; [reflexivity |].
    cbn [ends_token] in Hr. cbn [span_number].
    destruct (number_char c); [discriminate Hr | reflexivity].
  - cbn [number_chars] in Ht. apply andb_prop in Ht as [Hc Ht].
    cbn [append span_number]. rewrite Hc, (IH Ht). reflexivity.
Qed.

Lemma digit_number_char (c : ascii) : is_digit c = true -> number_char c = true.
Proof. unfold number_char. intros ->. reflexivity. Qed.

Lemma all_digits_number_chars (s : string) : all_digits s = true -> number_chars s = true.
Proof.
  induction s as [| c t IH]; [reflexivity |]. cbn. intros H.
  apply andb_prop in H as [Hc Ht]. rewrite (digit_number_char c Hc), (IH Ht). reflexivity.
Qed.

Lemma drop_digits_number_chars (s : string) :
  number_chars (drop_digits s) = true -> number_chars s = true.
Proof.
  induction s as [| c t IH]; [reflexivity |]. cbn [drop_digits].
  destruct (is_digit c) eqn:Hc; [| intros H; exact H].
  intros H. cbn [number_chars]. rewrite (digit_number_char c Hc), (IH H). reflexivity.
Qed.

Lemma digits1_number_chars (s : string) : digits1 s = true -> number_chars s = true.
Proof.
  destruct s as [| c t]; [discriminate |]. exact (all_digits_number_chars (String c t)).
Qed.

Lemma exponent_number_chars (s : string) : exponent s = true -> number_chars s = true.
Proof.
  destruct s as [| c t]; [discriminate |]. cbn [exponent].
  destruct (Ascii.eqb c "+" || Ascii.eqb c "-") eqn:Hc.
  - intros H. cbn [number_chars]. rewrite (digits1_number_chars t H), andb_true_r.
    unfold number_char. apply orb_prop in Hc as [-> | ->]; now rewrite ?orb_true_r.
  - apply (digits1_number_chars (String c t)).
Qed.

Lemma exponent_or_end_number_chars (s : string) :
  exponent_or_end s = true -> number_chars s = true.
Proof.
  destruct s as [| c t]; [reflexivity |]. cbn [exponent_or_end]. intros H.
  apply andb_prop in H as [Hc Ht]. cbn [number_chars].
  rewrite (exponent_number_chars t Ht), andb_true_r.
  unfold number_char. apply orb_prop in Hc as [-> | ->]; now rewrite ?orb_true_r.
Qed.

Lemma fraction_exponent_number_chars (s : string) :
  fraction_exponent s = true -> number_chars s = true.
Proof.
  destruct s as [| c [| d t]]; try apply exponent_or_end_number_chars.
  cbn [fraction_exponent]. destruct (Ascii.eqb c ".") eqn:Hc;
    [| apply exponent_or_end_number_chars].
  intros H. apply andb_prop in H as [Hd Ht]. cbn [number_chars].
  rewrite (digit_number_char d Hd).
  rewrite (drop_digits_number_chars t (exponent_or_end_number_chars _ Ht)).
  unfold number_char. rewrite Hc. now rewrite ?orb_true_r.
Qed.

Lemma unsigned_number_chars (s : string) :
  unsigned_number s = true -> number_chars s = true.
Proof.
  destruct s as [| d t]; [discriminate |]. cbn [unsigned_number].
  destruct (Ascii.eqb d "0") eqn:Hd.
  - intros H. cbn [number_chars]. rewrite (fraction_exponent_number_chars t H), andb_true_r.
    apply Ascii.eqb_eq in Hd. subst d. reflexivity.
  - intros H. apply andb_prop in H as [Hdig Ht]. cbn [number_chars].
    rewrite (digit_number_char d Hdig).
    apply (drop_digits_number_chars t (fraction_exponent_number_chars _ Ht)).
Qed.

Lemma json_number_chars (s : string) : json_number s = true -> number_chars s = true.
Proof.
  destruct s as [| c t]; [discriminate |]. cbn [json_number].
  destruct (Ascii.eqb c "-") eqn:Hc; [| apply unsigned_number_chars].
  intros H. cbn [number_chars]. rewrite (unsigned_number_chars t H), andb_true_r.
  unfold number_char. rewrite Hc. now rewrite ?orb_true_r.
Qed.

(** A number starts with a digit or a minus sign. *)
Definition starts_number (c : ascii) : bool := is_digit c || Ascii.eqb c "-".

Lemma json_number_start (s : string) :
  json_number s = true ->
  exists c t, s = String c t /\ starts_number c = true.
Proof.
  destruct s as [| c t]; [discriminate |]. intros H. exists c, t. split; [reflexivity |].
  unfold starts_number. cbn [json_number] in H.
  destruct (Ascii.eqb c "-"); [apply orb_true_r |].
  cbn [unsigned_number] in H. destruct (Ascii.eqb c "0") eqn:Hc.
  - apply Ascii.eqb_eq in Hc. subst c. reflexivity.
  - apply andb_prop in H as [-> _]. reflexivity.
Qed.

Lemma parse_number_token (token rest : string) :
  json_number token = true -> ends_token rest = true ->
  parse_number (token ++ rest) = Some (token, rest).
Proof.
  intros Hn Hr. unfold parse_number.
  rewrite (span_number_token token rest (json_number_chars token Hn) Hr), Hn. reflexivity.
Qed.

(** *** Integers *)

Lemma string_of_uint_digits (d : Decimal.uint) :
  all_digits (NilEmpty.string_of_uint d) = true.
Proof. induction d; cbn; try rewrite IHd; reflexivity. Qed.

Lemma drop_all_digits (s : string) : all_digits s = true -> drop_digits s = "".
Proof.
  induction s as [| c t IH]; [reflexivity |]. cbn. intros H.
  apply andb_prop in H as [-> Ht]. apply IH. exact Ht.
Qed.

Lemma to_uint_unorm (p : positive) : Decimal.unorm (Pos.to_uint p) = Pos.to_uint p.
Proof.
  rewrite <- (DecimalPos.Unsigned.to_of (Pos.to_uint p)).
  rewrite DecimalPos.Unsigned.of_to. reflexivity.
Qed.

Lemma to_uint_no_leading_zero (p : positive) (u : Decimal.uint) :
  Pos.to_uint p <> Decimal.D0 u.
Proof.
  intros H. pose proof (to_uint_unorm p) as Hn. rewrite H in Hn.
  destruct u as [| u | u | u | u | u | u | u | u | u | u];
    try (rewrite DecimalFacts.unorm_D0 in Hn;
         match type of Hn with
         | Decimal.unorm ?x = _ =>
             assert (Hx : x <> Decimal.Nil) by discriminate;
             pose proof (DecimalFacts.nb_digits_unorm x Hx) as Hlen;
             rewrite Hn in Hlen; cbn in Hlen; lia
         end).
  exact (DecimalPos.Unsigned.to_uint_nonzero p H).
Qed.

Lemma unsigned_number_to_uint (p : positive) :
  unsigned_number (NilZero.string_of_uint (Pos.to_uint p)) = true.
Proof.
  pose proof (to_uint_no_leading_zero p) as Hz.
  pose proof (DecimalPos.Unsigned.to_uint_nonnil p) as Hnil.
  destruct (Pos.to_uint p) as [| u | u | u | u | u | u | u | u | u | u];
    [congruence | exfalso; exact (Hz u eq_refl) | ..];
    cbn [NilZero.string_of_uint NilEmpty.string_of_uint unsigned_number];
    rewrite (drop_all_digits _ (string_of_uint_digits u)); reflexivity.
Qed.

Lemma json_number_str_int (z : Z) : json_number (str_int z) = true.
Proof.
  unfold str_int. destruct z as [| p | p]; [reflexivity | |].
  - cbn [Z.to_int NilZero.string_of_int].
    pose proof (unsigned_number_to_uint p) as H.
    destruct (NilZero.string_of_uint (Pos.to_uint p)) as [| c t] eqn:E; [discriminate H |].
    cbn [json_number].
    destruct (Ascii.eqb c "-") eqn:Hc; [| exact H].
    apply Ascii.eqb_eq in Hc. subst c. discriminate H.
  - cbn [Z.to_int NilZero.string_of_int json_number].
    change (Ascii.eqb "-" "-") with true. cbv iota.
    apply unsigned_number_to_uint.
Qed.

(** *** Documents *)

Section JsonInduction.

Variable P : json -> Prop.
Hypothesis P_null : P JNull.
Hypothesis P_bool : forall b, P (JBool b).
Hypothesis P_int : forall z, P (JInt z).
Hypothesis P_float : forall q, P (JFloat q).
Hypothesis P_str : forall s, P (JStr s).
Hypothesis P_arr : forall items, Forall P items -> P (JArr items).
Hypothesis P_obj : forall fields, Forall (fun kv => P (snd kv)) fields -> P (JObj fields).

Fixpoint json_induction (j : json) : P j :=
  match j with
  | JNull => P_null
  | JBool b => P_bool b
  | JInt z => P_int z
  | JFloat q => P_float q
  | JStr s => P_str s
  | JArr items =>
      P_arr items
        ((fix go (l : list json) : Forall P l :=
            match l with
            | [] => Forall_nil P
            | x :: l' => Forall_cons x (json_induction x) (go l')
            end) items)
  | JObj fields =>
      P_obj fields
        ((fix go (l : list (string * json)) : Forall (fun kv => P (snd kv)) l :=
            match l with
            | [] => Forall_nil _
            | kv :: l' => Forall_cons kv (json_induction (snd kv)) (go l')
            end) fields)
  end.

End JsonInduction.

(** The number of values of a document. *)
Fixpoint size (j : json) : nat :=
  match j with
  | JArr items => S (list_sum (map (fun x => S (size x)) items))
  | JObj fields => S (list_sum (map (fun kv => S (size (snd kv))) fields))
  | _ => 1
  end.

Lemma parse_value_S (fuel : nat) (s : string) :
  parse_value (S fuel) s =
    match skip_ws s with
    | EmptyString => None
    | String c t =>
        if Ascii.eqb c "n" then expect "ull" t DNull
        else if Ascii.eqb c "t" then expect "rue" t (DBool true)
        else if Ascii.eqb c "f" then expect "alse" t (DBool false)
        else if Ascii.eqb c quote then
          match parse_chars t with
          | Some (str, rest) => Some (DStr str, rest)
          | None => None
          end
        else if Ascii.eqb c "[" then
          match skip_ws t with
          | String c' rest =>
              if Ascii.eqb c' "]" then Some (DArr [], rest)
              else
                match parse_items fuel t with
                | Some (items, rest') => Some (DArr items, rest')
                | None => None
                end
          | EmptyString => None
          end
        else if Ascii.eqb c "{" then
          match skip_ws t with
          | String c' rest =>
              if Ascii.eqb c' "}" then Some (DObj [], rest)
              else
                match parse_fields fuel t with
                | Some (fields, rest') => Some (DObj fields, rest')
                | None => None
                end
          | EmptyString => None
          end
        else
          match parse_number (String c t) with
          | Some (token, rest) => Some (DNum token, rest)
          | None => None
          end
    end.
Proof. reflexivity. Qed.

Lemma parse_items_S (fuel : nat) (s : string) :
  parse_items (S fuel) s =
    match parse_value fuel s with
    | Some (x, rest) =>
        match skip_ws rest with
        | String c rest' =>
            if Ascii.eqb c "," then
              match parse_items fuel rest' with
              | Some (xs, rest'') => Some (x :: xs, rest'')
              | None => None
              end
            else if Ascii.eqb c "]" then Some ([x], rest')
            else None
        | EmptyString => None
        end
    | None => None
    end.
Proof. reflexivity. Qed.

Lemma parse_fields_S (fuel : nat) (s : string) :
  parse_fields (S fuel) s =
    match skip_ws s with
    | String c t =>
        if Ascii.eqb c quote then
          match parse_chars t with
          | Some (k, rest) =>
              match skip_ws rest with
              | String c1 rest1 =>
                  if Ascii.eqb c1 ":" then
                    match parse_value fuel rest1 with
                    | Some (v, rest2) =>
                        match skip_ws rest2 with
                        | String c2 rest3 =>
                            if Ascii.eqb c2 "," then
                              match parse_fields fuel rest3 with
                              | Some (fs, rest4) => Some ((k, v) :: fs, rest4)
                              | None => None
                              end
                            else if Ascii.eqb c2 "}" then Some ([(k, v)], rest3)
                            else None
                        | EmptyString => None
                        end
                    | None => None
                    end
                  else None
              | EmptyString => None
              end
          | None => None
          end
        else None
    | EmptyString => None
    end.
Proof. reflexivity. Qed.

Lemma skip_ws_spaces (n : nat) (s : string) : skip_ws (spaces n ++ s) = skip_ws s.
Proof. induction n as [| n IH]; [reflexivity | exact IH]. Qed.

Lemma skip_ws_newline_indent (level : nat) (s : string) :
  skip_ws (newline_indent level ++ s) = skip_ws s.
Proof. unfold newline_indent. cbn [append skip_ws is_ws]. apply skip_ws_spaces. Qed.

Lemma skip_ws_keep (c : ascii) (s : string) :
  is_ws c = false -> skip_ws (String c s) = String c s.
Proof. intros H. cbn [skip_ws]. rewrite H. reflexivity. Qed.

Lemma skip_ws_idem (s : string) : skip_ws (skip_ws s) = skip_ws s.
Proof.
  induction s as [| c t IH]; [reflexivity |]. cbn [skip_ws].
  destruct (is_ws c) eqn:Hc; [exact IH |]. cbn [skip_ws]. rewrite Hc. reflexivity.
Qed.

Lemma parse_value_skip (fuel : nat) (s : string) :
  parse_value fuel (skip_ws s) = parse_value fuel s.
Proof.
  destruct fuel as [| fuel]; [reflexivity |].
  rewrite !parse_value_S, skip_ws_idem. reflexivity.
Qed.

Lemma parse_value_indented (fuel level : nat) (s : string) :
  parse_value fuel (newline_indent level ++ s) = parse_value fuel s.
Proof.
  rewrite <- parse_value_skip, skip_ws_newline_indent. apply parse_value_skip.
Qed.

(** What a character that starts a number is not. *)
Lemma starts_number_kind (c : ascii) :
  starts_number c = true ->
  is_ws c = false /\ Ascii.eqb c "n" = false /\ Ascii.eqb c "t" = false
  /\ Ascii.eqb c "f" = false /\ Ascii.eqb c quote = false /\ Ascii.eqb c "[" = false
  /\ Ascii.eqb c "{" = false /\ Ascii.eqb c "]" = false /\ Ascii.eqb c "}" = false.
Proof.
  destruct c as [[] [] [] [] [] [] [] []]; intros H; try discriminate H; repeat split.
Qed.

Lemma parse_value_number (fuel : nat) (token rest : string) :
  json_number token = true -> ends_token rest = true ->
  parse_value (S fuel) (token ++ rest) = Some (DNum token, rest).
Proof.
  intros Hn Hr. pose proof (parse_number_token token rest Hn Hr) as Hp.
  destruct (json_number_start token Hn) as [c [t [-> Hc]]].
  destruct (starts_number_kind c Hc) as [Hws [H1 [H2 [H3 [H4 [H5 [H6 _]]]]]]].
  rewrite parse_value_S. cbn [append skip_ws]. rewrite Hws, H1, H2, H3, H4, H5, H6.
  cbn [append] in Hp. rewrite Hp. reflexivity.
Qed.

Section ReadBack.

Variable float_repr : Q -> string.

(** [repr] of a float that is a number (not [inf] or [nan]) is a number
    of JSON. *)
Hypothesis float_repr_number : forall q, json_number (float_repr q) = true.

(** What a reader finds in the text of a document. *)
Fixpoint read_back (j : json) : jdoc :=
  match j with
  | JNull => DNull
  | JBool b => DBool b
  | JInt z => DNum (str_int z)
  | JFloat q => DNum (float_repr q)
  | JStr s => DStr s
  | JArr items => DArr (map read_back items)
  | JObj fields => DObj (map (fun kv => (fst kv, read_back (snd kv))) fields)
  end.

(** The first character of the text of a document. *)
Definition opens_value (c : ascii) : Prop :=
  is_ws c = false /\ Ascii.eqb c "]" = false /\ Ascii.eqb c "}" = false.

Lemma json_dump_head (level : nat) (j : json) :
  exists c t, json_dump float_repr level j = String c t /\ opens_value c.
Proof.
  assert (Hnum : forall token, json_number token = true ->
                   exists c t, token = String c t /\ opens_value c).
  { intros token Hn. destruct (json_number_start token Hn) as [c [t [-> Hc]]].
    exists c, t. split; [reflexivity |].
    destruct (starts_number_kind c Hc) as [Hws [_ [_ [_ [_ [_ [_ [H7 H8]]]]]]]].
    repeat split; assumption. }
  destruct j as [| [] | z | q | s | [| x xs] | [| kv fs]];
    try (eexists; eexists; split; [reflexivity | repeat split]).
  - apply Hnum, json_number_str_int.
  - apply Hnum, float_repr_number.
Qed.

Lemma fold_items_append {A} (g : A -> string -> string) (base rest : string) (xs : list A) :
  (forall y more, g y more ++ rest = g y (more ++ rest))%string ->
  (fold_right g base xs ++ rest = fold_right g (base ++ rest) xs)%string.
Proof.
  intros Hg. induction xs as [| y ys IH]; [reflexivity |].
  cbn [fold_right]. rewrite Hg, IH. reflexivity.
Qed.

(** The text that follows an item of a container. *)
Definition items_tail (level : nat) (close : string) (rest : string)
    (f : json -> string) (xs : list json) : string :=
  fold_right (fun y more => "," ++ newline_indent (S level) ++ f y ++ more)
    (newline_indent level ++ close ++ rest) xs.

Definition reads_back (j : json) : Prop :=
  forall level fuel rest,
    size j <= fuel -> ends_token rest = true ->
    parse_value fuel (json_dump float_repr level j ++ rest) = Some (read_back j, rest).

Lemma ends_token_tail {A} (f : A -> string) (level : nat) (tail : string) (xs : list A) :
  ends_token
    (fold_right (fun y more => "," ++ f y ++ more) (newline_indent level ++ tail) xs) = true.
Proof. destruct xs; reflexivity. Qed.

Lemma parse_items_dump (level : nat) (rest : string) (xs : list json) :
  Forall reads_back xs ->
  forall x fuel,
    reads_back x ->
    S (size x) + list_sum (map (fun y => S (size y)) xs) <= fuel ->
    parse_items fuel
      (newline_indent (S level) ++ json_dump float_repr (S level) x
       ++ fold_right
            (fun y more => "," ++ newline_indent (S level)
                           ++ json_dump float_repr (S level) y ++ more)
            (newline_indent level ++ "]" ++ rest) xs)
    = Some (read_back x :: map read_back xs, rest).
Proof.
  induction 1 as [| y ys Hy Hys IH]; intros x fuel Hx Hfuel.
  - destruct fuel as [| fuel]; [cbn in Hfuel; lia |].
    rewrite parse_items_S, parse_value_indented.
    cbn [fold_right map].
    rewrite (Hx (S level) fuel _) by (try reflexivity; lia).
    rewrite skip_ws_newline_indent. reflexivity.
  - destruct fuel as [| fuel]; [cbn in Hfuel; lia |].
    change (list_sum (map (fun y => S (size y)) (y :: ys)))
      with (S (size y) + list_sum (map (fun y => S (size y)) ys)) in Hfuel.
    rewrite parse_items_S, parse_value_indented.
    cbn [fold_right map].
    rewrite (Hx (S level) fuel _) by (try reflexivity; lia).
    cbn [append]. rewrite skip_ws_keep by reflexivity.
    change (Ascii.eqb "," ",") with true. cbv iota.
    pose proof (IH y fuel Hy ltac:(lia)) as E. cbn [append] in E. rewrite E. reflexivity.
Qed.

Lemma parse_value_space (fuel : nat) (s : string) :
  parse_value fuel (String " " s) = parse_value fuel s.
Proof.
  rewrite <- parse_value_skip. cbn [skip_ws].
  change (is_ws " ") with true. cbv iota. apply parse_value_skip.
Qed.

Lemma parse_fields_dump (level : nat) (rest : string) (fs : list (string * json)) :
  Forall (fun kv => reads_back (snd kv)) fs ->
  forall k v fuel,
    reads_back v ->
    S (size v) + list_sum (map (fun kv => S (size (snd kv))) fs) <= fuel ->
    parse_fields fuel
      (newline_indent (S level) ++ encode_string k ++ ": "
       ++ json_dump float_repr (S level) v
       ++ fold_right
            (fun kv' more => "," ++ newline_indent (S level) ++ encode_string (fst kv') ++ ": "
                             ++ json_dump float_repr (S level) (snd kv') ++ more)
            (newline_indent level ++ "}" ++ rest) fs)
    = Some ((k, read_back v) :: map (fun kv => (fst kv, read_back (snd kv))) fs, rest).
Proof.
  induction 1 as [| kv fs Hkv Hfs IH]; intros k v fuel Hv Hfuel.
  - destruct fuel as [| fuel]; [cbn in Hfuel; lia |].
    rewrite parse_fields_S, skip_ws_newline_indent.
    destruct (parse_encoded_string k
                (": " ++ json_dump float_repr (S level) v
                 ++ fold_right
                      (fun kv' more =>
                         "," ++ newline_indent (S level) ++ encode_string (fst kv') ++ ": "
                         ++ json_dump float_repr (S level) (snd kv') ++ more)
                      (newline_indent level ++ "}" ++ rest) [])) as [t [Et Hparse]].
    rewrite Et, skip_ws_keep by reflexivity.
    change (Ascii.eqb quote quote) with true. cbv iota. rewrite Hparse.
    cbn [append]. rewrite skip_ws_keep by reflexivity.
    change (Ascii.eqb ":" ":") with true. cbv iota.
    rewrite parse_value_space.
    cbn [fold_right map].
    pose proof (Hv (S level) fuel (newline_indent level ++ "}" ++ rest)
                  ltac:(cbn [map list_sum] in Hfuel; lia) eq_refl) as E.
    cbn [append] in E. rewrite E.
    rewrite skip_ws_newline_indent. reflexivity.
  - destruct fuel as [| fuel]; [cbn in Hfuel; lia |].
    change (list_sum (map (fun kv => S (size (snd kv))) (kv :: fs)))
      with (S (size (snd kv)) + list_sum (map (fun kv => S (size (snd kv))) fs)) in Hfuel.
    rewrite parse_fields_S, skip_ws_newline_indent.
    destruct (parse_encoded_string k
                (": " ++ json_dump float_repr (S level) v
                 ++ fold_right
                      (fun kv' more =>
                         "," ++ newline_indent (S level) ++ encode_string (fst kv') ++ ": "
                         ++ json_dump float_repr (S level) (snd kv') ++ more)
                      (newline_indent level ++ "}" ++ rest) (kv :: fs))) as [t [Et Hparse]].
    rewrite Et, skip_ws_keep by reflexivity.
    change (Ascii.eqb quote quote) with true. cbv iota. rewrite Hparse.
    cbn [append]. rewrite skip_ws_keep by reflexivity.
    change (Ascii.eqb ":" ":") with true. cbv iota.
    rewrite parse_value_space.
    cbn [fold_right map].
    pose proof (Hv (S level) fuel
                  ("," ++ newline_indent (S level) ++ encode_string (fst kv) ++ ": "
                   ++ json_dump float_repr (S level) (snd kv)
                   ++ fold_right
                        (fun kv' more =>
                           "," ++ newline_indent (S level) ++ encode_string (fst kv') ++ ": "
                           ++ json_dump float_repr (S level) (snd kv') ++ more)
                        (newline_indent level ++ "}" ++ rest) fs)
                  ltac:(lia) eq_refl) as E.
    cbn [append] in E. rewrite E.
    rewrite skip_ws_keep by reflexivity.
    change (Ascii.eqb "," ",") with true. cbv iota.
    pose proof (IH (fst kv) (snd kv) fuel Hkv ltac:(lia)) as E2.
    cbn [append] in E2. rewrite E2. reflexivity.
Qed.

(** Every document is read back from its text. *)
Lemma json_dump_reads_back (j : json) : reads_back j.
Proof.
  induction j as [| b | z | q | s | items IH | fields IH] using json_induction;
    intros level fuel rest Hfuel Hrest;
    (destruct fuel as [| fuel]; [cbn in Hfuel; lia |]).
  - reflexivity.
  - destruct b; reflexivity.
  - apply parse_value_number; [apply json_number_str_int | exact Hrest].
  - apply parse_value_number; [apply float_repr_number | exact Hrest].
  - cbn [json_dump read_back].
    destruct (parse_encoded_string s rest) as [t [Et Hparse]].
    rewrite Et, parse_value_S, skip_ws_keep by reflexivity.
    change (Ascii.eqb quote "n") with false. change (Ascii.eqb quote "t") with false.
    change (Ascii.eqb quote "f") with false. change (Ascii.eqb quote quote) with true.
    cbv iota. rewrite Hparse. reflexivity.
  - destruct items as [| x xs]; [reflexivity |].
    inversion IH as [| ? ? Hx Hxs]; subst.
    cbn [json_dump read_back].
    rewrite !append_assoc_s.
    rewrite fold_items_append by (intros y more; rewrite !append_assoc_s; reflexivity).
    rewrite !append_assoc_s.
    rewrite parse_value_S. cbn [append]. rewrite skip_ws_keep by reflexivity.
    change (Ascii.eqb "[" "n") with false. change (Ascii.eqb "[" "t") with false.
    change (Ascii.eqb "[" "f") with false. change (Ascii.eqb "[" quote) with false.
    change (Ascii.eqb "[" "[") with true. cbv iota.
    rewrite skip_ws_newline_indent.
    change (size (JArr (x :: xs)))
      with (S (S (size x) + list_sum (map (fun y => S (size y)) xs))) in Hfuel.
    pose proof (parse_items_dump level rest xs Hxs x fuel Hx ltac:(lia)) as E.
    cbn [append] in E.
    match goal with
    | |- context [parse_items fuel ?a] => remember (parse_items fuel a) as read eqn:Eread
    end.
    destruct (json_dump_head (S level) x) as [c [t [Ehead [Hws [Hclose _]]]]].
    rewrite Ehead. cbn [append]. rewrite skip_ws_keep by exact Hws. rewrite Hclose.
    subst read. rewrite E. reflexivity.
  - destruct fields as [| [k v] fs]; [reflexivity |].
    inversion IH as [| ? ? Hv Hfs]; subst. cbn [snd] in Hv.
    cbn [json_dump read_back fst snd].
    rewrite !append_assoc_s.
    rewrite fold_items_append by (intros y more; rewrite !append_assoc_s; reflexivity).
    rewrite !append_assoc_s.
    rewrite parse_value_S. cbn [append]. rewrite skip_ws_keep by reflexivity.
    change (Ascii.eqb "{" "n") with false. change (Ascii.eqb "{" "t") with false.
    change (Ascii.eqb "{" "f") with false. change (Ascii.eqb "{" quote) with false.
    change (Ascii.eqb "{" "[") with false. change (Ascii.eqb "{" "{") with true. cbv iota.
    rewrite skip_ws_newline_indent.
    change (size (JObj ((k, v) :: fs)))
      with (S (S (size v) + list_sum (map (fun kv => S (size (snd kv))) fs))) in Hfuel.
    pose proof (parse_fields_dump level rest fs Hfs k v fuel Hv ltac:(lia)) as E.
    cbn [append] in E.
    match goal with
    | |- context [parse_fields fuel ?a] => remember (parse_fields fuel a) as read eqn:Eread
    end.
    unfold encode_string. cbn [append]. rewrite skip_ws_keep by reflexivity.
    change (Ascii.eqb quote "}") with false. cbv iota.
    subst read. rewrite E. reflexivity.
Qed.

Lemma append_nil_r_s (s : string) : (s ++ "")%string = s.
Proof. induction s as [| c s IH]; cbn; [reflexivity | now rewrite IH]. Qed.

Lemma number_not_empty (token : string) :
  json_number token = true -> 1 <= String.length token.
Proof.
  intros H. destruct (json_number_start token H) as [c [t [-> _]]]. cbn. lia.
Qed.

Lemma tail_length {A} (weight : A -> nat) (g : A -> string -> string) (base : string)
    (xs : list A) :
  Forall (fun y => forall more, S (weight y) + String.length more <= String.length (g y more))
    xs ->
  list_sum (map (fun y => S (weight y)) xs) <= String.length (fold_right g base xs).
Proof.
  induction 1 as [| y ys Hy Hys IH]; [cbn; lia |].
  change (list_sum (map (fun y => S (weight y)) (y :: ys)))
    with (S (weight y) + list_sum (map (fun y => S (weight y)) ys)).
  cbn [fold_right]. specialize (Hy (fold_right g base ys)). lia.
Qed.

(** The text of a document has at least one character for each of its
    values. *)
Lemma size_le_length (j : json) :
  forall level, size j <= String.length (json_dump float_repr level j).
Proof.
  induction j as [| b | z | q | s | items IH | fields IH] using json_induction;
    intros level.
  - cbn. lia.
  - destruct b; cbn; lia.
  - apply number_not_empty, json_number_str_int.
  - apply number_not_empty, float_repr_number.
  - cbn. lia.
  - destruct items as [| x xs]; [cbn; lia |].
    inversion IH as [| ? ? Hx Hxs]; subst.
    change (size (JArr (x :: xs)))
      with (S (S (size x) + list_sum (map (fun y => S (size y)) xs))).
    cbn [json_dump]. rewrite !length_append_s. cbn [String.length].
    specialize (Hx (S level)).
    assert (Htail :
      list_sum (map (fun y => S (size y)) xs)
      <= String.length
           (fold_right
              (fun y more => "," ++ newline_indent (S level)
                             ++ json_dump float_repr (S level) y ++ more)
              (newline_indent level ++ "]") xs)).
    { apply (tail_length size). apply (Forall_impl _ (P := fun y => forall level,
               size y <= String.length (json_dump float_repr level y))); [| exact Hxs].
      intros y Hy more. rewrite !length_append_s. cbn [String.length].
      specialize (Hy (S level)). lia. }
    assert (Hnl : 1 <= String.length (newline_indent (S level))) by (cbn; lia).
    lia.
  - destruct fields as [| [k v] fs]; [cbn; lia |].
    inversion IH as [| ? ? Hv Hfs]; subst. cbn [snd] in Hv.
    change (size (JObj ((k, v) :: fs)))
      with (S (S (size v) + list_sum (map (fun kv => S (size (snd kv))) fs))).
    cbn [json_dump fst snd]. rewrite !length_append_s. cbn [String.length].
    specialize (Hv (S level)).
    assert (Htail :
      list_sum (map (fun kv => S (size (snd kv))) fs)
      <= String.length
           (fold_right
              (fun kv' more =>
                 "," ++ newline_indent (S level) ++ encode_string (fst kv') ++ ": "
                 ++ json_dump float_repr (S level) (snd kv') ++ more)
              (newline_indent level ++ "}") fs)).
    { apply (tail_length (fun kv => size (snd kv))).
      apply (Forall_impl _ (P := fun kv => forall level,
               size (snd kv) <= String.length (json_dump float_repr level (snd kv))));
        [| exact Hfs].
      intros kv Hkv more. rewrite !length_append_s. cbn [String.length].
      specialize (Hkv (S level)). lia. }
    assert (Hnl : 1 <= String.length (newline_indent (S level))) by (cbn; lia).
    lia.
Qed.

(** The text [json.dump] writes is one JSON document, and a reader finds
    in it the document that was written. *)
Lemma json_loads_dump (j : json) :
  json_loads (json_dump float_repr 0 j) = Some (read_back j).
Proof.
  unfold json_loads.
  pose proof (json_dump_reads_back j 0 (String.length (json_dump float_repr 0 j)) ""
                (size_le_length j 0) eq_refl) as H.
  rewrite append_nil_r_s in H. rewrite H. reflexivity.
Qed.

End ReadBack.

(** ** A whole run *)

(** [a] is [b] with some elements left out. *)
Inductive subseq {A : Type} : list A -> list A -> Prop :=
| subseq_nil : subseq [] []
| subseq_take (x : A) (a b : list A) : subseq a b -> subseq (x :: a) (x :: b)
| subseq_skip (x : A) (a b : list A) : subseq a b -> subseq a (x :: b).

Lemma subseq_refl {A} (l : list A) : subseq l l.
Proof. induction l; constructor; assumption. Qed.

Lemma subseq_nil_l {A} (l : list A) : subseq [] l.
Proof. induction l; constructor; assumption. Qed.

Lemma subseq_app {A} (a b c d : list A) :
  subseq a b -> subseq c d -> subseq (a ++ c) (b ++ d).
Proof. induction 1; intros Hcd; cbn; try constructor; auto. Qed.

Lemma subseq_prefix {A} (a rest : list A) : subseq a (a ++ rest).
Proof.
  rewrite <- (app_nil_r a) at 1. apply subseq_app; [apply subseq_refl | apply subseq_nil_l].
Qed.

Lemma subseq_incl {A} (a b : list A) : subseq a b -> incl a b.
Proof.
  induction 1 as [| x a b _ IH | x a b _ IH]; intros y Hy.
  - exact Hy.
  - destruct Hy as [-> | Hy]; [now left | right; now apply IH].
  - right. now apply IH.
Qed.

Lemma subseq_NoDup {A} (a b : list A) : subseq a b -> NoDup b -> NoDup a.
Proof.
  induction 1 as [| x a b Hs IH | x a b Hs IH]; intros Hb.
  - constructor.
  - inversion Hb as [| ? ? Hx Hb']; subst. constructor; [| now apply IH].
    intros Hin. apply Hx. eapply subseq_incl; eassumption.
  - inversion Hb; subst. now apply IH.
Qed.

Lemma subseq_length {A} (a b : list A) : subseq a b -> List.length a <= List.length b.
Proof. induction 1; cbn; lia. Qed.

Section WholeRun.

Variable py_str : json -> string.
Variable decode_image : list byte -> option image.
Variable encode_image : image -> list byte.
Variable input_json : list (string * list (string * string)).
Variable env : string -> item_env.

Lemma worker_records (thread_idx : nat) (chunk : list string) (w : world) :
  match worker py_str decode_image encode_image input_json env thread_idx chunk w with
  | (Ret _, w') =>
      exists rs,
        results_summary w'
          = mkSummary (requests (results_summary w) ++ rs)%list
                      (average_duration (results_summary w))
        /\ map folder rs = chunk
  | (Raise _, w') =>
      exists rs rest,
        results_summary w'
          = mkSummary (requests (results_summary w) ++ rs)%list
                      (average_duration (results_summary w))
        /\ chunk = (map folder rs ++ rest)%list
        /\ rest <> []
  end.
Proof.
  revert w. induction chunk as [| name chunk IH]; intros w.
  - cbn. exists []. rewrite app_nil_r. destruct (results_summary w). split; reflexivity.
  - cbn [worker]. unfold bind.
    pose proof (process_folder_books py_str decode_image encode_image input_json env
                  name thread_idx (books w) w eq_refl) as H.
    destruct (process_folder py_str decode_image encode_image input_json env
                name thread_idx w) as [[a | e] w1]; cbn [books fst snd] in H.
    + destruct H as [r [Hsum [Hfolder _]]].
      specialize (IH w1).
      destruct (worker py_str decode_image encode_image input_json env thread_idx chunk w1)
        as [[a' | e] w2].
      * destruct IH as [rs [Hsum2 Hmap]]. exists (r :: rs).
        rewrite Hsum2, Hsum. cbn [requests average_duration map].
        rewrite <- app_assoc, Hfolder, Hmap. split; reflexivity.
      * destruct IH as [rs [rest [Hsum2 [Hmap Hrest]]]]. exists (r :: rs), rest.
        rewrite Hsum2, Hsum. cbn [requests average_duration map].
        rewrite <- app_assoc, Hfolder, Hmap. repeat split. exact Hrest.
    + destruct H as [Hsum _]. exists [], (name :: chunk).
      rewrite Hsum, app_nil_r. destruct (results_summary w). repeat split. discriminate.
Qed.

(** X9. A worker goes through its chunk in order.  When it returns, the
    records it appended are those of the items of the chunk, one each, in
    the order of the chunk.  When an exception ends it, the records it
    appended are those of the items before the one that raised, and the
    items after that one are not processed: they leave no record. *)
Theorem worker_in_order (thread_idx : nat) (chunk : list string) (w : world) :
  let run := worker py_str decode_image encode_image input_json env thread_idx chunk w in
  exists rs,
    requests (results_summary (snd run)) = (requests (results_summary w) ++ rs)%list
    /\ match fst run with
       | Ret _ => map folder rs = chunk
       | Raise _ => exists rest, chunk = (map folder rs ++ rest)%list /\ rest <> []
       end.
Proof.
  cbv zeta. pose proof (worker_records thread_idx chunk w) as H.
  destruct (worker py_str decode_image encode_image input_json env thread_idx chunk w)
    as [[a | e] w']; cbn [fst snd].
  - destruct H as [rs [Hsum Hmap]]. exists rs. rewrite Hsum. split; [reflexivity | exact Hmap].
  - destruct H as [rs [rest [Hsum H]]]. exists rs. rewrite Hsum.
    split; [reflexivity | exists rest; exact H].
Qed.

Lemma run_threads_records (chunks : list (list string)) (thread_idx : nat) (w : world) :
  exists rs,
    run_threads py_str decode_image encode_image input_json env thread_idx chunks w
      = (Ret tt, snd (run_threads py_str decode_image encode_image input_json env
                        thread_idx chunks w))
    /\ results_summary
         (snd (run_threads py_str decode_image encode_image input_json env thread_idx chunks w))
       = mkSummary (requests (results_summary w) ++ rs)%list
                   (average_duration (results_summary w))
    /\ subseq (map folder rs) (List.concat chunks).
Proof.
  revert thread_idx w. induction chunks as [| chunk chunks IH]; intros thread_idx w.
  - exists []. cbn. rewrite app_nil_r. destruct (results_summary w).
    repeat split. constructor.
  - cbn [run_threads List.concat]. unfold bind, run_thread.
    pose proof (worker_records thread_idx chunk w) as H.
    set (w1 := snd (worker py_str decode_image encode_image input_json env thread_idx chunk w)).
    assert (H1 : exists rs1, results_summary w1
                   = mkSummary (requests (results_summary w) ++ rs1)%list
                               (average_duration (results_summary w))
                 /\ subseq (map folder rs1) chunk).
    { subst w1.
      destruct (worker py_str decode_image encode_image input_json env thread_idx chunk w)
        as [[a | e] w']; cbn [snd].
      - destruct H as [rs [Hsum Hmap]]. exists rs. split; [exact Hsum |].
        rewrite Hmap. apply subseq_refl.
      - destruct H as [rs [rest [Hsum [Hmap _]]]]. exists rs. split; [exact Hsum |].
        rewrite Hmap. apply subseq_prefix. }
    clear H. destruct H1 as [rs1 [Hsum1 Hsub1]].
    destruct (IH (S thread_idx) w1) as [rs2 [Hrun [Hsum2 Hsub2]]].
    exists (rs1 ++ rs2)%list. rewrite Hrun. cbn [snd].
    split; [reflexivity |]. split.
    + rewrite Hsum2, Hsum1. cbn [requests average_duration]. rewrite <- app_assoc. reflexivity.
    + rewrite map_app. apply subseq_app; assumption.
Qed.

(** X10. A run of [main] always comes to its end: no exception of an item
    reaches it.  With distinct keys and a summary that starts empty, the
    manifest it leaves has at most one record per key and no record for
    anything that is not a key, so never more records than work items;
    the file holds the document of the final summary, average
    included. *)
Theorem main_manifest (w : world) :
  NoDup (map fst input_json) ->
  requests (results_summary w) = [] ->
  let run := main py_str decode_image encode_image input_json env w in
  let recs := requests (results_summary (snd run)) in
  fst run = Ret tt
  /\ NoDup (map folder recs)
  /\ incl (map folder recs) (map fst input_json)
  /\ List.length recs <= List.length input_json
  /\ manifest_on_disk (snd run) = Some (summary_json (results_summary (snd run))).
Proof.
  intros Hkeys Hempty run recs.
  set (w0 := mkWorld (clock w) (files w) (results_summary w) (fun _ => mkCounters 0 0) (trace w)).
  destruct (run_threads_records (folder_chunks (map fst input_json) NUM_THREADS) 0 w0)
    as [rs [Hrun [Hsum Hsub]]].
  set (w1 := snd (run_threads py_str decode_image encode_image input_json env 0
                    (folder_chunks (map fst input_json) NUM_THREADS) w0)) in *.
  assert (Hsum0 : requests (results_summary w1) = rs).
  { rewrite Hsum. subst w0. cbn [requests results_summary]. rewrite Hempty. reflexivity. }
  destruct (finalize_facts w1) as [Hfin [Hreq [_ Hsync]]].
  assert (Hmain : run = (Ret tt, snd (finalize w1))).
  { subst run. unfold main. cbv zeta. unfold bind at 1. unfold modify at 1.
    unfold bind at 1. fold w0. rewrite Hrun. exact Hfin. }
  clearbody w1 w0 run. subst recs. rewrite Hmain. cbn [fst snd]. rewrite Hreq, Hsum0.
  assert (Hperm : Permutation (List.concat (folder_chunks (map fst input_json) NUM_THREADS))
                    (map fst input_json)).
  { rewrite concat_folder_chunks.
    rewrite (chunk_positions_perm (List.length (map fst input_json)) NUM_THREADS)
      by (unfold NUM_THREADS; lia).
    rewrite flat_map_pick_all. reflexivity. }
  split; [reflexivity |]. split; [| split; [| split]].
  - apply (subseq_NoDup _ _ Hsub). apply (Permutation_NoDup (Permutation_sym Hperm)). exact Hkeys.
  - intros x Hx. apply (Permutation_in _ Hperm). apply (subseq_incl _ _ Hsub). exact Hx.
  - rewrite <- (length_map folder rs), <- (length_map fst input_json).
    rewrite <- (Permutation_length Hperm). apply subseq_length. exact Hsub.
  - apply synced_on_disk. exact Hsync.
Qed.

(** *** The manifest as a reader of the file finds it *)

(** [repr] on floats, which [json.dump] uses for numbers; [repr] of a
    float that is a number is a number of JSON. *)
Variable float_repr : Q -> string.
Hypothesis float_repr_number : forall q, json_number (float_repr q) = true.

(** The entries of ['requests'] and the ['average_duration'] of a
    document read from text. *)
Definition requests_read (d : jdoc) : option (list jdoc) :=
  match d with
  | DObj fields =>
      match assoc "requests" fields with
      | Some (DArr items) => Some items
      | _ => None
      end
  | _ => None
  end.

Definition average_read (d : jdoc) : option jdoc :=
  match d with
  | DObj fields => assoc "average_duration" fields
  | _ => None
  end.

(** A record and a summary as they are read from the text. *)
Definition record_read (r : result_record) : jdoc :=
  DObj [("folder", DStr (folder r)); ("status", DStr (status r));
        ("duration", DNum (float_repr (duration r))); ("note", DStr (note r));
        ("tryon_id", read_back float_repr (tryon_id r));
        ("garment_url", DStr (garment_url r)); ("human_url", DStr (human_url r));
        ("garment_id", read_back float_repr (garment_id r));
        ("human_id", read_back float_repr (human_id r))].

Definition summary_read (s : summary) : jdoc := read_back float_repr (summary_json s).

Lemma summary_read_fields (s : summary) :
  requests_read (summary_read s) = Some (map record_read (requests s))
  /\ average_read (summary_read s)
     = Some match average_duration s with
            | Some q => DNum (float_repr q)
            | None => DNull
            end.
Proof.
  unfold summary_read, summary_json. cbn [read_back map fst snd]. split.
  - unfold requests_read. cbn [assoc String.eqb Ascii.eqb Bool.eqb].
    rewrite map_map. reflexivity.
  - unfold average_read. cbn [assoc String.eqb Ascii.eqb Bool.eqb].
    destruct (average_duration s); reflexivity.
Qed.

(** The file of a world whose manifest is in step with the summary: its
    text is one JSON document, the summary as a reader finds it. *)
Lemma synced_text (w : world) :
  manifest_synced w ->
  exists text,
    manifest_text float_repr w = Some text
    /\ json_loads text = Some (summary_read (results_summary w)).
Proof.
  unfold manifest_synced, manifest_text. intros ->. eexists. split; [reflexivity |].
  apply json_loads_dump. exact float_repr_number.
Qed.

(** C6. The summary is empty when the process starts.  Every call of
    [process_folder] that returns has appended one record, that of its
    item, and has rewritten the manifest file: the text of the file is one
    JSON document (a reader of JSON accepts the whole text and finds one
    value), in which ['requests'] is the array of the records appended so
    far, in the order they were appended, each with its fields; a call
    that raises appends nothing and leaves the file as it was.  [main]
    always returns, and when it does the file has been written once more:
    the records are those the threads appended, and ['average_duration']
    is [sum(durations)/len(durations)], in floating-point arithmetic,
    over the durations of the records whose status is ['success'], in the
    order of the records, or [null] when there is none. *)
Theorem manifest_reflects_appends (folder_name : string) (thread_idx : nat) (w : world) :
  let step := process_folder py_str decode_image encode_image input_json env
                folder_name thread_idx w in
  let whole := main py_str decode_image encode_image input_json env w in
  results_summary initial_world = empty_summary
  /\ requests_read (summary_read empty_summary) = Some []
  /\ average_read (summary_read empty_summary) = Some DNull
  /\ match fst step with
     | Ret _ =>
         exists r text,
           requests (results_summary (snd step)) = (requests (results_summary w) ++ [r])%list
           /\ folder r = folder_name
           /\ manifest_text float_repr (snd step) = Some text
           /\ json_loads text = Some (summary_read (results_summary (snd step)))
           /\ requests_read (summary_read (results_summary (snd step)))
              = Some (map record_read (requests (results_summary w) ++ [r]))
           /\ manifest_on_disk (snd step) = Some (summary_json (results_summary (snd step)))
           /\ manifest_requests (summary_json (results_summary (snd step)))
              = Some (requests (results_summary w) ++ [r])%list
     | Raise _ =>
         results_summary (snd step) = results_summary w
         /\ files (snd step) results_json_path = files w results_json_path
     end
  /\ fst whole = Ret tt
  /\ (let final := results_summary (snd whole) in
      let durations := map duration (successes final) in
      exists appended text,
        requests final = (requests (results_summary w) ++ appended)%list
        /\ average_duration final
           = match durations with
             | [] => None
             | _ :: _ => Some (py_mean durations)
             end
        /\ manifest_text float_repr (snd whole) = Some text
        /\ json_loads text = Some (summary_read final)
        /\ requests_read (summary_read final) = Some (map record_read (requests final))
        /\ average_read (summary_read final)
           = Some match durations with
                  | [] => DNull
                  | _ :: _ => DNum (float_repr (py_mean durations))
                  end
        /\ manifest_on_disk (snd whole) = Some (summary_json final)).
Proof.
  intros step whole.
  split; [reflexivity |]. split; [reflexivity |]. split; [reflexivity |].
  split; [| split].
  - subst step.
    pose proof (process_folder_books py_str decode_image encode_image input_json env
                  folder_name thread_idx (books w) w eq_refl) as H.
    destruct (process_folder py_str decode_image encode_image input_json env
                folder_name thread_idx w) as [[a | e] w']; cbn [fst snd books] in *.
    + destruct H as [r [Hsum [Hfolder [Hsync _]]]].
      assert (Hreq : requests (results_summary w') = (requests (results_summary w) ++ [r])%list)
        by (rewrite Hsum; reflexivity).
      destruct (synced_text w' Hsync) as [text [Htext Hloads]].
      exists r, text. split; [exact Hreq |]. split; [exact Hfolder |].
      split; [exact Htext |]. split; [exact Hloads |].
      split; [rewrite <- Hreq; apply summary_read_fields |].
      split; [apply synced_on_disk; exact Hsync |].
      rewrite <- Hreq. apply manifest_roundtrip.
    + exact H.
  - subst whole. unfold main. cbv zeta. unfold bind at 1. unfold modify at 1.
    unfold bind at 1.
    destruct (run_threads_records (folder_chunks (map fst input_json) NUM_THREADS) 0
                (mkWorld (clock w) (files w) (results_summary w) (fun _ => mkCounters 0 0)
                   (trace w))) as [rs [Hrun _]].
    rewrite Hrun. reflexivity.
  - cbv zeta.
    set (w0 := mkWorld (clock w) (files w) (results_summary w) (fun _ => mkCounters 0 0)
                 (trace w)).
    destruct (run_threads_records (folder_chunks (map fst input_json) NUM_THREADS) 0 w0)
      as [rs [Hrun [Hsum _]]].
    set (w1 := snd (run_threads py_str decode_image encode_image input_json env 0
                      (folder_chunks (map fst input_json) NUM_THREADS) w0)) in *.
    destruct (finalize_facts w1) as [Hfin [Hreq [Havg Hsync]]].
    assert (Hmain : whole = (Ret tt, snd (finalize w1))).
    { subst whole. unfold main. cbv zeta. unfold bind at 1. unfold modify at 1.
      unfold bind at 1. fold w0. rewrite Hrun. exact Hfin. }
    rewrite Hmain. cbn [snd].
    assert (Hsucc : successes (results_summary (snd (finalize w1)))
                    = successes (results_summary w1))
      by (unfold successes; rewrite Hreq; reflexivity).
    rewrite Hsucc.
    destruct (synced_text _ Hsync) as [text [Htext Hloads]].
    exists rs, text.
    split; [rewrite Hreq, Hsum; reflexivity |].
    split; [exact Havg |].
    split; [exact Htext |]. split; [exact Hloads |].
    split; [apply summary_read_fields |].
    split; [| apply synced_on_disk; exact Hsync].
    rewrite (proj2 (summary_read_fields _)), Havg.
    destruct (map duration (successes (results_summary w1))); reflexivity.
Qed.

End WholeRun.

(** [repr] on the floats that are whole numbers of fewer than 17 digits:
    the digits of the number and [.0]. *)
Definition whole_repr (q : Q) : string :=
  str_int (Qnum q / Zpos (Qden q)) ++ ".0".

Lemma drop_digits_app (ds rest : string) :
  all_digits ds = true -> drop_digits (ds ++ rest) = drop_digits rest.
Proof.
  induction ds as [| c t IH]; [reflexivity |]. cbn. intros H.
  apply andb_prop in H as [-> Ht]. apply IH. exact Ht.
Qed.

Lemma whole_repr_number (q : Q) : json_number (whole_repr q) = true.
Proof.
  unfold whole_repr, str_int.
  assert (Hpos : forall p,
            unsigned_number (NilZero.string_of_uint (Pos.to_uint p) ++ ".0") = true).
  { intros p. pose proof (to_uint_no_leading_zero p) as Hz.
    pose proof (DecimalPos.Unsigned.to_uint_nonnil p) as Hnil.
    destruct (Pos.to_uint p) as [| u | u | u | u | u | u | u | u | u | u];
      [congruence | exfalso; exact (Hz u eq_refl) | ..];
      cbn [NilZero.string_of_uint NilEmpty.string_of_uint unsigned_number append];
      rewrite (drop_digits_app _ ".0" (string_of_uint_digits u)); reflexivity. }
  destruct (Qnum q / Zpos (Qden q))%Z as [| p | p]; [reflexivity | |].
  - cbn [Z.to_int NilZero.string_of_int].
    pose proof (Hpos p) as H.
    destruct (NilZero.string_of_uint (Pos.to_uint p) ++ ".0")%string as [| c t] eqn:E;
      [discriminate H |].
    cbn [json_number].
    destruct (Ascii.eqb c "-") eqn:Hc; [| exact H].
    apply Ascii.eqb_eq in Hc. subst c. discriminate H.
  - cbn [Z.to_int NilZero.string_of_int append json_number].
    change (Ascii.eqb "-" "-") with true. cbv iota. apply Hpos.
Qed.

(** A service that reports the job as done at the first status query,
    with the URL of the result, and a store that serves an image at every
    URL. *)
Definition finished_env (folder_name : string) : item_env :=
  mkEnv 7
    (json_reply 1 200 (JObj [("tryon_id", JStr "T-1")]))
    (fun _ => json_reply 0 200
                (JObj [("message", JStr "success"); ("status", JStr "done");
                       ("s3_url", JStr "https://results.example/T-1.jpg")]))
    (fun _ => mkOutcome 0 (inr (mkResponse 200 "" [] (inl (mkExn "JSONDecodeError" "")))))
    no_time_lost no_fault no_fault.

(** The two items of the source, both successful after 11 seconds: the
    manifest [main] leaves holds the two records and their mean. *)
Lemma manifest_reflects_appends_witness :
  let whole := main str_of_scalar one_pixel_decoder empty_encoder source_input_json
                 finished_env initial_world in
  fst whole = Ret tt
  /\ map status (requests (results_summary (snd whole))) = ["success"; "success"]
  /\ average_duration (results_summary (snd whole)) = Some (11 # 1)
  /\ exists text,
       manifest_text whole_repr (snd whole) = Some text
       /\ json_loads text = Some (summary_read whole_repr (results_summary (snd whole)))
       /\ average_read (summary_read whole_repr (results_summary (snd whole)))
          = Some (DNum "11.0").
Proof.
  intros whole.
  destruct (manifest_reflects_appends str_of_scalar one_pixel_decoder empty_encoder
              source_input_json finished_env whole_repr whole_repr_number "h40__g20" 0
              initial_world)
    as [_ [_ [_ [_ [Hret [appended [text [_ [Havg [Htext [Hloads [_ [Hread _]]]]]]]]]]]]].
  fold whole in Hret, Havg, Htext, Hloads, Hread.
  assert (Hdur : map duration (successes (results_summary (snd whole))) = [11 # 1; 11 # 1])
    by (vm_compute; reflexivity).
  rewrite Hdur in Havg, Hread.
  assert (Hmean : py_mean [11 # 1; 11 # 1] = 11 # 1) by (vm_compute; reflexivity).
  rewrite Hmean in Havg, Hread.
  split; [exact Hret |].
  split; [vm_compute; reflexivity |].
  split; [exact Havg |].
  exists text. split; [exact Htext |]. split; [exact Hloads | exact Hread].
Defined.

Lemma main_manifest_witness :
  NoDup (map fst ids_input_json)
  /\ fst (main str_of_scalar one_pixel_decoder empty_encoder ids_input_json never_done_env
            initial_world) = Ret tt
  /\ List.length
       (requests (results_summary
          (snd (main str_of_scalar one_pixel_decoder empty_encoder ids_input_json never_done_env
                  initial_world)))) <= 2.
Proof.
  assert (Hkeys : NoDup (map fst ids_input_json)).
  { cbn. repeat constructor; cbn; intuition discriminate. }
  destruct (main_manifest str_of_scalar one_pixel_decoder empty_encoder ids_input_json
              never_done_env initial_world Hkeys eq_refl) as [Hret [_ [_ [Hlen _]]]].
  split; [exact Hkeys |]. split; [exact Hret | exact Hlen].
Defined.


(** ** Saving the result of a finished job *)

Lemma try_catch_step {S A B} (c : M S A) (k : A -> M S B) (h : exn -> M S B)
    (s s1 : S) (a : A) :
  c s = (Ret a, s1) -> try_catch (bind c k) h s = try_catch (k a) h s1.
Proof. intros H. unfold try_catch, bind. rewrite H. reflexivity. Qed.

Lemma try_catch_raise {S A B} (c : M S A) (k : A -> M S B) (h : exn -> M S B)
    (s s1 : S) (e : exn) :
  c s = (Raise e, s1) -> try_catch (bind c k) h s = h e s1.
Proof. intros H. unfold try_catch, bind. rewrite H. reflexivity. Qed.

(** The GET of [url] is answered, whatever the status. *)
Definition reachable (get : string -> http_outcome) (url : string) : bool :=
  match reply (get url) with inr _ => true | inl _ => false end.

Lemma download_image_reached (get : string -> http_outcome)
    (opening : string -> option exn) (url path : string) (w : world) :
  reachable get url = true ->
  opening path = None ->
  exists v,
    download_image get opening url path w
      = (Ret v, snd (download_image get opening url path w)).
Proof.
  unfold reachable, download_image, bind. rewrite http_run. intros H ->.
  destruct (reply (get url)) as [e | r]; [discriminate |].
  destruct (status_code r =? 200)%Z; eexists; reflexivity.
Qed.

(** The world after the download of an input the item gives by URL under
    [key]; without such a URL nothing is downloaded. *)
Definition after_input (get : string -> http_outcome) (opening : string -> option exn)
    (item : list (string * string)) (key path : string) (w : world) : world :=
  match assoc key item with
  | Some u => snd (download_image get opening u path w)
  | None => w
  end.

Lemma input_downloaded (get : string -> http_outcome) (opening : string -> option exn)
    (item : list (string * string)) (key path : string) (w : world) :
  (forall u, assoc key item = Some u -> reachable get u = true) ->
  opening path = None ->
  (if has_key key item
   then u <- subscript item key ;; download_image get opening u path ;;; ret tt
   else ret tt) w
  = (Ret tt, after_input get opening item key path w).
Proof.
  intros Hreach Hopen. unfold has_key, after_input, subscript.
  destruct (assoc key item) as [u |]; [| reflexivity].
  unfold bind at 1. unfold ret at 1. unfold bind at 1.
  destruct (download_image_reached get opening u path w (Hreach u eq_refl) Hopen) as [v Hrun].
  rewrite Hrun. reflexivity.
Qed.

Lemma plain_name_relative (s : string) :
  plain_name s = true -> starts_with_slash s = false.
Proof.
  unfold plain_name. destruct s as [| c t]; [reflexivity |].
  cbn [occurs starts_with_slash]. intros H.
  destruct (Ascii.eqb c "/") eqn:Hc; [discriminate H |].
  destruct c as [[] [] [] [] [] [] [] []]; first [reflexivity | discriminate Hc].
Qed.

(** The image [Image.open] finds at [path], if there is one. *)
Definition asset (decode_image : list byte -> option image) (w : world) (path : string)
  : option image :=
  match files w path with
  | Some (FBytes b) => decode_image b
  | _ => None
  end.

Lemma image_open_run (decode_image : list byte -> option image) (path : string) (w : world) :
  match asset decode_image w path with
  | Some img => Image_open decode_image path w = (Ret img, w)
  | None => exists e, Image_open decode_image path w = (Raise e, w)
  end.
Proof.
  unfold asset, Image_open, bind, get.
  destruct (files w path) as [[b | doc] |].
  - destruct (decode_image b); [reflexivity | eexists; reflexivity].
  - eexists; reflexivity.
  - eexists; reflexivity.
Qed.

Section Saving.

Variable py_str : json -> string.
Variable decode_image : list byte -> option image.
Variable encode_image : image -> list byte.
Variable env : string -> item_env.

(** The world once [save_result] has made its downloads: the result,
    then the garment and the human when the item gives them by URL. *)
Definition downloads_done (folder_name : string) (item : list (string * string))
    (tryon_url : string) (w : world) : world :=
  let get := get_reply (env folder_name) in
  let opening := open_fault (env folder_name) in
  after_input get opening item "human_url" (out_path "human" folder_name)
    (after_input get opening item "garment_url" (out_path "garment" folder_name)
       (snd (download_image get opening tryon_url (out_path "tryon" folder_name) w))).

(** The disk does as it is asked during the call for [folder_name]:
    every directory can be made and every file opened and written. *)
Definition disk_obeys (folder_name : string) : Prop :=
  (forall p, makedirs_fault (env folder_name) p = None)
  /\ (forall p, open_fault (env folder_name) p = None).

Lemma save_result_run (folder_name : string) (thread_idx : nat)
    (item : list (string * string)) (d : list (string * json)) (tryon_url : string)
    (v : vars) (w : world) :
  let get := get_reply (env folder_name) in
  let w3 := downloads_done folder_name item tryon_url w in
  disk_obeys folder_name ->
  assoc "s3_url" d = Some (JStr tryon_url) ->
  reachable get tryon_url = true ->
  (forall u, assoc "garment_url" item = Some u -> reachable get u = true) ->
  (forall u, assoc "human_url" item = Some u -> reachable get u = true) ->
  match asset decode_image w3 (out_path "tryon" folder_name),
        asset decode_image w3 (out_path "garment" folder_name),
        asset decode_image w3 (out_path "human" folder_name) with
  | Some img1, Some img2, Some img3 =>
      save_result py_str decode_image encode_image env folder_name thread_idx item (JObj d) v w
        = (Ret (mkVars "success" "" (dict_get d "garment_id" JNull) (dict_get d "human_id" JNull)
                  (v_poll_count v)),
           snd (count_done thread_idx
                  (write_file (out_path "stacked" folder_name)
                     (FBytes (encode_image (stack_three_images img1 img2 img3))) w3)))
  | _, _, _ =>
      exists e,
        save_result py_str decode_image encode_image env folder_name thread_idx item (JObj d) v w
          = (Ret (set_outcome "fail" ("Exception during save: " ++ exn_text e) v),
             snd (count_fail thread_idx w3))
  end.
Proof.
  intros get w3 [Hdirs Hopen] Hurl Hr1 Hr2 Hr3.
  assert (Hmk : forall (p : string) (s : world),
            os_makedirs (makedirs_fault (env folder_name)) p s = (Ret tt, s)).
  { intros p s. unfold os_makedirs. rewrite Hdirs. reflexivity. }
  assert (Hstart :
    exists k,
      save_result py_str decode_image encode_image env folder_name thread_idx item (JObj d) v w
      = try_catch
          ((if true
            then img1 <- Image_open decode_image (out_path "tryon" folder_name) ;;
                 img2 <- Image_open decode_image (out_path "garment" folder_name) ;;
                 img3 <- Image_open decode_image (out_path "human" folder_name) ;;
                 stack_three_images_and_save encode_image (open_fault (env folder_name))
                   img1 img2 img3 (out_path "stacked" folder_name)
            else ret tt) ;;; k)
          (fun e =>
             count_fail thread_idx ;;;
             ret (set_outcome "fail" ("Exception during save: " ++ exn_text e) v)) w3
      /\ k = (count_done thread_idx ;;;
              garment_id <- json_get (JObj d) "garment_id" JNull ;;
              human_id <- json_get (JObj d) "human_id" JNull ;;
              ret (mkVars "success" "" garment_id human_id (v_poll_count v)))).
  { eexists. split; [| reflexivity].
    unfold save_result. fold (out_path "tryon" folder_name).
    fold (out_path "garment" folder_name). fold (out_path "human" folder_name).
    fold (out_path "stacked" folder_name). cbv zeta.
    erewrite try_catch_step
      by (cbn [json_subscript]; unfold subscript; rewrite Hurl; reflexivity).
    erewrite try_catch_step by apply Hmk.
    cbn [download_json_url].
    destruct (download_image_reached get (open_fault (env folder_name)) tryon_url
                (out_path "tryon" folder_name) w Hr1 (Hopen _)) as [v1 Hd1].
    erewrite try_catch_step by exact Hd1.
    erewrite try_catch_step by apply Hmk.
    erewrite try_catch_step by apply Hmk.
    erewrite try_catch_step by (apply input_downloaded; [exact Hr2 | apply Hopen]).
    erewrite try_catch_step by apply Hmk.
    erewrite try_catch_step by (apply input_downloaded; [exact Hr3 | apply Hopen]).
    reflexivity. }
  destruct Hstart as [k [Hstart Hk]]. rewrite Hstart. clear Hstart.
  fold w3. clearbody w3.
  pose proof (image_open_run decode_image (out_path "tryon" folder_name) w3) as H1.
  pose proof (image_open_run decode_image (out_path "garment" folder_name) w3) as H2.
  pose proof (image_open_run decode_image (out_path "human" folder_name) w3) as H3.
  destruct (asset decode_image w3 (out_path "tryon" folder_name)) as [img1 |].
  2:{ destruct H1 as [e H1]. exists e.
      erewrite try_catch_raise; [reflexivity |]. unfold bind. rewrite H1. reflexivity. }
  destruct (asset decode_image w3 (out_path "garment" folder_name)) as [img2 |].
  2:{ destruct H2 as [e H2]. exists e.
      erewrite try_catch_raise; [reflexivity |]. unfold bind. rewrite H1, H2. reflexivity. }
  destruct (asset decode_image w3 (out_path "human" folder_name)) as [img3 |].
  2:{ destruct H3 as [e H3]. exists e.
      erewrite try_catch_raise; [reflexivity |]. unfold bind. rewrite H1, H2, H3. reflexivity. }
  erewrite try_catch_step
    by (unfold bind; rewrite H1, H2, H3; unfold stack_three_images_and_save, modify;
        rewrite Hopen; reflexivity).
  subst k. reflexivity.
Qed.

(** X11. What becomes of a job that reports ['done'] with a result URL,
    when every GET is answered, for a key that is a plain file name (no
    slash, so that the four out paths name four files of four
    directories) and a disk that does as it is asked (every directory can
    be made, every file opened and written).  [save_result] looks at the
    disk as it is
    after its downloads, not at what the downloads returned: the item is
    a ['success'] exactly when the result, garment and human files are all
    three there and are images.  Then the composite of the three is saved
    as the stacked file, one more item is counted as done and the
    identifiers are those of the status document.  Otherwise the item is a
    ['fail'] whose note starts with [Exception during save: ], one more
    failure is counted and no stacked file is written.  In both cases
    [save_result] returns. *)
Theorem save_result_by_assets (folder_name : string) (thread_idx : nat)
    (item : list (string * string)) (d : list (string * json)) (tryon_url : string)
    (v : vars) (w : world) :
  let get := get_reply (env folder_name) in
  let w3 := downloads_done folder_name item tryon_url w in
  let run := save_result py_str decode_image encode_image env folder_name thread_idx item
               (JObj d) v w in
  plain_name folder_name = true ->
  disk_obeys folder_name ->
  assoc "s3_url" d = Some (JStr tryon_url) ->
  reachable get tryon_url = true ->
  (forall u, assoc "garment_url" item = Some u -> reachable get u = true) ->
  (forall u, assoc "human_url" item = Some u -> reachable get u = true) ->
  exists v',
    fst run = Ret v'
    /\ match asset decode_image w3 (out_path "tryon" folder_name),
             asset decode_image w3 (out_path "garment" folder_name),
             asset decode_image w3 (out_path "human" folder_name) with
       | Some img1, Some img2, Some img3 =>
           v_status v' = "success" /\ v_note v' = ""
           /\ v_garment_id v' = dict_get d "garment_id" JNull
           /\ v_human_id v' = dict_get d "human_id" JNull
           /\ files (snd run) (out_path "stacked" folder_name)
              = Some (FBytes (encode_image (stack_three_images img1 img2 img3)))
           /\ results (snd run) thread_idx
              = mkCounters (n_done (results w3 thread_idx) + 1) (n_fail (results w3 thread_idx))
       | _, _, _ =>
           v_status v' = "fail"
           /\ (exists e, v_note v' = "Exception during save: " ++ exn_text e)
           /\ files (snd run) = files w3
           /\ results (snd run) thread_idx
              = mkCounters (n_done (results w3 thread_idx)) (n_fail (results w3 thread_idx) + 1)
       end.
Proof.
  intros get w3 run _ Hdisk Hurl Hr1 Hr2 Hr3.
  pose proof (save_result_run folder_name thread_idx item d tryon_url v w Hdisk Hurl Hr1 Hr2 Hr3)
    as H. cbv zeta in H. fold w3 in H. fold run in H. clearbody w3 run.
  assert (Hfail : forall e,
            run = (Ret (set_outcome "fail" ("Exception during save: " ++ exn_text e) v),
                   snd (count_fail thread_idx w3)) ->
            exists v', fst run = Ret v'
              /\ v_status v' = "fail"
              /\ (exists e, v_note v' = "Exception during save: " ++ exn_text e)
              /\ files (snd run) = files w3
              /\ results (snd run) thread_idx
                 = mkCounters (n_done (results w3 thread_idx))
                              (n_fail (results w3 thread_idx) + 1)).
  { intros e ->. eexists. split; [reflexivity |]. split; [reflexivity |].
    split; [exists e; reflexivity |]. split; [reflexivity |].
    cbn. rewrite Nat.eqb_refl. reflexivity. }
  destruct (asset decode_image w3 (out_path "tryon" folder_name)) as [img1 |];
    [| destruct H as [e H]; exact (Hfail e H)].
  destruct (asset decode_image w3 (out_path "garment" folder_name)) as [img2 |];
    [| destruct H as [e H]; exact (Hfail e H)].
  destruct (asset decode_image w3 (out_path "human" folder_name)) as [img3 |];
    [| destruct H as [e H]; exact (Hfail e H)].
  rewrite H. eexists. split; [reflexivity |]. cbn [fst snd v_status v_note v_garment_id v_human_id].
  repeat (split; [reflexivity |]).
  split.
  - cbn. rewrite String.eqb_refl. reflexivity.
  - cbn. rewrite Nat.eqb_refl. reflexivity.
Qed.

Lemma download_image_world (get : string -> http_outcome) (opening : string -> option exn)
    (url path : string) (w : world) (r : response) :
  reply (get url) = inr r ->
  opening path = None ->
  files (snd (download_image get opening url path w))
    = if (status_code r =? 200)%Z
      then fun p => if String.eqb p path then Some (FBytes (content r)) else files w p
      else files w.
Proof.
  intros Hr Hopen. unfold download_image, bind. rewrite http_run, Hr, Hopen.
  destruct (status_code r =? 200)%Z; reflexivity.
Qed.

Lemma out_path_kinds_differ (kind kind' folder_name : string) :
  In kind kinds -> In kind' kinds -> kind <> kind' ->
  starts_with_slash folder_name = false ->
  String.eqb (out_path kind folder_name) (out_path kind' folder_name) = false.
Proof.
  intros Hk Hk' Hne Hrel. rewrite !out_path_relative by assumption.
  destruct Hk as [<- | [<- | [<- | [<- | []]]]];
    destruct Hk' as [<- | [<- | [<- | [<- | []]]]];
    first [congruence | reflexivity].
Qed.

(** X12. A result download that fails is not noticed.  For a key that is
    a plain file name (no slash, so that the four out paths name four
    files) and a disk that does as it is asked: when the GET of the
    result is answered with
    a status other than 200, and a file of an earlier run is still at the
    place of the result, and the garment and the human download as
    images, the item is a ['success'] and its stacked image is built with
    the old result. *)
Theorem stale_result_is_used (folder_name : string) (thread_idx : nat)
    (item : list (string * string)) (d : list (string * json))
    (tryon_url garment_url human_url : string) (r1 r2 r3 : response)
    (old img2 img3 : image) (v : vars) (w : world) :
  let get := get_reply (env folder_name) in
  plain_name folder_name = true ->
  disk_obeys folder_name ->
  assoc "s3_url" d = Some (JStr tryon_url) ->
  reply (get tryon_url) = inr r1 -> status_code r1 <> 200%Z ->
  asset decode_image w (out_path "tryon" folder_name) = Some old ->
  assoc "garment_url" item = Some garment_url ->
  reply (get garment_url) = inr r2 -> status_code r2 = 200%Z ->
  decode_image (content r2) = Some img2 ->
  assoc "human_url" item = Some human_url ->
  reply (get human_url) = inr r3 -> status_code r3 = 200%Z ->
  decode_image (content r3) = Some img3 ->
  exists v' w',
    save_result py_str decode_image encode_image env folder_name thread_idx item (JObj d) v w
      = (Ret v', w')
    /\ v_status v' = "success"
    /\ files w' (out_path "stacked" folder_name)
       = Some (FBytes (encode_image (stack_three_images old img2 img3))).
Proof.
  intros get Hplain Hdisk Hurl Hr1 Hc1 Hold Hg Hr2 Hc2 Hd2 Hh Hr3 Hc3 Hd3.
  pose proof (plain_name_relative folder_name Hplain) as Hrel.
  assert (Hreach : forall u r, reply (get u) = inr r -> reachable get u = true)
    by (intros u r H; unfold reachable; rewrite H; reflexivity).
  pose proof (save_result_run folder_name thread_idx item d tryon_url v w Hdisk Hurl
                (Hreach _ _ Hr1)) as H. cbv zeta in H.
  destruct Hdisk as [_ Hopen].
  assert (Hfiles : files (downloads_done folder_name item tryon_url w)
                   = fun p => if String.eqb p (out_path "human" folder_name)
                              then Some (FBytes (content r3))
                              else if String.eqb p (out_path "garment" folder_name)
                                   then Some (FBytes (content r2))
                                   else files w p).
  { unfold downloads_done, after_input. rewrite Hg, Hh. fold get.
    rewrite (download_image_world get _ human_url _ _ r3 Hr3 (Hopen _)).
    apply Z.eqb_eq in Hc3. rewrite Hc3.
    rewrite (download_image_world get _ garment_url _ _ r2 Hr2 (Hopen _)).
    apply Z.eqb_eq in Hc2. rewrite Hc2.
    rewrite (download_image_world get _ tryon_url _ _ r1 Hr1 (Hopen _)).
    apply Z.eqb_neq in Hc1. rewrite Hc1. reflexivity. }
  assert (Ha1 : asset decode_image (downloads_done folder_name item tryon_url w)
                  (out_path "tryon" folder_name) = Some old).
  { unfold asset in *. rewrite Hfiles.
    rewrite (out_path_kinds_differ "tryon" "human") by (cbn; intuition discriminate).
    rewrite (out_path_kinds_differ "tryon" "garment") by (cbn; intuition discriminate).
    exact Hold. }
  assert (Ha2 : asset decode_image (downloads_done folder_name item tryon_url w)
                  (out_path "garment" folder_name) = Some img2).
  { unfold asset. rewrite Hfiles.
    rewrite (out_path_kinds_differ "garment" "human") by (cbn; intuition discriminate).
    rewrite String.eqb_refl. exact Hd2. }
  assert (Ha3 : asset decode_image (downloads_done folder_name item tryon_url w)
                  (out_path "human" folder_name) = Some img3).
  { unfold asset. rewrite Hfiles, String.eqb_refl. exact Hd3. }
  rewrite Ha1, Ha2, Ha3 in H.
  rewrite H.
  - eexists. eexists. split; [reflexivity |]. split; [reflexivity |].
    cbn. rewrite String.eqb_refl. reflexivity.
  - intros u Hu. rewrite Hg in Hu. injection Hu as <-. exact (Hreach _ _ Hr2).
  - intros u Hu. rewrite Hh in Hu. injection Hu as <-. exact (Hreach _ _ Hr3).
Qed.

End Saving.

(** A store that serves an image at every URL but [missing], where it
    answers 404. *)
Definition image_store_env (missing : string) (folder_name : string) : item_env :=
  mkEnv 7
    (json_reply 1 200 (JObj [("tryon_id", JStr "T-1")]))
    (fun _ => status_reply "success" "done")
    (fun u => if String.eqb u missing
              then plain_reply 0 404 "Not Found"
              else mkOutcome 0 (inr (mkResponse 200 "" [] (inl (mkExn "JSONDecodeError" "")))))
    no_time_lost no_fault no_fault.

Definition done_document : list (string * json) :=
  [("message", JStr "success"); ("status", JStr "done");
   ("s3_url", JStr "https://results.example/T-1.jpg")].

(** A disk on which an earlier run left a result for [h40__g20]. *)
Definition used_world : world :=
  write_file (out_path "tryon" "h40__g20") (FBytes []) initial_world.

Lemma save_result_by_assets_witness :
  exists v',
    fst (save_result str_of_scalar one_pixel_decoder empty_encoder (image_store_env "")
           "h40__g20" 0 h40_item (JObj done_document) (mkVars "" "" JNull JNull 1)
           initial_world) = Ret v'
    /\ v_status v' = "success".
Proof.
  destruct (save_result_by_assets str_of_scalar one_pixel_decoder empty_encoder
              (image_store_env "") "h40__g20" 0 h40_item done_document
              "https://results.example/T-1.jpg" (mkVars "" "" JNull JNull 1) initial_world)
    as [v' [Hrun Hv]].
  - reflexivity.
  - split; reflexivity.
  - reflexivity.
  - reflexivity.
  - intros u Hu. injection Hu as <-. reflexivity.
  - intros u Hu. injection Hu as <-. reflexivity.
  - exists v'. split; [exact Hrun |]. exact (proj1 Hv).
Defined.

Lemma stale_result_is_used_witness :
  exists v' w',
    save_result str_of_scalar one_pixel_decoder empty_encoder
      (image_store_env "https://results.example/T-1.jpg")
      "h40__g20" 0 h40_item (JObj done_document) (mkVars "" "" JNull JNull 1) used_world
      = (Ret v', w')
    /\ v_status v' = "success"
    /\ files w' (out_path "stacked" "h40__g20")
       = Some (FBytes (empty_encoder
                 (stack_three_images (mkImage 1 1 (fun _ _ => (0, 0, 0)))
                    (mkImage 1 1 (fun _ _ => (0, 0, 0)))
                    (mkImage 1 1 (fun _ _ => (0, 0, 0)))))).
Proof.
  eapply (stale_result_is_used str_of_scalar one_pixel_decoder empty_encoder
            (image_store_env "https://results.example/T-1.jpg")
            "h40__g20" 0 h40_item done_document).
  - reflexivity.
  - split; reflexivity.
  - reflexivity.
  - reflexivity.
  - cbn. discriminate.
  - reflexivity.
  - reflexivity.
  - reflexivity.
  - reflexivity.
  - reflexivity.
  - reflexivity.
  - reflexivity.
  - reflexivity.
  - reflexivity.
Defined.

(** ** The DALL-E runner: the files and the requests of [gen_one] *)

Lemma d_http_world (ev : dalle_event) (o : http_outcome) (w : dalle_world) :
  snd (d_http ev o w) = d_log ev w.
Proof. unfold d_http, bind, modify. destruct (reply o); reflexivity. Qed.

Lemma d_http_run (ev : dalle_event) (o : http_outcome) (w : dalle_world) :
  d_http ev o w
    = (match reply o with inl e => Raise e | inr r => Ret r end, d_log ev w).
Proof. unfold d_http, bind, modify. destruct (reply o); reflexivity. Qed.

Lemma raise_for_status_run {S} (r : response) (s : S) :
  @raise_for_status S r s
    = (if response_ok (status_code r) then Ret tt
       else Raise (mkExnWith "HTTPError"
                     (str_int (status_code r)
                      ++ (if (status_code r <? 500)%Z then " Client Error" else " Server Error"))
                     (Some (status_code r))), s).
Proof.
  unfold raise_for_status, response_ok.
  destruct ((400 <=? status_code r)%Z && (status_code r <? 600)%Z); reflexivity.
Qed.

Section GenOne.

Variable OUT : string.
Variable generate_reply : nat -> http_outcome.
Variable image_reply : string -> http_outcome.

Lemma d_store_run (path : string) (b : list byte) (w : dalle_world) :
  d_store path b w
    = match d_denied w path with
      | Some e => (Raise e, w)
      | None => (Ret tt, d_write path b w)
      end.
Proof. unfold d_store, bind, get, ret. destruct (d_denied w path); reflexivity. Qed.

(** The part of the [try] block of [gen_one] that follows the generation
    request, in a form that shows its three ways out: an exception with
    the disk untouched and one event logged, an exception after the GET
    (the file could not be opened, for one), or the image written. *)
Lemma gen_one_once_cases (item : list (string * string)) (w : dalle_world) :
  let run := gen_one_once OUT generate_reply image_reply item w in
  match assoc "filename" item with
  | None => run = (Raise (mkExn "KeyError" "'filename'"), w)
  | Some fname =>
      let p := path_join OUT [fname ++ ".png"] in
      if already_generated w p then run = (Ret (Some (fname, Some p)), w)
      else
        match assoc "prompt" item with
        | None => run = (Ret (Some (fname, None)), w)
        | Some prompt =>
            let w1 := d_log (DGenerate (PREFIX ++ prompt)) w in
            run = (Ret (Some (fname, None)), w1)
            \/ exists url,
                 run = (Ret (Some (fname, None)), d_log (DGet url) w1)
                 \/ exists img,
                      reply (image_reply url) = inr img
                      /\ response_ok (status_code img) = true
                      /\ d_denied w p = None
                      /\ run = (Ret (Some (fname, Some p)),
                                d_write p (content img) (d_log (DGet url) w1))
        end
  end.
Proof.
  cbv zeta.
  remember (gen_one_once OUT generate_reply image_reply item w) as run eqn:Hrun.
  unfold gen_one_once, subscript in Hrun.
  destruct (assoc "filename" item) as [fname |]; [| exact Hrun].
  unfold bind at 1 in Hrun. unfold ret at 1 in Hrun. unfold bind at 1 in Hrun.
  unfold get at 1 in Hrun.
  destruct (already_generated w _); [exact Hrun |].
  destruct (assoc "prompt" item) as [prompt |]; [| exact Hrun].
  unfold try_catch in Hrun. unfold bind at 1 in Hrun. unfold ret at 1 in Hrun.
  unfold bind at 1 in Hrun. rewrite d_http_run in Hrun.
  remember (d_log (DGenerate (PREFIX ++ prompt)) w) as w1 eqn:Hw1.
  destruct (reply (generate_reply _)) as [e | r]; [left; exact Hrun |].
  unfold bind at 1 in Hrun. rewrite raise_for_status_run in Hrun.
  destruct (response_ok (status_code r)); [| left; exact Hrun].
  unfold bind at 1 in Hrun. unfold response_json in Hrun.
  destruct (body r) as [e | j]; [left; exact Hrun |].
  unfold ret at 1 in Hrun. unfold bind at 1 in Hrun.
  pose proof (keeps_json_subscript (fun s : dalle_world => s) j "data" w1) as K1.
  destruct (json_subscript j "data" w1) as [[data | e] s1]; cbn [snd] in K1; subst s1;
    [| left; exact Hrun].
  unfold bind at 1 in Hrun.
  pose proof (keeps_json_first (fun s : dalle_world => s) data w1) as K2.
  destruct (json_first data w1) as [[first | e] s1]; cbn [snd] in K2; subst s1;
    [| left; exact Hrun].
  unfold bind at 1 in Hrun.
  pose proof (keeps_json_subscript (fun s : dalle_world => s) first "url" w1) as K3.
  destruct (json_subscript first "url" w1) as [[u | e] s1]; cbn [snd] in K3; subst s1;
    [| left; exact Hrun].
  destruct u as [| b | z | q | url | items | fields]; try (left; exact Hrun).
  right. exists url.
  unfold bind at 1 in Hrun. rewrite d_http_run in Hrun.
  destruct (reply (image_reply url)) as [e | img] eqn:Himg; [left; exact Hrun |].
  unfold bind at 1 in Hrun. rewrite raise_for_status_run in Hrun.
  destruct (response_ok (status_code img)) eqn:Hok; [| left; exact Hrun].
  unfold bind at 1 in Hrun. rewrite d_store_run in Hrun.
  assert (Hden : d_denied (d_log (DGet url) w1) (path_join OUT [(fname ++ ".png")%string])
                 = d_denied w (path_join OUT [(fname ++ ".png")%string]))
    by (rewrite Hw1; reflexivity).
  rewrite Hden in Hrun.
  destruct (d_denied w (path_join OUT [(fname ++ ".png")%string])) eqn:Hopen;
    [left; exact Hrun |].
  right. exists img. split; [reflexivity |]. split; [exact Hok |]. split; [reflexivity |].
  exact Hrun.
Qed.

Lemma already_generated_exists (w : dalle_world) (p : string) :
  already_generated w p = true -> d_files w p <> None.
Proof. unfold already_generated. destruct (d_files w p); [discriminate | discriminate]. Qed.

Lemma d_write_there (p : string) (b : list byte) (w : dalle_world) :
  d_files (d_write p b w) p = Some b.
Proof. cbn. rewrite String.eqb_refl. reflexivity. Qed.

Lemma d_write_elsewhere (p q : string) (b : list byte) (w : dalle_world) :
  q <> p -> d_files (d_write p b w) q = d_files w q.
Proof. intros H. cbn. apply String.eqb_neq in H. rewrite H. reflexivity. Qed.

(** X13. What [gen_one] returns and what it leaves on the disk, whatever
    the replies and whether or not the disk takes the file, for a
    directory [OUT] given by its [pathlib] text and an item whose
    ['filename'], if it has one, is a plain name (no slash: the path
    [pathlib] builds is then [OUT], a slash, the name and [.png], with
    nothing to normalise).  It raises only [KeyError] for an item without
    ['filename'], and then nothing has happened.  A returned path is the
    [.png] of the item under [OUT], a file is there, and no other file has
    changed.  When [None] is returned in place of the path, no file has
    changed at all. *)
Theorem gen_one_files (fuel : nat) (item : list (string * string)) (idx total : nat)
    (w : dalle_world) :
  let run := gen_one OUT generate_reply image_reply (S fuel) item idx total w in
  pathlib_text OUT = true ->
  (forall fname, assoc "filename" item = Some fname -> plain_name fname = true) ->
  match fst run with
  | Ret (Some (fname, Some p)) =>
      assoc "filename" item = Some fname
      /\ p = path_join OUT [fname ++ ".png"]
      /\ d_files (snd run) p <> None
      /\ forall q, q <> p -> d_files (snd run) q = d_files w q
  | Ret (Some (fname, None)) =>
      assoc "filename" item = Some fname /\ d_files (snd run) = d_files w
  | Ret None => False
  | Raise e =>
      assoc "filename" item = None /\ e = mkExn "KeyError" "'filename'" /\ snd run = w
  end.
Proof.
  cbv zeta. intros _ _. rewrite gen_one_is_once.
  pose proof (gen_one_once_cases item w) as H. cbv zeta in H.
  destruct (assoc "filename" item) as [fname |]; [| rewrite H; repeat split].
  destruct (already_generated w _) eqn:Ha.
  { rewrite H. cbn [fst snd]. repeat split.
    exact (already_generated_exists _ _ Ha). }
  destruct (assoc "prompt" item) as [prompt |]; [| rewrite H; repeat split].
  destruct H as [H | [url [H | [img [_ [_ [_ H]]]]]]]; rewrite H; cbn [fst snd].
  - split; reflexivity.
  - split; reflexivity.
  - split; [reflexivity |]. split; [reflexivity |]. split.
    + rewrite d_write_there. discriminate.
    + intros q Hq. rewrite d_write_elsewhere by exact Hq. reflexivity.
Qed.

(** X14. What a call of [gen_one] asks of the network.  With a file of
    more than 10000 bytes in place, or without a ['prompt'], nothing is
    requested and the world is as before.  Otherwise the image is
    requested once, with [PREFIX] before the prompt of the item, and at
    most one download follows: never a second generation. *)
Theorem gen_one_requests (fuel : nat) (item : list (string * string)) (idx total : nat)
    (w : dalle_world) :
  let run := gen_one OUT generate_reply image_reply (S fuel) item idx total w in
  match assoc "filename" item with
  | None => snd run = w
  | Some fname =>
      if already_generated w (path_join OUT [fname ++ ".png"])
         || negb (has_key "prompt" item)
      then snd run = w
      else exists prompt rest,
             assoc "prompt" item = Some prompt
             /\ d_trace (snd run) = (d_trace w ++ DGenerate (PREFIX ++ prompt) :: rest)%list
             /\ (rest = [] \/ exists url, rest = [DGet url])
  end.
Proof.
  cbv zeta. rewrite gen_one_is_once.
  pose proof (gen_one_once_cases item w) as H. cbv zeta in H. unfold has_key.
  destruct (assoc "filename" item) as [fname |]; [| rewrite H; reflexivity].
  destruct (already_generated w _); [rewrite H; reflexivity |].
  destruct (assoc "prompt" item) as [prompt |]; [| rewrite H; reflexivity].
  cbn [orb negb]. exists prompt.
  destruct H as [H | [url [H | [img [_ [_ [_ H]]]]]]]; rewrite H; cbn [snd].
  - exists []. split; [reflexivity |]. split; [reflexivity |]. left. reflexivity.
  - exists [DGet url]. split; [reflexivity |]. split.
    + cbn. rewrite <- app_assoc. reflexivity.
    + right. exists url. reflexivity.
  - exists [DGet url]. split; [reflexivity |]. split.
    + cbn. rewrite <- app_assoc. reflexivity.
    + right. exists url. reflexivity.
Qed.

(** X15. Calling [gen_one] again for an item it returned a path for.
    When the file it left has more than 10000 bytes, the second call
    returns the same pair and does nothing.  When the file is smaller,
    the second call requests the image again. *)
Theorem gen_one_again (fuel fuel' : nat) (item : list (string * string))
    (idx total idx' total' : nat) (w : dalle_world) (fname p : string) :
  let run := gen_one OUT generate_reply image_reply (S fuel) item idx total w in
  let again := gen_one OUT generate_reply image_reply (S fuel') item idx' total' (snd run) in
  fst run = Ret (Some (fname, Some p)) ->
  if already_generated (snd run) p
  then again = (Ret (Some (fname, Some p)), snd run)
  else exists prompt rest,
         assoc "prompt" item = Some prompt
         /\ d_trace (snd again)
            = (d_trace (snd run) ++ DGenerate (PREFIX ++ prompt) :: rest)%list.
Proof.
  cbv zeta. rewrite !gen_one_is_once.
  remember (gen_one_once OUT generate_reply image_reply item w) as run eqn:Hrun.
  intros Hret.
  pose proof (gen_one_once_cases item w) as H. cbv zeta in H. rewrite <- Hrun in H.
  pose proof (gen_one_once_cases item (snd run)) as H'. cbv zeta in H'.
  destruct (assoc "filename" item) as [fname0 |];
    [| rewrite H in Hret; discriminate Hret].
  assert (Hp : fname0 = fname /\ p = path_join OUT [fname0 ++ ".png"]
               /\ (already_generated (snd run) p = false -> assoc "prompt" item <> None)).
  { destruct (already_generated w _) eqn:Ha.
    - rewrite H in Hret. cbn [fst] in Hret. injection Hret as <- <-.
      split; [reflexivity |]. split; [reflexivity |].
      intros Hx. rewrite H in Hx.
      change (already_generated w (path_join OUT [fname0 ++ ".png"]) = false) in Hx.
      rewrite Ha in Hx. discriminate Hx.
    - destruct (assoc "prompt" item) as [prompt |];
        [| rewrite H in Hret; discriminate Hret].
      split; [| split; [| discriminate]];
        destruct H as [H | [url [H | [img [_ [_ [_ H]]]]]]]; rewrite H in Hret;
        cbn [fst] in Hret; try discriminate Hret; injection Hret as <- <-; reflexivity. }
  destruct Hp as [<- [-> Hpr]].
  destruct (already_generated (snd run) _); [exact H' |].
  specialize (Hpr eq_refl).
  destruct (assoc "prompt" item) as [prompt |]; [| contradiction].
  exists prompt.
  destruct H' as [H' | [url [H' | [img [_ [_ [_ H']]]]]]]; rewrite H'; cbn [snd].
  - exists []. split; reflexivity.
  - exists [DGet url]. split; [reflexivity |]. cbn. rewrite <- app_assoc. reflexivity.
  - exists [DGet url]. split; [reflexivity |]. cbn. rewrite <- app_assoc. reflexivity.
Qed.

(** X16. The way through [gen_one] that stores an image.  For a
    directory [OUT] given by its [pathlib] text and an item with a plain
    name (no slash) and a prompt and no file of more than 10000 bytes in
    place: when the generation request is answered without an error
    status by a document whose [data[0].url] is a string, and the GET of
    that URL is answered without an error status, then, if the disk takes
    the file, the bytes served are the file, the path is returned, and the
    two requests are all that happened; if the file cannot be opened,
    [(fname, None)] is returned after the two requests and nothing is
    written. *)
Theorem gen_one_stores_served_image (fuel : nat) (item : list (string * string))
    (idx total : nat) (w : dalle_world) (fname prompt url : string) (r img : response)
    (doc entry : list (string * json)) (more : list json) :
  let p := path_join OUT [fname ++ ".png"] in
  let w2 := d_log (DGet url) (d_log (DGenerate (PREFIX ++ prompt)) w) in
  pathlib_text OUT = true ->
  plain_name fname = true ->
  assoc "filename" item = Some fname ->
  assoc "prompt" item = Some prompt ->
  already_generated w p = false ->
  reply (generate_reply (List.length (filter is_generate (d_trace w)))) = inr r ->
  response_ok (status_code r) = true ->
  body r = inr (JObj doc) ->
  assoc "data" doc = Some (JArr (JObj entry :: more)) ->
  assoc "url" entry = Some (JStr url) ->
  reply (image_reply url) = inr img ->
  response_ok (status_code img) = true ->
  gen_one OUT generate_reply image_reply (S fuel) item idx total w
    = match d_denied w p with
      | None => (Ret (Some (fname, Some p)), d_write p (content img) w2)
      | Some e => (Ret (Some (fname, None)), w2)
      end.
Proof.
  intros p w2 _ _ Hf Hpr Ha Hr Hok Hb Hd Hu Hi Hok'. rewrite gen_one_is_once.
  unfold gen_one_once, subscript. rewrite Hf.
  unfold bind at 1. unfold ret at 1. unfold bind at 1. unfold get at 1.
  fold p. rewrite Ha, Hpr.
  unfold try_catch. unfold bind at 1. unfold ret at 1.
  unfold bind at 1. rewrite d_http_run, Hr.
  unfold bind at 1. rewrite raise_for_status_run, Hok.
  unfold bind at 1. unfold response_json. rewrite Hb.
  unfold ret at 1. unfold bind at 1. unfold json_subscript at 1, subscript. rewrite Hd.
  unfold ret at 1. unfold bind at 1. unfold json_first. unfold ret at 1.
  unfold bind at 1. unfold json_subscript, subscript. rewrite Hu. unfold ret at 1.
  unfold bind at 1. rewrite d_http_run, Hi.
  unfold bind at 1. rewrite raise_for_status_run, Hok'.
  unfold bind at 1. rewrite d_store_run. fold w2.
  change (d_denied w2 p) with (d_denied w p).
  destruct (d_denied w p); reflexivity.
Qed.

End GenOne.

(** An image service that answers every generation request with the URL
    of an image, and serves [served] at that URL. *)
Definition image_service (k : nat) : http_outcome :=
  json_reply 0 200
    (JObj [("created", JInt 1700000000);
           ("data", JArr [JObj [("url", JStr "https://images.example/brand_001.png")]])]).

Definition image_host (served : list byte) (url : string) : http_outcome :=
  mkOutcome 0 (inr (mkResponse 200 "" served
                      (inl (mkExn "JSONDecodeError" "Expecting value: line 1 column 1 (char 0)")))).

Lemma gen_one_again_witness :
  exists prompt rest,
    assoc "prompt" brand_item = Some prompt
    /\ d_trace
         (snd (gen_one "generated_brand_products" image_service (image_host ["137"%byte]) 1
                 brand_item 1 1
                 (snd (gen_one "generated_brand_products" image_service
                         (image_host ["137"%byte]) 1 brand_item 1 1 empty_disk))))
       = (d_trace (snd (gen_one "generated_brand_products" image_service
                          (image_host ["137"%byte]) 1 brand_item 1 1 empty_disk))
          ++ DGenerate (PREFIX ++ prompt) :: rest)%list.
Proof.
  exact (gen_one_again "generated_brand_products" image_service (image_host ["137"%byte]) 0 0
           brand_item 1 1 1 1 empty_disk "brand_001" "generated_brand_products/brand_001.png"
           eq_refl).
Defined.

(** A disk on which the directory [OUT] is gone. *)
Definition no_directory : dalle_world :=
  mkDalleWorld (fun _ => None) []
    (fun p => Some (mkExn "FileNotFoundError"
                      ("[Errno 2] No such file or directory: '" ++ p ++ "'"))).

Lemma gen_one_files_witness :
  fst (gen_one "generated_brand_products" image_service (image_host ["137"%byte]) 1
         brand_item 1 1 empty_disk)
    = Ret (Some ("brand_001", Some "generated_brand_products/brand_001.png"))
  /\ d_files (snd (gen_one "generated_brand_products" image_service (image_host ["137"%byte]) 1
                     brand_item 1 1 empty_disk))
       "generated_brand_products/brand_001.png" <> None
  /\ fst (gen_one "generated_brand_products" image_service (image_host ["137"%byte]) 1
            brand_item 1 1 no_directory)
     = Ret (Some ("brand_001", None))
  /\ d_files (snd (gen_one "generated_brand_products" image_service (image_host ["137"%byte]) 1
                     brand_item 1 1 no_directory))
     = d_files no_directory.
Proof.
  assert (Hname : forall fname, assoc "filename" brand_item = Some fname ->
                                plain_name fname = true).
  { intros fname H. injection H as <-. reflexivity. }
  pose proof (gen_one_files "generated_brand_products" image_service (image_host ["137"%byte])
                0 brand_item 1 1 empty_disk eq_refl Hname) as H1.
  pose proof (gen_one_files "generated_brand_products" image_service (image_host ["137"%byte])
                0 brand_item 1 1 no_directory eq_refl Hname) as H2.
  cbv zeta in H1, H2.
  remember (gen_one "generated_brand_products" image_service (image_host ["137"%byte]) 1
              brand_item 1 1 empty_disk) as run1 eqn:E1.
  remember (gen_one "generated_brand_products" image_service (image_host ["137"%byte]) 1
              brand_item 1 1 no_directory) as run2 eqn:E2.
  assert (F1 : fst run1
               = Ret (Some ("brand_001", Some "generated_brand_products/brand_001.png")))
    by (rewrite E1; vm_compute; reflexivity).
  assert (F2 : fst run2 = Ret (Some ("brand_001", None)))
    by (rewrite E2; vm_compute; reflexivity).
  rewrite F1 in H1. rewrite F2 in H2.
  split; [exact F1 |]. split; [exact (proj1 (proj2 (proj2 H1))) |].
  split; [exact F2 | exact (proj2 H2)].
Defined.

Lemma gen_one_stores_served_image_witness :
  gen_one "generated_brand_products" image_service (image_host ["137"%byte]) 1
    brand_item 1 1 empty_disk
  = (Ret (Some ("brand_001", Some "generated_brand_products/brand_001.png")),
     d_write "generated_brand_products/brand_001.png" ["137"%byte]
       (d_log (DGet "https://images.example/brand_001.png")
          (d_log (DGenerate (PREFIX ++ "red cotton kurta")) empty_disk))).
Proof.
  apply (gen_one_stores_served_image "generated_brand_products" image_service
           (image_host ["137"%byte]) 0 brand_item 1 1 empty_disk "brand_001"
           "red cotton kurta" "https://images.example/brand_001.png"
           (mkResponse 200 ""
              []
              (inr (JObj [("created", JInt 1700000000);
                          ("data", JArr [JObj [("url",
                             JStr "https://images.example/brand_001.png")]])])))
           (mkResponse 200 "" ["137"%byte]
              (inl (mkExn "JSONDecodeError" "Expecting value: line 1 column 1 (char 0)")))
           [("created", JInt 1700000000);
            ("data", JArr [JObj [("url", JStr "https://images.example/brand_001.png")]])]
           [("url", JStr "https://images.example/brand_001.png")] []);
    reflexivity.
Defined.

(** ** The banner scripts: file names *)

(** [s.replace(c, new)] for a pattern [c] of one character. *)
Fixpoint replace_char (c : ascii) (new : string) (s : string) : string :=
  match s with
  | EmptyString => EmptyString
  | String a t =>
      if Ascii.eqb a c then new ++ replace_char c new t
      else String a (replace_char c new t)
  end.

Definition is_upper (a : ascii) : bool :=
  (65 <=? nat_of_ascii a) && (nat_of_ascii a <=? 90).

(** [s.lower()] on ASCII text: the letters [A]-[Z] go to [a]-[z]; the
    names of the category tables are ASCII. *)
Definition lower_char (a : ascii) : ascii :=
  if is_upper a then ascii_of_nat (nat_of_ascii a + 32) else a.

Fixpoint lower (s : string) : string :=
  match s with
  | EmptyString => EmptyString
  | String a t => String (lower_char a) (lower t)
  end.

(** [sanitize(name)] of [generate_level4_banners.py]. *)
Definition sanitize (name : string) : string :=
  lower
    (replace_char "'" ""
       (replace_char "/" "-"
          (replace_char "&" "and"
             (replace_char "," ""
                (replace_char " " "_" name))))).

(** The file name [main] gives the image of a level-4 category. *)
Definition level4_fname (cat_l1 cat_l2 cat_l3 cat_l4 : string) : string :=
  sanitize cat_l1 ++ "_" ++ sanitize cat_l2 ++ "_" ++ sanitize cat_l3 ++ "_"
  ++ sanitize cat_l4 ++ ".jpg".

Fixpoint string_forall (P : ascii -> bool) (s : string) : bool :=
  match s with
  | EmptyString => true
  | String a t => P a && string_forall P t
  end.

(** The characters [sanitize] is there to remove. *)
Definition unsafe_char (a : ascii) : bool :=
  Ascii.eqb a " " || Ascii.eqb a "," || Ascii.eqb a "&" || Ascii.eqb a "/"
  || Ascii.eqb a "'" || is_upper a.

Lemma string_forall_app (P : ascii -> bool) (s1 s2 : string) :
  string_forall P (s1 ++ s2) = string_forall P s1 && string_forall P s2.
Proof.
  induction s1 as [| a t IH]; [reflexivity |].
  cbn. rewrite IH. apply andb_assoc.
Qed.

Lemma string_forall_impl (P Q : ascii -> bool) (s : string) :
  (forall a, P a = true -> Q a = true) ->
  string_forall P s = true -> string_forall Q s = true.
Proof.
  intros H. induction s as [| a t IH]; [reflexivity |].
  cbn. intros Hs. apply andb_true_iff in Hs. destruct Hs as [Ha Ht].
  rewrite (H a Ha), (IH Ht). reflexivity.
Qed.

Lemma string_forall_In (P : ascii -> bool) (s : string) (c : ascii) :
  string_forall P s = true -> In c (list_ascii_of_string s) -> P c = true.
Proof.
  induction s as [| a t IH]; [intros _ [] |].
  cbn. intros Hs. apply andb_true_iff in Hs. destruct Hs as [Ha Ht].
  intros [<- | Hin]; [exact Ha | exact (IH Ht Hin)].
Qed.

Lemma replace_char_forall (P : ascii -> bool) (c : ascii) (new s : string) :
  string_forall P new = true ->
  string_forall (fun a => Ascii.eqb a c || P a) s = true ->
  string_forall P (replace_char c new s) = true.
Proof.
  intros Hnew. induction s as [| a t IH]; [reflexivity |].
  cbn. intros Hs. apply andb_true_iff in Hs. destruct Hs as [Ha Ht].
  destruct (Ascii.eqb a c).
  - rewrite string_forall_app, Hnew, (IH Ht). reflexivity.
  - cbn in *. rewrite Ha, (IH Ht). reflexivity.
Qed.

Lemma replace_char_absent (c : ascii) (new s : string) :
  string_forall (fun a => negb (Ascii.eqb a c)) s = true -> replace_char c new s = s.
Proof.
  induction s as [| a t IH]; [reflexivity |].
  cbn. intros Hs. apply andb_true_iff in Hs. destruct Hs as [Ha Ht].
  destruct (Ascii.eqb a c); [discriminate Ha |]. rewrite (IH Ht). reflexivity.
Qed.

Lemma lower_forall (P : ascii -> bool) (s : string) :
  string_forall (fun a => P (lower_char a)) s = true -> string_forall P (lower s) = true.
Proof.
  induction s as [| a t IH]; [reflexivity |].
  cbn. intros Hs. apply andb_true_iff in Hs. destruct Hs as [Ha Ht].
  rewrite Ha, (IH Ht). reflexivity.
Qed.

Lemma lower_no_upper (s : string) :
  string_forall (fun a => negb (is_upper a)) s = true -> lower s = s.
Proof.
  induction s as [| a t IH]; [reflexivity |].
  cbn. intros Hs. apply andb_true_iff in Hs. destruct Hs as [Ha Ht].
  unfold lower_char. destruct (is_upper a); [discriminate Ha |]. rewrite (IH Ht). reflexivity.
Qed.

(** Lower-casing a character that is none of the five makes it safe. *)
Lemma lower_char_safe (a : ascii) :
  Ascii.eqb a " " || Ascii.eqb a "," || Ascii.eqb a "&" || Ascii.eqb a "/"
  || Ascii.eqb a "'" = false ->
  unsafe_char (lower_char a) = false.
Proof.
  destruct a as [[] [] [] [] [] [] [] []]; vm_compute; intros H; first [reflexivity | exact H].
Qed.

Lemma sanitize_forall (name : string) :
  string_forall (fun a => negb (unsafe_char a)) (sanitize name) = true.
Proof.
  unfold sanitize. apply lower_forall.
  apply string_forall_impl
    with (P := fun a => negb (Ascii.eqb a " " || Ascii.eqb a "," || Ascii.eqb a "&"
                              || Ascii.eqb a "/" || Ascii.eqb a "'")).
  { intros a Ha. apply negb_true_iff in Ha. rewrite (lower_char_safe a Ha). reflexivity. }
  apply replace_char_forall; [reflexivity |].
  apply string_forall_impl
    with (P := fun a => negb (Ascii.eqb a " " || Ascii.eqb a "," || Ascii.eqb a "&"
                              || Ascii.eqb a "/")).
  { intros a. destruct (Ascii.eqb a " "), (Ascii.eqb a ","), (Ascii.eqb a "&"),
      (Ascii.eqb a "/"), (Ascii.eqb a "'"); intros H; first [reflexivity | discriminate H]. }
  apply replace_char_forall; [reflexivity |].
  apply string_forall_impl
    with (P := fun a => negb (Ascii.eqb a " " || Ascii.eqb a "," || Ascii.eqb a "&")).
  { intros a. destruct (Ascii.eqb a " "), (Ascii.eqb a ","), (Ascii.eqb a "&"),
      (Ascii.eqb a "/"); intros H; first [reflexivity | discriminate H]. }
  apply replace_char_forall; [reflexivity |].
  apply string_forall_impl
    with (P := fun a => negb (Ascii.eqb a " " || Ascii.eqb a ",")).
  { intros a. destruct (Ascii.eqb a " "), (Ascii.eqb a ","), (Ascii.eqb a "&");
      intros H; first [reflexivity | discriminate H]. }
  apply replace_char_forall; [reflexivity |].
  apply string_forall_impl with (P := fun a => negb (Ascii.eqb a " ")).
  { intros a. destruct (Ascii.eqb a " "), (Ascii.eqb a ",");
      intros H; first [reflexivity | discriminate H]. }
  apply replace_char_forall; [reflexivity |].
  apply string_forall_impl with (P := fun _ => true).
  { intros a _. destruct (Ascii.eqb a " "); reflexivity. }
  induction name as [| a t IH]; [reflexivity | exact IH].
Qed.

Lemma safe_is_fixed (s : string) :
  string_forall (fun a => negb (unsafe_char a)) s = true -> sanitize s = s.
Proof.
  intros H. unfold sanitize.
  assert (Hc : forall c, (forall a, unsafe_char a = false -> Ascii.eqb a c = false) ->
                         string_forall (fun a => negb (Ascii.eqb a c)) s = true).
  { intros c Hc. apply string_forall_impl with (2 := H).
    intros a Ha. apply negb_true_iff in Ha. rewrite (Hc a Ha). reflexivity. }
  rewrite (replace_char_absent " ").
  2:{ apply Hc. intros a. unfold unsafe_char. destruct (Ascii.eqb a " "); [discriminate | reflexivity]. }
  rewrite (replace_char_absent ",").
  2:{ apply Hc. intros a. unfold unsafe_char.
      destruct (Ascii.eqb a ","); [rewrite orb_true_r; discriminate | reflexivity]. }
  rewrite (replace_char_absent "&").
  2:{ apply Hc. intros a. unfold unsafe_char.
      destruct (Ascii.eqb a "&"); [rewrite !orb_true_r; discriminate | reflexivity]. }
  rewrite (replace_char_absent "/").
  2:{ apply Hc. intros a. unfold unsafe_char.
      destruct (Ascii.eqb a "/"); [rewrite !orb_true_r; discriminate | reflexivity]. }
  rewrite (replace_char_absent "'").
  2:{ apply Hc. intros a. unfold unsafe_char.
      destruct (Ascii.eqb a "'"); [rewrite !orb_true_r; discriminate | reflexivity]. }
  apply lower_no_upper. apply string_forall_impl with (2 := H).
  intros a Ha. unfold unsafe_char in Ha. destruct (is_upper a); [| reflexivity].
  rewrite !orb_true_r in Ha. discriminate Ha.
Qed.

(** X17. What [sanitize] guarantees: the name it returns has no space,
    comma, ampersand, slash or apostrophe and no capital letter, and
    sanitizing it again changes nothing.  So the file name [main] builds
    from four sanitized names has no slash, space or capital letter
    either, whatever the category names are. *)
Theorem sanitize_safe (name : string) :
  (forall c, In c (list_ascii_of_string (sanitize name)) ->
     c <> " "%char /\ c <> ","%char /\ c <> "&"%char /\ c <> "/"%char /\ c <> "'"%char
     /\ is_upper c = false)
  /\ sanitize (sanitize name) = sanitize name
  /\ (forall cat_l1 cat_l2 cat_l3 c,
        In c (list_ascii_of_string (level4_fname cat_l1 cat_l2 cat_l3 name)) ->
        c <> "/"%char /\ c <> " "%char /\ is_upper c = false).
Proof.
  split; [| split].
  - intros c Hc.
    pose proof (string_forall_In _ _ c (sanitize_forall name) Hc) as H.
    apply negb_true_iff in H. unfold unsafe_char in H.
    repeat (apply orb_false_iff in H; destruct H as [H ?]).
    repeat split; try assumption;
      intros ->; discriminate.
  - apply safe_is_fixed. apply sanitize_forall.
  - intros cat_l1 cat_l2 cat_l3 c Hc.
    assert (H : string_forall (fun a => negb (unsafe_char a))
                  (level4_fname cat_l1 cat_l2 cat_l3 name) = true).
    { unfold level4_fname. rewrite !string_forall_app, !sanitize_forall. reflexivity. }
    pose proof (string_forall_In _ _ c H Hc) as Hu.
    apply negb_true_iff in Hu. unfold unsafe_char in Hu.
    repeat (apply orb_false_iff in Hu; destruct Hu as [Hu ?]).
    repeat split; try assumption; intros ->; discriminate.
Qed.

(** ** The banner scripts: generating one image *)

(** [sub in s] for strings. *)
Fixpoint py_in (sub s : string) : bool :=
  String.prefix sub s
  || match s with
     | EmptyString => false
     | String _ t => py_in sub t
     end.

(** What the image generator does to the outside: a call of
    [client.models.generate_content] with the key of the client, and
    [time.sleep]. *)
Inductive banner_event : Type :=
| BGenerate (key prompt : string)
| BSleep (seconds : Z).

Definition is_bgenerate (e : banner_event) : bool :=
  match e with BGenerate _ _ => true | BSleep _ => false end.

Definition is_bsleep (e : banner_event) : bool :=
  match e with BSleep _ => true | BGenerate _ _ => false end.

(** The module-level [_key_index], the disk, and the calls made so far. *)
Record banner_world := mkBanner {
  key_index : nat;
  b_files : string -> option (list byte);
  b_trace : list banner_event
}.

Definition b_log (e : banner_event) (w : banner_world) : banner_world :=
  mkBanner (key_index w) (b_files w) (b_trace w ++ [e])%list.

Definition b_write (path : string) (b : list byte) (w : banner_world) : banner_world :=
  mkBanner (key_index w) (fun p => if String.eqb p path then Some b else b_files w p)
    (b_trace w).

(** A computation on [_key_index], run inside the world. *)
Definition on_key_index {A} (c : M nat A) : M banner_world A :=
  fun w => let (r, k) := c (key_index w) in (r, mkBanner k (b_files w) (b_trace w)).

(** What [generate_image] reads of a reply: [candidates] (an empty list
    stands for [None] too, both are false in [if response.candidates]),
    of the first candidate [content.parts], of a part [inline_data] and
    of that [mime_type] and [data]. *)
Record blob := mkBlob { mime_type : option string; data : list byte }.

Record part := mkPart { inline_data : option blob }.

Inductive candidate_content : Type :=
| NoContent                    (* [content] is [None] *)
| NoParts                      (* [content.parts] is [None] *)
| Parts (ps : list part).

Definition candidate : Type := candidate_content.

Section Banner.

Variable API_KEYS : list string.

(** The reply to the [k]-th call of [generate_content] (k from 0), made
    with a client and a prompt: an exception or the candidates. *)
Variable generate_content : nat -> client -> string -> exn + list candidate.

(** [Image.open(BytesIO(data))], and the bytes [img.save(path, "JPEG",
    quality=90)] writes for an image converted to RGB. *)
Variable open_image : list byte -> exn + image.
Variable encode_jpeg : image -> list byte.

(** The scripts call [generate_image] from the three workers of a
    [ThreadPoolExecutor], which share [_key_index]: [elsewhere a] is the
    number of calls of [get_next_client] the other workers make after the
    selection this call made before (or after it began) and before the
    selection of its attempt [a]. *)
Variable elsewhere : nat -> nat.

Definition others_select (attempt : nat) : M banner_world unit :=
  modify (fun w => mkBanner (key_index w + elsewhere attempt) (b_files w) (b_trace w)).

Definition call_generate_content (c : client) (prompt : string)
  : M banner_world (list candidate) :=
  w <- get ;;
  let k := List.length (filter is_bgenerate (b_trace w)) in
  modify (b_log (BGenerate (api_key c) prompt)) ;;;
  match generate_content k c prompt with
  | inl e => raise e
  | inr cs => ret cs
  end.

(** The loop over the parts: [true] once an image has been saved. *)
Fixpoint save_first_image (save_path : string) (ps : list part) : M banner_world bool :=
  match ps with
  | [] => ret false
  | p :: ps' =>
      match inline_data p with
      | None => save_first_image save_path ps'
      | Some b =>
          match mime_type b with
          | None =>
              raise (mkExn "AttributeError" "'NoneType' object has no attribute 'startswith'")
          | Some m =>
              if String.prefix "image/" m then
                match open_image (data b) with
                | inl e => raise e
                | inr img =>
                    modify (b_write save_path (encode_jpeg img)) ;;;
                    ret true
                end
              else save_first_image save_path ps'
          end
      end
  end.

(** [10 * (attempt + 1)] or [3 * (attempt + 1)], by the text of the
    exception. *)
Definition pause (attempt : nat) (err_msg : string) : Z :=
  if py_in "429" err_msg || py_in "quota" (lower err_msg)
  then 10 * (Z.of_nat attempt + 1)
  else 3 * (Z.of_nat attempt + 1).

(** The body of the loop of [generate_image]: [true] stands for the
    [return True] inside it. *)
Definition attempt_body (prompt save_path : string) (attempt : nat) : M banner_world bool :=
  try_catch
    (c <- on_key_index (get_next_client API_KEYS) ;;
     candidates <- call_generate_content c prompt ;;
     saved <- match candidates with
              | [] => ret false
              | NoContent :: _ =>
                  raise (mkExn "AttributeError" "'NoneType' object has no attribute 'parts'")
              | NoParts :: _ =>
                  raise (mkExn "TypeError" "'NoneType' object is not iterable")
              | Parts ps :: _ => save_first_image save_path ps
              end ;;
     if saved then ret true
     else modify (b_log (BSleep 2)) ;;; ret false)
    (fun e =>
       let err_msg := exn_text e in
       modify (b_log (BSleep (pause attempt err_msg))) ;;;
       ret false).

(** One turn of the loop as it runs in the pool: the selections of the
    other workers since the turn before, then the body. *)
Definition attempt_once (prompt save_path : string) (attempt : nat) : M banner_world bool :=
  others_select attempt ;;;
  attempt_body prompt save_path attempt.

(** The [for attempt in ...] of [generate_image] on the attempts left. *)
Fixpoint generate_image_from (prompt save_path : string) (attempts : list nat)
  : M banner_world bool :=
  match attempts with
  | [] => ret false
  | attempt :: rest =>
      done <- attempt_once prompt save_path attempt ;;
      if done then ret true else generate_image_from prompt save_path rest
  end.

(** [generate_image(prompt, save_path, retries)] *)
Definition generate_image (prompt save_path : string) (retries : nat) : M banner_world bool :=
  generate_image_from prompt save_path (seq 0 retries).

(** *** One attempt *)

Lemma pause_cases (attempt : nat) (err_msg : string) :
  pause attempt err_msg = (10 * (Z.of_nat attempt + 1))%Z
  \/ pause attempt err_msg = (3 * (Z.of_nat attempt + 1))%Z.
Proof. unfold pause. destruct (_ || _); [left | right]; reflexivity. Qed.

Lemma save_first_image_cases (save_path : string) (ps : list part) (w : banner_world) :
  save_first_image save_path ps w = (Ret false, w)
  \/ (exists e, save_first_image save_path ps w = (Raise e, w))
  \/ (exists img, save_first_image save_path ps w
                  = (Ret true, b_write save_path (encode_jpeg img) w)).
Proof.
  induction ps as [| p ps IH]; [left; reflexivity |].
  cbn [save_first_image].
  destruct (inline_data p) as [b |]; [| exact IH].
  destruct (mime_type b) as [m |]; [| right; left; eexists; reflexivity].
  destruct (String.prefix "image/" m); [| exact IH].
  destruct (open_image (data b)) as [e | img].
  - right; left. exists e. reflexivity.
  - right; right. exists img. reflexivity.
Qed.

(** The request an attempt makes from [w]: none without keys (the
    selector raises first), else one with the key the counter points at. *)
Definition request_of (prompt : string) (w : banner_world) : list banner_event :=
  match API_KEYS with
  | [] => []
  | _ => [BGenerate (nth (key_index w mod List.length API_KEYS) API_KEYS "") prompt]
  end.

(** What an attempt that ended with [done] has made of [w]. *)
Definition attempt_facts (prompt save_path : string) (attempt : nat)
    (w : banner_world) (done : bool) (w' : banner_world) : Prop :=
  key_index w' = key_index w + List.length (request_of prompt w)
  /\ if done
     then b_trace w' = (b_trace w ++ request_of prompt w)%list
          /\ exists img, b_files w' = b_files (b_write save_path (encode_jpeg img) w)
     else b_files w' = b_files w
          /\ exists s, b_trace w' = (b_trace w ++ request_of prompt w ++ [BSleep s])%list
                       /\ (s = 2 \/ s = 10 * (Z.of_nat attempt + 1)
                           \/ s = 3 * (Z.of_nat attempt + 1))%Z.

Lemma on_key_index_step (w : banner_world) :
  API_KEYS <> [] ->
  on_key_index (get_next_client API_KEYS) w
    = (Ret (Client (nth (key_index w mod List.length API_KEYS) API_KEYS "")),
       mkBanner (S (key_index w)) (b_files w) (b_trace w)).
Proof.
  intros Hne. unfold on_key_index.
  destruct (get_next_client_step API_KEYS (key_index w) Hne) as [key [Hkey ->]].
  rewrite (nth_error_nth _ _ "" Hkey). reflexivity.
Qed.

Lemma failed_attempt (prompt save_path : string) (attempt : nat) (w w1 : banner_world)
    (s : Z) :
  key_index w1 = key_index w + List.length (request_of prompt w) ->
  b_files w1 = b_files w ->
  b_trace w1 = (b_trace w ++ request_of prompt w)%list ->
  (s = 2 \/ s = 10 * (Z.of_nat attempt + 1) \/ s = 3 * (Z.of_nat attempt + 1))%Z ->
  attempt_facts prompt save_path attempt w false (b_log (BSleep s) w1).
Proof.
  intros Hk Hf Ht Hs. split; [exact Hk |]. split; [exact Hf |].
  exists s. split; [| exact Hs]. cbn. rewrite Ht, <- app_assoc. reflexivity.
Qed.

Lemma attempt_body_cases (prompt save_path : string) (attempt : nat) (w : banner_world) :
  exists done w',
    attempt_body prompt save_path attempt w = (Ret done, w')
    /\ attempt_facts prompt save_path attempt w done w'.
Proof.
  unfold attempt_body, try_catch. unfold bind at 1.
  destruct API_KEYS as [| key0 keys] eqn:Hkeys.
  { exists false. eexists. split; [reflexivity |].
    apply failed_attempt; try reflexivity.
    - unfold request_of. rewrite Hkeys. cbn. lia.
    - unfold request_of. rewrite Hkeys. cbn. rewrite app_nil_r. reflexivity.
    - right; right. reflexivity. }
  rewrite <- Hkeys.
  assert (Hne : API_KEYS <> []) by (rewrite Hkeys; discriminate).
  rewrite (on_key_index_step w Hne).
  remember (nth (key_index w mod List.length API_KEYS) API_KEYS "") as key eqn:Hkey.
  assert (Hreq : request_of prompt w = [BGenerate key prompt]).
  { unfold request_of. rewrite Hkey. rewrite Hkeys. reflexivity. }
  unfold bind at 1. unfold call_generate_content. unfold bind at 1. unfold get at 1.
  unfold bind at 1. unfold modify at 1.
  remember (b_log (BGenerate (api_key (Client key)) prompt)
              (mkBanner (S (key_index w)) (b_files w) (b_trace w))) as w2 eqn:Hw2.
  assert (F2 : key_index w2 = key_index w + List.length (request_of prompt w)
               /\ b_files w2 = b_files w
               /\ b_trace w2 = (b_trace w ++ request_of prompt w)%list).
  { rewrite Hw2, Hreq. cbn. repeat split. lia. }
  destruct F2 as [Fk [Ff Ft]]. clear Hw2.
  destruct (generate_content _ _ _) as [e | candidates].
  { exists false. eexists. split; [reflexivity |].
    apply failed_attempt; try assumption.
    destruct (pause_cases attempt (exn_text e)) as [-> | ->]; tauto. }
  unfold ret at 1.
  assert (Hraise : forall e,
            exists done w',
              (let (r, s') := (Raise e : res bool, w2) in
               match r with
               | Ret a => (Ret a, s')
               | Raise e0 =>
                   (modify (b_log (BSleep (pause attempt (exn_text e0)))) ;;; ret false) s'
               end) = (Ret done, w')
              /\ attempt_facts prompt save_path attempt w done w').
  { intros e. exists false. eexists. split; [reflexivity |].
    apply failed_attempt; try assumption.
    destruct (pause_cases attempt (exn_text e)) as [-> | ->]; tauto. }
  destruct candidates as [| [| | ps] rest].
  - exists false. eexists. split; [reflexivity |].
    apply failed_attempt; try assumption. left. reflexivity.
  - apply Hraise.
  - apply Hraise.
  - unfold bind at 1.
    destruct (save_first_image_cases save_path ps w2) as [H | [[e H] | [img H]]]; rewrite H.
    + exists false. eexists. split; [reflexivity |].
      apply failed_attempt; try assumption. left. reflexivity.
    + apply Hraise.
    + exists true. eexists. split; [reflexivity |].
      split; [exact Fk |]. split; [exact Ft |].
      exists img. cbn. rewrite Ff. reflexivity.
Qed.

(** The world as an attempt finds it once the other workers have made
    their selections. *)
Definition after_others (attempt : nat) (w : banner_world) : banner_world :=
  mkBanner (key_index w + elsewhere attempt) (b_files w) (b_trace w).

Lemma attempt_once_cases (prompt save_path : string) (attempt : nat) (w : banner_world) :
  exists done w',
    attempt_once prompt save_path attempt w = (Ret done, w')
    /\ attempt_facts prompt save_path attempt (after_others attempt w) done w'.
Proof.
  unfold attempt_once, others_select. unfold bind at 1. unfold modify at 1.
  fold (after_others attempt w).
  apply attempt_body_cases.
Qed.

(** *** The whole loop *)

(** The values of the counter at which a call that finds it at [k] makes
    the selections of its attempts, and the value it leaves. *)
Fixpoint selections (k : nat) (attempts : list nat) : list nat :=
  match attempts with
  | [] => []
  | a :: rest => (k + elsewhere a) :: selections (S (k + elsewhere a)) rest
  end.

Fixpoint counter_after (k : nat) (attempts : list nat) : nat :=
  match attempts with
  | [] => k
  | a :: rest => counter_after (S (k + elsewhere a)) rest
  end.

(** The requests of the attempts [taken], from counter value [k]. *)
Definition rotation (prompt : string) (k : nat) (taken : list nat) : list banner_event :=
  match API_KEYS with
  | [] => []
  | _ => map (fun c => BGenerate (nth (c mod List.length API_KEYS) API_KEYS "") prompt)
           (selections k taken)
  end.

Lemma selections_length (k : nat) (attempts : list nat) :
  List.length (selections k attempts) = List.length attempts.
Proof.
  revert k. induction attempts as [| a rest IH]; intros k; [reflexivity |].
  cbn [selections List.length]. rewrite IH. reflexivity.
Qed.

Lemma request_of_rotation (prompt : string) (attempt : nat) (w : banner_world) :
  request_of prompt (after_others attempt w) = rotation prompt (key_index w) [attempt].
Proof. unfold request_of, rotation. destruct API_KEYS; reflexivity. Qed.

Lemma rotation_cons (prompt : string) (k a : nat) (taken : list nat) :
  rotation prompt k (a :: taken)
    = (rotation prompt k [a] ++ rotation prompt (S (k + elsewhere a)) taken)%list.
Proof. unfold rotation. destruct API_KEYS; reflexivity. Qed.

Lemma rotation_length (prompt : string) (k : nat) (taken : list nat) :
  List.length (rotation prompt k taken)
    = match API_KEYS with [] => 0 | _ => List.length taken end.
Proof.
  unfold rotation. destruct API_KEYS; [reflexivity |].
  rewrite length_map, selections_length. reflexivity.
Qed.

Lemma rotation_generate (prompt : string) (k : nat) (taken : list nat) :
  filter is_bgenerate (rotation prompt k taken) = rotation prompt k taken
  /\ filter is_bsleep (rotation prompt k taken) = [].
Proof.
  unfold rotation. destruct API_KEYS; [split; reflexivity |].
  induction (selections k taken) as [| j js [IH1 IH2]]; [split; reflexivity |].
  cbn [map filter is_bgenerate is_bsleep]. rewrite IH1, IH2. split; reflexivity.
Qed.

Lemma firstn_seq_le (a m n : nat) : m <= n -> firstn m (seq a n) = seq a m.
Proof.
  revert a n. induction m as [| m IH]; intros a n H; [reflexivity |].
  destruct n as [| n]; [lia |]. cbn [seq firstn]. rewrite IH by lia. reflexivity.
Qed.

(** Without selections by other workers the counter values are
    consecutive. *)
Lemma selections_alone (k : nat) (a0 m : nat) :
  (forall a, a0 <= a < a0 + m -> elsewhere a = 0) ->
  selections k (seq a0 m) = map (fun j => k + j) (seq 0 m)
  /\ counter_after k (seq a0 m) = k + m.
Proof.
  revert k a0. induction m as [| m IH]; intros k a0 H.
  { cbn. split; [reflexivity | lia]. }
  cbn [seq selections counter_after map].
  rewrite (H a0) by lia. rewrite !Nat.add_0_r.
  destruct (IH (S k) (S a0)) as [IH1 IH2]; [intros a Ha; apply H; lia |].
  rewrite IH1, IH2. split; [| lia].
  f_equal. rewrite <- seq_shift, map_map. apply map_ext. intros j. lia.
Qed.

(** What [generate_image_from] has made of [w] after [m] attempts that
    added the events [added] and ended with [done]. *)
Definition loop_facts (prompt save_path : string) (attempts : list nat)
    (w : banner_world) (done : bool) (w' : banner_world)
    (added : list banner_event) (m : nat) : Prop :=
  b_trace w' = (b_trace w ++ added)%list
  /\ m <= List.length attempts
  /\ (if done then 1 <= m else m = List.length attempts)
  /\ List.length (filter is_bsleep added) + (if done then 1 else 0) = m
  /\ filter is_bgenerate added = rotation prompt (key_index w) (firstn m attempts)
  /\ (API_KEYS <> [] -> key_index w' = counter_after (key_index w) (firstn m attempts))
  /\ if done
     then exists img, b_files w' = b_files (b_write save_path (encode_jpeg img) w)
     else b_files w' = b_files w.

Lemma generate_image_from_facts (prompt save_path : string) (attempts : list nat)
    (w : banner_world) :
  exists done w' added m,
    generate_image_from prompt save_path attempts w = (Ret done, w')
    /\ loop_facts prompt save_path attempts w done w' added m.
Proof.
  revert w. induction attempts as [| attempt rest IH]; intros w.
  { exists false, w, [], 0. split; [reflexivity |].
    unfold loop_facts. cbn [List.length filter firstn]. rewrite app_nil_r.
    repeat split; try reflexivity.
    unfold rotation. destruct API_KEYS; reflexivity. }
  cbn [generate_image_from]. unfold bind at 1.
  destruct (attempt_once_cases prompt save_path attempt w) as [done1 [w1 [Hrun [Hk H1]]]].
  rewrite Hrun. rewrite request_of_rotation in Hk, H1.
  cbn [after_others key_index b_trace b_files] in Hk, H1.
  pose proof (rotation_generate prompt (key_index w) [attempt]) as [Rg Rs].
  assert (Hk1 : API_KEYS <> [] -> key_index w1 = S (key_index w + elsewhere attempt)).
  { intros Hne. rewrite rotation_length in Hk. destruct API_KEYS; [congruence |].
    cbn [List.length] in Hk. lia. }
  destruct done1.
  - destruct H1 as [Ht Hf].
    exists true, w1, (rotation prompt (key_index w) [attempt]), 1. split; [reflexivity |].
    unfold loop_facts. rewrite Rg, Rs. cbn [List.length firstn counter_after].
    split; [exact Ht |]. split; [lia |]. split; [lia |]. split; [lia |].
    split; [reflexivity |]. split; [exact Hk1 |]. exact Hf.
  - destruct H1 as [Hf [s [Ht Hs]]].
    destruct (IH w1) as [done [w' [added [m [Hrest F]]]]].
    destruct F as [Ft [Fm [Fd [Fs [Fg [Fk Ff]]]]]].
    exists done, w', (rotation prompt (key_index w) [attempt] ++ [BSleep s] ++ added)%list,
      (S m).
    split; [exact Hrest |].
    assert (Hrot : rotation prompt (key_index w1) (firstn m rest)
                   = rotation prompt (S (key_index w + elsewhere attempt)) (firstn m rest)).
    { assert (Hcases : API_KEYS = [] \/ API_KEYS <> [])
        by (destruct API_KEYS; [left; reflexivity | right; discriminate]).
      destruct Hcases as [Hnil | Hne].
      - unfold rotation. rewrite Hnil. reflexivity.
      - rewrite (Hk1 Hne). reflexivity. }
    unfold loop_facts. cbn [List.length firstn counter_after].
    split; [rewrite Ft, Ht, <- !app_assoc; reflexivity |].
    split; [lia |].
    split; [destruct done; lia |].
    split; [rewrite !filter_app, Rs; cbn; lia |].
    split; [rewrite (rotation_cons prompt (key_index w) attempt (firstn m rest)),
              !filter_app, Rg, Fg, Hrot; reflexivity |].
    split; [intros Hne; rewrite (Fk Hne), (Hk1 Hne); reflexivity |].
    destruct done.
    + destruct Ff as [img Ff]. exists img. rewrite Ff. cbn. rewrite Hf. reflexivity.
    + rewrite Ff. exact Hf.
Qed.

(** X18. [generate_image] always returns, whatever the service, the
    decoder or the list of keys do: every exception is taken by the
    handler of its attempt.  When it returns [False] it has slept after
    each of its [retries] attempts, the last one included, and the disk is
    as it was.  When it returns [True] it has slept fewer than [retries]
    times and the only change of the disk is the image at [save_path].
    In both cases it has sent at most [retries] requests. *)
Theorem generate_image_outcome (prompt save_path : string) (retries : nat)
    (w : banner_world) :
  let run := generate_image prompt save_path retries w in
  exists done added,
    fst run = Ret done
    /\ b_trace (snd run) = (b_trace w ++ added)%list
    /\ List.length (filter is_bgenerate added) <= retries
    /\ if done
       then List.length (filter is_bsleep added) < retries
            /\ exists img, b_files (snd run) = b_files (b_write save_path (encode_jpeg img) w)
       else List.length (filter is_bsleep added) = retries
            /\ b_files (snd run) = b_files w.
Proof.
  cbv zeta. unfold generate_image.
  destruct (generate_image_from_facts prompt save_path (seq 0 retries) w)
    as [done [w' [added [m [Hrun F]]]]].
  rewrite Hrun. cbn [fst snd].
  destruct F as [Ft [Fm [Fd [Fs [Fg [Fk Ff]]]]]]. rewrite length_seq in Fm, Fd.
  exists done, added. split; [reflexivity |]. split; [exact Ft |].
  split.
  { rewrite Fg, rotation_length, length_firstn, length_seq. destruct API_KEYS; lia. }
  destruct done; (split; [lia | exact Ff]).
Qed.

(** X19. With at least one key, every attempt of [generate_image] makes
    one selection: it takes the key the shared counter points at and
    moves the counter by one.  The call runs in a pool whose other
    workers use the same counter: when they make [elsewhere a] selections
    before that of attempt [a], a call that finds the counter at [k]
    selects at the values [k + elsewhere 0], then one more plus
    [elsewhere 1], and so on, the request of each attempt goes out with
    the key at that value modulo the number of keys (one request per
    attempt: one more than the number of sleeps when the call succeeds, as
    many otherwise), and the counter is left one after the last of these
    values.  Only when no other worker selects meanwhile are the keys
    those at [k mod n], [(k+1) mod n], ... and is the counter left at
    [k + m]. *)
Theorem generate_image_rotates_keys (prompt save_path : string) (retries : nat)
    (w : banner_world) :
  let run := generate_image prompt save_path retries w in
  API_KEYS <> [] ->
  exists done added m,
    fst run = Ret done
    /\ b_trace (snd run) = (b_trace w ++ added)%list
    /\ m = List.length (filter is_bsleep added) + (if done then 1 else 0)
    /\ filter is_bgenerate added
       = map (fun c => BGenerate (nth (c mod List.length API_KEYS) API_KEYS "") prompt)
           (selections (key_index w) (seq 0 m))
    /\ key_index (snd run) = counter_after (key_index w) (seq 0 m)
    /\ ((forall a, a < m -> elsewhere a = 0) ->
        selections (key_index w) (seq 0 m) = map (fun j => key_index w + j) (seq 0 m)
        /\ counter_after (key_index w) (seq 0 m) = key_index w + m).
Proof.
  cbv zeta. unfold generate_image. intros Hne.
  destruct (generate_image_from_facts prompt save_path (seq 0 retries) w)
    as [done [w' [added [m [Hrun F]]]]].
  rewrite Hrun. cbn [fst snd].
  destruct F as [Ft [Fm [Fd [Fs [Fg [Fk Ff]]]]]].
  rewrite length_seq in Fm.
  rewrite (firstn_seq_le 0 m retries Fm) in Fg, Fk.
  exists done, added, m. split; [reflexivity |]. split; [exact Ft |].
  split; [lia |].
  unfold rotation in Fg.
  destruct API_KEYS as [| key0 keys] eqn:Hkeys; [congruence |].
  split; [exact Fg |]. split; [apply Fk; discriminate |].
  intros Halone. apply selections_alone. intros a Ha. apply Halone. lia.
Qed.

(** *** A service that refuses every request *)

Lemma attempt_once_refused (prompt save_path : string) (attempt : nat) (w : banner_world)
    (e : exn) :
  API_KEYS <> [] ->
  generate_content (List.length (filter is_bgenerate (b_trace w)))
    (Client (nth ((key_index w + elsewhere attempt) mod List.length API_KEYS) API_KEYS ""))
    prompt = inl e ->
  attempt_once prompt save_path attempt w
    = (Ret false,
       mkBanner (S (key_index w + elsewhere attempt)) (b_files w)
         (b_trace w
          ++ [BGenerate (nth ((key_index w + elsewhere attempt) mod List.length API_KEYS)
                           API_KEYS "") prompt;
              BSleep (pause attempt (exn_text e))])%list).
Proof.
  intros Hne He. unfold attempt_once, others_select. unfold bind at 1. unfold modify at 1.
  unfold attempt_body, try_catch. unfold bind at 1.
  rewrite (on_key_index_step _ Hne). cbn [key_index b_files b_trace].
  unfold bind at 1. unfold call_generate_content. unfold bind at 1. unfold get at 1.
  unfold bind at 1. unfold modify at 1. cbn [b_trace]. rewrite He.
  unfold raise, bind, modify, ret, b_log. cbn [b_trace key_index b_files api_key].
  rewrite <- app_assoc. reflexivity.
Qed.

(** The events of a call whose attempts are all refused with a rate-limit
    error: a request and a sleep for each counter value and attempt. *)
Definition refusals (prompt : string) (k : nat) (attempts : list nat) : list banner_event :=
  flat_map (fun ca => [BGenerate (nth (fst ca mod List.length API_KEYS) API_KEYS "") prompt;
                       BSleep (10 * (Z.of_nat (snd ca) + 1))])
    (combine (selections k attempts) attempts).

Lemma generate_image_from_refused (prompt save_path : string) (attempts : list nat)
    (w : banner_world) :
  API_KEYS <> [] ->
  (forall k c p, exists e,
      generate_content k c p = inl e
      /\ py_in "429" (exn_text e) || py_in "quota" (lower (exn_text e)) = true) ->
  generate_image_from prompt save_path attempts w
    = (Ret false,
       mkBanner (counter_after (key_index w) attempts) (b_files w)
         (b_trace w ++ refusals prompt (key_index w) attempts)%list).
Proof.
  intros Hne Hall. revert w. induction attempts as [| a rest IH]; intros w.
  { cbn. unfold refusals. cbn. rewrite app_nil_r. destruct w; reflexivity. }
  cbn [generate_image_from]. unfold bind at 1.
  destruct (Hall (List.length (filter is_bgenerate (b_trace w)))
              (Client (nth ((key_index w + elsewhere a) mod List.length API_KEYS) API_KEYS ""))
              prompt) as [e [He Hq]].
  rewrite (attempt_once_refused prompt save_path a w e Hne He).
  rewrite IH. cbn [key_index b_files b_trace counter_after].
  unfold refusals. cbn [selections combine flat_map fst snd]. unfold pause. rewrite Hq.
  rewrite <- app_assoc. reflexivity.
Qed.

(** X20. The backoff under rate limiting.  With at least one key, when
    every request is refused with an exception whose text has [429] in it
    or [quota] in any case, [generate_image] gives up with [False] after
    [retries] requests, having slept 10, 20, ..., [10 * retries] seconds,
    one sleep after each request, the last one included; the disk is as it
    was.  Each request goes out with the key the shared counter points at
    when its attempt makes its selection, after the selections the other
    workers of the pool have made meanwhile: the next key of the rotation
    only when there were none. *)
Theorem rate_limited_backoff (prompt save_path : string) (retries : nat)
    (w : banner_world) :
  API_KEYS <> [] ->
  (forall k c p, exists e,
      generate_content k c p = inl e
      /\ py_in "429" (exn_text e) || py_in "quota" (lower (exn_text e)) = true) ->
  generate_image prompt save_path retries w
    = (Ret false,
       mkBanner (counter_after (key_index w) (seq 0 retries)) (b_files w)
         (b_trace w
          ++ flat_map
               (fun ca => [BGenerate
                             (nth (fst ca mod List.length API_KEYS) API_KEYS "") prompt;
                           BSleep (10 * (Z.of_nat (snd ca) + 1))])
               (combine (selections (key_index w) (seq 0 retries)) (seq 0 retries)))%list)
  /\ ((forall a, a < retries -> elsewhere a = 0) ->
      selections (key_index w) (seq 0 retries)
        = map (fun j => key_index w + j) (seq 0 retries)
      /\ counter_after (key_index w) (seq 0 retries) = key_index w + retries).
Proof.
  intros Hne Hall. split.
  - unfold generate_image.
    rewrite (generate_image_from_refused prompt save_path (seq 0 retries) w Hne Hall).
    reflexivity.
  - intros Halone. apply selections_alone. intros a Ha. apply Halone. lia.
Qed.

End Banner.

(** A service that has an image on the second request only, one that
    refuses every request for lack of quota, and stand-ins for the decoder
    and the encoder. *)
Definition second_time_lucky (k : nat) (c : client) (prompt : string)
  : exn + list candidate :=
  if k =? 1
  then inr [Parts [mkPart None; mkPart (Some (mkBlob (Some "image/png") ["137"%byte]))]]
  else inr [].

Definition out_of_quota (k : nat) (c : client) (prompt : string) : exn + list candidate :=
  inl (mkExn "ClientError" "429 RESOURCE_EXHAUSTED. You exceeded your current quota.").

Definition open_any (b : list byte) : exn + image := inr (Image_new 1 1).

Definition fresh_banner_world : banner_world := mkBanner 0 (fun _ => None) [].

(** The other two workers of the pool each make one selection between
    two attempts of the call, or none does. *)
Definition two_between (attempt : nat) : nat := 2.

Definition nobody_else (attempt : nat) : nat := 0.

(** With three keys and two selections by others before each of its
    own, the call meets the same key at every attempt. *)
Lemma generate_image_rotates_keys_witness :
  exists done added,
    fst (generate_image three_keys second_time_lucky open_any empty_encoder two_between
           "festive sale banner" "generated_promo_banners/diwali.jpg" 3 fresh_banner_world)
      = Ret done
    /\ b_trace (snd (generate_image three_keys second_time_lucky open_any empty_encoder
                       two_between "festive sale banner"
                       "generated_promo_banners/diwali.jpg" 3 fresh_banner_world))
       = (b_trace fresh_banner_world ++ added)%list
    /\ filter is_bgenerate added
       = [BGenerate "key-C" "festive sale banner"; BGenerate "key-C" "festive sale banner"]
    /\ key_index (snd (generate_image three_keys second_time_lucky open_any empty_encoder
                         two_between "festive sale banner"
                         "generated_promo_banners/diwali.jpg" 3 fresh_banner_world))
       = 6.
Proof.
  destruct (generate_image_rotates_keys three_keys second_time_lucky open_any empty_encoder
              two_between "festive sale banner" "generated_promo_banners/diwali.jpg" 3
              fresh_banner_world) as [done [added [m [Hrun [Ht [Hm [Hg [Hk _]]]]]]]].
  - discriminate.
  - assert (Hadded : added = [BGenerate "key-C" "festive sale banner"; BSleep 2;
                              BGenerate "key-C" "festive sale banner"]).
    { apply (app_inv_head (b_trace fresh_banner_world)). rewrite <- Ht.
      vm_compute. reflexivity. }
    assert (Hdone : done = true).
    { assert (E : Ret done = Ret true) by (rewrite <- Hrun; vm_compute; reflexivity).
      injection E as ->. reflexivity. }
    subst added done. cbn in Hm. subst m.
    exists true. eexists. split; [exact Hrun |]. split; [exact Ht |].
    split; [exact Hg | exact Hk].
Defined.

Lemma rate_limited_backoff_witness :
  generate_image three_keys out_of_quota open_any empty_encoder two_between
    "festive sale banner" "generated_promo_banners/diwali.jpg" 3 fresh_banner_world
  = (Ret false,
     mkBanner 9 (fun _ => None)
       [BGenerate "key-C" "festive sale banner"; BSleep 10;
        BGenerate "key-C" "festive sale banner"; BSleep 20;
        BGenerate "key-C" "festive sale banner"; BSleep 30])
  /\ generate_image three_keys out_of_quota open_any empty_encoder nobody_else
       "festive sale banner" "generated_promo_banners/diwali.jpg" 3 fresh_banner_world
     = (Ret false,
        mkBanner 3 (fun _ => None)
          [BGenerate "key-A" "festive sale banner"; BSleep 10;
           BGenerate "key-B" "festive sale banner"; BSleep 20;
           BGenerate "key-C" "festive sale banner"; BSleep 30]).
Proof.
  split.
  - apply (rate_limited_backoff three_keys out_of_quota open_any empty_encoder two_between
             "festive sale banner" "generated_promo_banners/diwali.jpg" 3 fresh_banner_world).
    + discriminate.
    + intros k c p. eexists. split; reflexivity.
  - apply (rate_limited_backoff three_keys out_of_quota open_any empty_encoder nobody_else
             "festive sale banner" "generated_promo_banners/diwali.jpg" 3 fresh_banner_world).
    + discriminate.
    + intros k c p. eexists. split; reflexivity.
Defined.

(** ** The DALL-E runner: a whole run *)

(** The bounds CPython gives [l[start:stop]] on a list of [len] items: a
    negative index counts from the end, and both are brought into
    [0 .. len]. *)
Definition adjust_index (len i : Z) : Z :=
  if (i <? 0)%Z then Z.max (i + len) 0 else Z.min i len.

(** [l[start:stop]] *)
Definition py_slice {A} (l : list A) (start stop : Z) : list A :=
  let len := Z.of_nat (List.length l) in
  let lo := adjust_index len start in
  let hi := adjust_index len stop in
  firstn (Z.to_nat (hi - lo)) (skipn (Z.to_nat lo) l).

(** The truth value of a JSON value in [if url:]. *)
Definition json_truthy (j : json) : bool :=
  match j with
  | JNull => false
  | JBool b => b
  | JInt z => negb (z =? 0)%Z
  | JFloat q => negb (Qeq_bool q 0)
  | JStr s => negb (String.eqb s "")
  | JArr items => match items with [] => false | _ => true end
  | JObj fields => match fields with [] => false | _ => true end
  end.

(** The names of the items that have one. *)
Definition filenames (batch : list (list (string * string))) : list string :=
  flat_map (fun item => match assoc "filename" item with Some f => [f] | None => [] end)
    batch.

(** *** Keys and values of a dictionary after [d[k] = v] *)

Lemma dict_set_keys {V} (k : string) (v : V) (d : list (string * V)) (x : string) :
  In x (map fst (dict_set k v d)) -> x = k \/ In x (map fst d).
Proof.
  induction d as [| [k' v'] d IH]; cbn.
  - intros [<- | []]. left. reflexivity.
  - destruct (String.eqb k k') eqn:E; cbn.
    + apply String.eqb_eq in E. subst k'. intros [<- | H]; [left | right; right]; tauto.
    + intros [<- | H]; [right; left; reflexivity |].
      destruct (IH H) as [-> | H']; [left; reflexivity | right; right; exact H'].
Qed.

Lemma dict_set_NoDup {V} (k : string) (v : V) (d : list (string * V)) :
  NoDup (map fst d) -> NoDup (map fst (dict_set k v d)).
Proof.
  induction d as [| [k' v'] d IH]; cbn.
  - intros _. constructor; [intros [] | constructor].
  - intros Hnd. inversion Hnd as [| a l Hnotin Hrest]; subst.
    destruct (String.eqb k k') eqn:E; cbn.
    + apply String.eqb_eq in E. subst k'. constructor; assumption.
    + constructor; [| exact (IH Hrest)].
      intros Hin. destruct (dict_set_keys k v d k' Hin) as [-> | Hin'].
      * rewrite String.eqb_refl in E. discriminate E.
      * exact (Hnotin Hin').
Qed.

Lemma dict_set_values {V} (P : V -> Prop) (k : string) (v : V) (d : list (string * V)) :
  P v -> Forall (fun kv => P (snd kv)) d -> Forall (fun kv => P (snd kv)) (dict_set k v d).
Proof.
  intros Hv. induction d as [| [k' v'] d IH]; cbn; intros Hd.
  - constructor; [exact Hv | constructor].
  - inversion Hd as [| a l Ha Hrest]; subst.
    destruct (String.eqb k k'); constructor; auto.
Qed.

(** *** Names that end differently *)

Fixpoint last_char (s : string) : option ascii :=
  match s with
  | EmptyString => None
  | String a EmptyString => Some a
  | String _ t => last_char t
  end.

Lemma last_char_app (s : string) (a : ascii) (t : string) :
  last_char (s ++ String a t) = last_char (String a t).
Proof.
  induction s as [| b s IH]; [reflexivity |].
  cbn [append]. rewrite <- IH. cbn [last_char].
  destruct (s ++ String a t) eqn:E; [| reflexivity].
  destruct s; discriminate E.
Qed.

Lemma path_join_one (a b : string) : exists x, path_join a [b] = x ++ b.
Proof.
  unfold path_join. cbn [fold_left].
  destruct (starts_with_slash b); [exists ""; reflexivity |].
  destruct (String.eqb a "" || ends_with_slash a); [exists a; reflexivity |].
  exists (a ++ "/"). rewrite string_app_assoc. reflexivity.
Qed.

Lemma png_is_not_json (a b fname stem : string) :
  path_join a [fname ++ ".png"] <> path_join b [stem ++ ".json"].
Proof.
  destruct (path_join_one a (fname ++ ".png")) as [x ->].
  destruct (path_join_one b (stem ++ ".json")) as [y ->].
  intros H. apply (f_equal last_char) in H.
  rewrite <- !string_app_assoc in H.
  change ".png" with (String "." "png") in H. change ".json" with (String "." "json") in H.
  rewrite !last_char_app in H. discriminate H.
Qed.

(** *** One call of [gen_one], as [main] sees it *)

Lemma gen_one_summary (OUT0 : string) (generate_reply : nat -> http_outcome)
    (image_reply : string -> http_outcome) (fuel : nat) (item : list (string * string))
    (idx total : nat) (w : dalle_world) :
  match assoc "filename" item with
  | None =>
      gen_one OUT0 generate_reply image_reply (S fuel) item idx total w
        = (Raise (mkExn "KeyError" "'filename'"), w)
  | Some fname =>
      exists path w' added,
        gen_one OUT0 generate_reply image_reply (S fuel) item idx total w
          = (Ret (Some (fname, path)), w')
        /\ d_trace w' = (d_trace w ++ added)%list
        /\ filter is_sleep added = []
        /\ List.length (filter is_generate added) <= 1
        /\ (forall q, q <> path_join OUT0 [fname ++ ".png"] -> d_files w' q = d_files w q)
  end.
Proof.
  rewrite gen_one_is_once.
  pose proof (gen_one_once_cases OUT0 generate_reply image_reply item w) as H.
  cbv zeta in H.
  destruct (assoc "filename" item) as [fname |]; [| exact H].
  destruct (already_generated w _).
  { rewrite H. exists (Some (path_join OUT0 [fname ++ ".png"])), w, [].
    rewrite app_nil_r. repeat split. cbn. lia. }
  destruct (assoc "prompt" item) as [prompt |].
  2:{ rewrite H. exists None, w, []. rewrite app_nil_r. repeat split. cbn. lia. }
  destruct H as [H | [url [H | [img [_ [_ [_ H]]]]]]]; rewrite H.
  - eexists None, _, [DGenerate (PREFIX ++ prompt)]. repeat split. cbn. lia.
  - eexists None, _, [DGenerate (PREFIX ++ prompt); DGet url].
    split; [reflexivity |]. split; [cbn; rewrite <- app_assoc; reflexivity |].
    repeat split. cbn. lia.
  - eexists (Some _), _, [DGenerate (PREFIX ++ prompt); DGet url].
    split; [reflexivity |]. split; [cbn; rewrite <- app_assoc; reflexivity |].
    split; [reflexivity |]. split; [cbn; lia |].
    intros q Hq. rewrite d_write_elsewhere by exact Hq. reflexivity.
Qed.

(** *** Slices *)

Lemma py_slice_within {A} (l : list A) (start stop : Z) :
  (0 <= start <= stop)%Z -> (stop <= Z.of_nat (List.length l))%Z ->
  py_slice l start stop = firstn (Z.to_nat (stop - start)) (skipn (Z.to_nat start) l).
Proof.
  intros H1 H2. unfold py_slice, adjust_index.
  destruct (start <? 0)%Z eqn:E1; [apply Z.ltb_lt in E1; lia |].
  destruct (stop <? 0)%Z eqn:E2; [apply Z.ltb_lt in E2; lia |].
  rewrite !Z.min_l by lia. reflexivity.
Qed.

Lemma py_slice_tail {A} (l : list A) (n : Z) :
  (0 < n <= Z.of_nat (List.length l))%Z ->
  py_slice l (- n) (Z.of_nat (List.length l)) = skipn (List.length l - Z.to_nat n) l.
Proof.
  intros H. unfold py_slice, adjust_index.
  destruct (- n <? 0)%Z eqn:E1; [| apply Z.ltb_ge in E1; lia].
  destruct (Z.of_nat (List.length l) <? 0)%Z eqn:E2; [apply Z.ltb_lt in E2; lia |].
  rewrite Z.min_id, Z.max_l by lia.
  replace (Z.to_nat (- n + Z.of_nat (List.length l))) with (List.length l - Z.to_nat n) by lia.
  apply firstn_all2. rewrite length_skipn. lia.
Qed.

(** An outcome computed without the state: raised or returned. *)
Definition of_sum {S A} (r : exn + A) : M S A :=
  match r with
  | inl e => raise e
  | inr a => ret a
  end.

Section DalleMain.

(** [SCRIPTS], the directory of the script. *)
Variable SCRIPTS : string.

Variable generate_reply : nat -> http_outcome.
Variable image_reply : string -> http_outcome.

(** What [cloudinary.uploader.upload] gives for a local path, the file
    found there and a public id: an exception or the reply. *)
Variable upload : string -> option (list byte) -> string -> exn + json.

(** The list read from [brand_prompts.json], the command line, [int] on
    a string and the text [json.dump(..., indent=2)] writes. *)
Variable prompts : list (list (string * string)).
Variable argv : list string.
Variable py_int : string -> exn + Z.
Variable json_dumps : json -> list byte.

Definition OUT : string := path_join SCRIPTS ["generated_brand_products"].

(** [upload_one(fname, local_path)]; [JNull] is the [None] it returns
    when the upload fails. *)
Definition upload_one (fname local_path : string) : M dalle_world json :=
  try_catch
    (w <- get ;;
     r <- of_sum (upload local_path (d_files w local_path) fname) ;;
     json_subscript r "secure_url")
    (fun e => ret JNull).

(** Phase 1 of [main] on the items left, [i] being the number
    [enumerate] gives the next one.  [None] stands for a run of the
    model that used up the depth of calls of [gen_one]. *)
Fixpoint generate_all (fuel : nat) (batch : list (list (string * string))) (i : Z)
    (total : nat) (generated : list (string * string))
  : M dalle_world (option (list (string * string))) :=
  match batch with
  | [] => ret (Some generated)
  | item :: rest =>
      r <- gen_one OUT generate_reply image_reply fuel item (Z.to_nat i) total ;;
      match r with
      | None => ret None
      | Some (fname, path) =>
          let generated :=
            match path with
            | Some p => if negb (String.eqb p "") then dict_set fname p generated
                        else generated
            | None => generated
            end in
          modify (d_log (DSleep 13)) ;;;
          generate_all fuel rest (i + 1) total generated
      end
  end.

(** Phase 2 of [main] on the entries of [generated] that are left. *)
Fixpoint upload_all (generated : list (string * string)) (results : list (string * json))
  : M dalle_world (list (string * json)) :=
  match generated with
  | [] => ret results
  | (fname, path) :: rest =>
      url <- upload_one fname path ;;
      upload_all rest (if json_truthy url then dict_set fname url results else results)
  end.

(** [SCRIPTS / f"brand_urls_{start}_{end}.json"] *)
Definition results_file (start end_ : Z) : string :=
  path_join SCRIPTS ["brand_urls_" ++ str_int start ++ "_" ++ str_int end_ ++ ".json"].

(** [int(sys.argv[k]) if len(sys.argv) > k else default] *)
Definition int_arg (k : nat) (default : Z) : exn + Z :=
  if k <? List.length argv then py_int (nth k argv "") else inr default.

(** [main()] of [dalle_runner.py]. *)
Definition dalle_main (fuel : nat) : M dalle_world (option unit) :=
  let total := List.length prompts in
  start <- of_sum (int_arg 1 0%Z) ;;
  end_ <- of_sum (int_arg 2 (Z.of_nat total)) ;;
  let batch := py_slice prompts start end_ in
  g <- generate_all fuel batch (start + 1) total [] ;;
  match g with
  | None => ret None
  | Some generated =>
      results <- upload_all generated [] ;;
      modify (d_write (results_file start end_) (json_dumps (JObj results))) ;;;
      ret (Some tt)
  end.

(** *** The two phases *)

Lemma generate_all_run (fuel : nat) (batch : list (list (string * string))) (i : Z)
    (total : nat) (generated : list (string * string)) (w : dalle_world) :
  Forall (fun item => assoc "filename" item <> None) batch ->
  exists generated' w' added,
    generate_all (S fuel) batch i total generated w = (Ret (Some generated'), w')
    /\ d_trace w' = (d_trace w ++ added)%list
    /\ filter is_sleep added = repeat (DSleep 13) (List.length batch)
    /\ List.length (filter is_generate added) <= List.length batch
    /\ (forall x, In x (map fst generated') ->
                  In x (map fst generated) \/ In x (filenames batch))
    /\ (NoDup (map fst generated) -> NoDup (map fst generated')).
Proof.
  intros Hall. revert i generated w.
  induction Hall as [| item rest Hitem Hrest IH]; intros i generated w.
  { exists generated, w, []. rewrite app_nil_r. repeat split; auto. }
  cbn [generate_all]. unfold bind at 1.
  pose proof (gen_one_summary OUT generate_reply image_reply fuel item (Z.to_nat i) total w)
    as Hone.
  unfold filenames. cbn [flat_map]. fold (filenames rest).
  destruct (assoc "filename" item) as [fname |]; [| congruence].
  destruct Hone as [path [w1 [added1 [Hrun [Ht1 [Hs1 [Hg1 _]]]]]]].
  rewrite Hrun. unfold bind at 1. unfold modify at 1.
  remember (match path with
            | Some p => if negb (String.eqb p "") then dict_set fname p generated
                        else generated
            | None => generated
            end) as generated1 eqn:Hgen.
  destruct (IH (i + 1)%Z generated1 (d_log (DSleep 13) w1))
    as [generated' [w' [added [Hrest' [Ht [Hs [Hg [Hkeys Hnd]]]]]]]].
  exists generated', w', (added1 ++ [DSleep 13] ++ added)%list.
  split; [exact Hrest' |].
  split; [rewrite Ht; cbn [d_log d_trace]; rewrite Ht1, <- !app_assoc; reflexivity |].
  split; [rewrite !filter_app, Hs1, Hs; reflexivity |].
  split; [rewrite !filter_app, !length_app; cbn [filter is_generate List.length]; lia |].
  assert (Hk1 : forall x, In x (map fst generated1) -> In x (map fst generated) \/ x = fname).
  { intros x Hx. subst generated1. destruct path as [p |]; [| left; exact Hx].
    destruct (negb (String.eqb p "")); [| left; exact Hx].
    destruct (dict_set_keys _ _ _ _ Hx) as [-> | Hx']; [right; reflexivity | left; exact Hx']. }
  split.
  - intros x Hx. destruct (Hkeys x Hx) as [H | H].
    + destruct (Hk1 x H) as [H' | ->]; [left; exact H' | right; left; reflexivity].
    + right. apply in_or_app. right. exact H.
  - intros Hnd0. apply Hnd. subst generated1. destruct path as [p |]; [| exact Hnd0].
    destruct (negb (String.eqb p "")); [| exact Hnd0].
    apply dict_set_NoDup. exact Hnd0.
Qed.

Lemma generate_all_abort (fuel : nat) (before after : list (list (string * string)))
    (item : list (string * string)) (i : Z) (total : nat)
    (generated : list (string * string)) (w : dalle_world) :
  Forall (fun item => assoc "filename" item <> None) before ->
  assoc "filename" item = None ->
  exists w' added,
    generate_all (S fuel) (before ++ item :: after) i total generated w
      = (Raise (mkExn "KeyError" "'filename'"), w')
    /\ d_trace w' = (d_trace w ++ added)%list
    /\ filter is_sleep added = repeat (DSleep 13) (List.length before)
    /\ List.length (filter is_generate added) <= List.length before
    /\ (forall q, (forall fname, q <> path_join OUT [fname ++ ".png"]) ->
                  d_files w' q = d_files w q).
Proof.
  intros Hall Hnone. revert i generated w.
  induction Hall as [| item0 rest Hitem Hrest IH]; intros i generated w.
  { cbn [app generate_all]. unfold bind at 1.
    pose proof (gen_one_summary OUT generate_reply image_reply fuel item (Z.to_nat i) total w)
      as Hone.
    rewrite Hnone in Hone. rewrite Hone.
    exists w, []. rewrite app_nil_r. repeat split. cbn. lia. }
  cbn [app generate_all]. unfold bind at 1.
  pose proof (gen_one_summary OUT generate_reply image_reply fuel item0 (Z.to_nat i) total w)
    as Hone.
  destruct (assoc "filename" item0) as [fname |]; [| congruence].
  destruct Hone as [path [w1 [added1 [Hrun [Ht1 [Hs1 [Hg1 Hf1]]]]]]].
  rewrite Hrun. unfold bind at 1. unfold modify at 1.
  destruct (IH (i + 1)%Z
              (match path with
               | Some p => if negb (String.eqb p "") then dict_set fname p generated
                           else generated
               | None => generated
               end) (d_log (DSleep 13) w1))
    as [w' [added [Hrest' [Ht [Hs [Hg Hf]]]]]].
  exists w', (added1 ++ [DSleep 13] ++ added)%list.
  split; [exact Hrest' |].
  split; [rewrite Ht; cbn [d_log d_trace]; rewrite Ht1, <- !app_assoc; reflexivity |].
  split; [rewrite !filter_app, Hs1, Hs; reflexivity |].
  split; [rewrite !filter_app, !length_app; cbn [filter is_generate List.length]; lia |].
  intros q Hq. rewrite (Hf q Hq). cbn [d_log d_files]. apply Hf1. apply Hq.
Qed.

Lemma upload_one_run (fname local_path : string) (w : dalle_world) :
  exists url, upload_one fname local_path w = (Ret url, w).
Proof.
  unfold upload_one, try_catch. unfold bind at 1. unfold get at 1. unfold bind at 1.
  destruct (upload local_path (d_files w local_path) fname) as [e | r];
    [exists JNull; reflexivity |].
  cbn [of_sum]. unfold ret at 1.
  pose proof (keeps_json_subscript (fun s : dalle_world => s) r "secure_url" w) as K.
  destruct (json_subscript r "secure_url" w) as [[u | e] s1]; cbn [snd] in K; subst s1.
  - exists u. reflexivity.
  - exists JNull. reflexivity.
Qed.

Lemma upload_all_run (generated : list (string * string)) (results : list (string * json))
    (w : dalle_world) :
  exists results',
    upload_all generated results w = (Ret results', w)
    /\ (forall x, In x (map fst results') ->
                  In x (map fst results) \/ In x (map fst generated))
    /\ (NoDup (map fst results) -> NoDup (map fst results'))
    /\ (Forall (fun kv => json_truthy (snd kv) = true) results ->
        Forall (fun kv => json_truthy (snd kv) = true) results').
Proof.
  revert results. induction generated as [| [fname path] rest IH]; intros results.
  { exists results. repeat split; auto. }
  cbn [upload_all]. unfold bind at 1.
  destruct (upload_one_run fname path w) as [url ->].
  destruct (IH (if json_truthy url then dict_set fname url results else results))
    as [results' [Hrun [Hk [Hnd Hv]]]].
  exists results'. split; [exact Hrun |]. split; [| split].
  - intros x Hx. destruct (Hk x Hx) as [H | H]; [| right; right; exact H].
    destruct (json_truthy url); [| left; exact H].
    destruct (dict_set_keys _ _ _ _ H) as [-> | H']; [right; left; reflexivity | left; exact H'].
  - intros H. apply Hnd. destruct (json_truthy url); [apply dict_set_NoDup |]; exact H.
  - intros H. apply Hv. destruct (json_truthy url) eqn:E; [| exact H].
    apply (dict_set_values (fun v => json_truthy v = true)); assumption.
Qed.

(** X21. A run of [main] over items that all have a name.  When the
    arguments are integers and every item of the batch has a
    ['filename'], [main] comes to its end whatever the services reply.
    It has slept 13 seconds once per item of the batch, also after items
    that were skipped or failed and after the last one, and has sent at
    most one generation request per item.  The results file, named after
    the arguments as given, holds a dictionary with distinct keys, each
    the name of an item of the batch, and with values that are all
    true. *)
Theorem dalle_main_completes (fuel : nat) (start end_ : Z) (w : dalle_world) :
  let batch := py_slice prompts start end_ in
  int_arg 1 0%Z = inr start ->
  int_arg 2 (Z.of_nat (List.length prompts)) = inr end_ ->
  Forall (fun item => assoc "filename" item <> None) batch ->
  exists results w' added,
    dalle_main (S fuel) w = (Ret (Some tt), w')
    /\ d_trace w' = (d_trace w ++ added)%list
    /\ filter is_sleep added = repeat (DSleep 13) (List.length batch)
    /\ List.length (filter is_generate added) <= List.length batch
    /\ d_files w' (results_file start end_) = Some (json_dumps (JObj results))
    /\ NoDup (map fst results)
    /\ (forall x, In x (map fst results) -> In x (filenames batch))
    /\ Forall (fun kv => json_truthy (snd kv) = true) results.
Proof.
  intros batch Hstart Hend Hall. unfold dalle_main. rewrite Hstart, Hend.
  cbn [of_sum]. unfold bind at 1. unfold ret at 1. unfold bind at 1. unfold ret at 1.
  fold batch. unfold bind at 1.
  destruct (generate_all_run fuel batch (start + 1)%Z (List.length prompts) [] w Hall)
    as [generated [w1 [added [Hrun [Ht [Hs [Hg [Hkeys Hnd]]]]]]]].
  rewrite Hrun. unfold bind at 1.
  destruct (upload_all_run generated [] w1) as [results [Hup [Hk [Hnd' Hv]]]].
  rewrite Hup.
  exists results, (d_write (results_file start end_) (json_dumps (JObj results)) w1), added.
  split; [reflexivity |]. split; [exact Ht |]. split; [exact Hs |]. split; [exact Hg |].
  split; [cbn; rewrite String.eqb_refl; reflexivity |].
  split; [apply Hnd'; constructor | split; [| apply Hv; constructor]].
  intros x Hx. destruct (Hk x Hx) as [[] | H].
  destruct (Hkeys x H) as [[] | H']. exact H'.
Qed.

(** X22. An item without a name stops the whole run.  When the
    arguments are integers and the first item of the batch without a
    ['filename'] comes after [before], [main] ends with the [KeyError] of
    that item: it has slept once and sent at most one generation request
    for each of the items before it, none for the items after it, and
    the results file is not written, so the images made so far are left
    without their URLs. *)
Theorem dalle_main_stops_at_nameless_item (fuel : nat) (start end_ : Z)
    (before after : list (list (string * string))) (item : list (string * string))
    (w : dalle_world) :
  int_arg 1 0%Z = inr start ->
  int_arg 2 (Z.of_nat (List.length prompts)) = inr end_ ->
  py_slice prompts start end_ = (before ++ item :: after)%list ->
  Forall (fun item => assoc "filename" item <> None) before ->
  assoc "filename" item = None ->
  exists w' added,
    dalle_main (S fuel) w = (Raise (mkExn "KeyError" "'filename'"), w')
    /\ d_trace w' = (d_trace w ++ added)%list
    /\ filter is_sleep added = repeat (DSleep 13) (List.length before)
    /\ List.length (filter is_generate added) <= List.length before
    /\ d_files w' (results_file start end_) = d_files w (results_file start end_).
Proof.
  intros Hstart Hend Hbatch Hall Hnone. unfold dalle_main. rewrite Hstart, Hend.
  cbn [of_sum]. unfold bind at 1. unfold ret at 1. unfold bind at 1. unfold ret at 1.
  rewrite Hbatch. unfold bind at 1.
  destruct (generate_all_abort fuel before after item (start + 1)%Z (List.length prompts)
              [] w Hall Hnone) as [w' [added [Hrun [Ht [Hs [Hg Hf]]]]]].
  rewrite Hrun. exists w', added. split; [reflexivity |]. split; [exact Ht |].
  split; [exact Hs |]. split; [exact Hg |]. apply Hf. intros fname H. symmetry in H. revert H.
  unfold results_file.
  replace ("brand_urls_" ++ str_int start ++ "_" ++ str_int end_ ++ ".json")
    with (("brand_urls_" ++ str_int start ++ "_" ++ str_int end_) ++ ".json")
    by (rewrite !string_app_assoc; reflexivity).
  apply png_is_not_json.
Qed.

(** X23. Which items a run covers.  Without arguments the batch is the
    whole list.  With [0 <= start <= end <= total] it is the [end - start]
    items at the positions [start], ..., [end - 1] of the list, counted
    from 0.  With [end <= start] it is empty.  A negative [start] counts
    from the end: [-n] with the default [end] gives the last [n] items. *)
Theorem batch_of_arguments :
  let total := Z.of_nat (List.length prompts) in
  (List.length argv <= 1 ->
   int_arg 1 0%Z = inr 0%Z /\ int_arg 2 total = inr total
   /\ py_slice prompts 0 total = prompts)
  /\ (forall start end_, (0 <= start <= end_)%Z -> (end_ <= total)%Z ->
        List.length (py_slice prompts start end_) = Z.to_nat (end_ - start)
        /\ forall j, j < Z.to_nat (end_ - start) ->
             nth_error (py_slice prompts start end_) j
               = nth_error prompts (Z.to_nat start + j))
  /\ (forall start end_, (0 <= end_ <= start)%Z -> py_slice prompts start end_ = [])
  /\ (forall n, (0 < n <= total)%Z ->
        py_slice prompts (- n) total = skipn (List.length prompts - Z.to_nat n) prompts).
Proof.
  cbv zeta. split; [| split; [| split]].
  - intros Hargv. unfold int_arg.
    destruct (1 <? List.length argv) eqn:E1; [apply Nat.ltb_lt in E1; lia |].
    destruct (2 <? List.length argv) eqn:E2; [apply Nat.ltb_lt in E2; lia |].
    split; [reflexivity |]. split; [reflexivity |].
    rewrite py_slice_within by lia. cbn [Z.to_nat skipn].
    rewrite Z.sub_0_r, Nat2Z.id. apply firstn_all.
  - intros start end_ H1 H2. rewrite py_slice_within by lia. split.
    + rewrite length_firstn, length_skipn. lia.
    + intros j Hj. rewrite nth_error_firstn.
      destruct (j <? Z.to_nat (end_ - start)) eqn:E; [| apply Nat.ltb_ge in E; lia].
      apply nth_error_skipn.
  - intros start end_ H. unfold py_slice.
    replace (Z.to_nat (_ - _)) with 0; [reflexivity |].
    unfold adjust_index.
    destruct (start <? 0)%Z eqn:E1; [apply Z.ltb_lt in E1; lia |].
    destruct (end_ <? 0)%Z eqn:E2; [apply Z.ltb_lt in E2; lia |].
    lia.
  - intros n Hn. apply py_slice_tail. exact Hn.
Qed.

End DalleMain.

(** A run on the command line [dalle_runner.py], with an upload service
    that answers every upload with a URL. *)
Definition always_uploaded (local_path : string) (file : option (list byte))
    (public_id : string) : exn + json :=
  inr (JObj [("public_id", JStr public_id);
             ("secure_url", JStr "https://res.example/zammer_banners/brand_001.png")]).

Definition nameless_item : list (string * string) := [("prompt", "blue denim jacket")].

Definition int_of_no_argument (s : string) : exn + Z :=
  inl (mkExn "ValueError" ("invalid literal for int() with base 10: '" ++ s ++ "'")).

Lemma dalle_main_completes_witness :
  exists results w' added,
    dalle_main "scripts" image_service (image_host ["137"%byte]) always_uploaded
      [brand_item] ["dalle_runner.py"] int_of_no_argument (fun _ => []) 1 empty_disk
      = (Ret (Some tt), w')
    /\ d_trace w' = (d_trace empty_disk ++ added)%list
    /\ filter is_sleep added = repeat (DSleep 13) (List.length (py_slice [brand_item] 0 1))
    /\ List.length (filter is_generate added) <= List.length (py_slice [brand_item] 0 1)
    /\ d_files w' (results_file "scripts" 0 1) = Some ((fun _ => []) (JObj results))
    /\ NoDup (map fst results)
    /\ (forall x, In x (map fst results) -> In x (filenames (py_slice [brand_item] 0 1)))
    /\ Forall (fun kv => json_truthy (snd kv) = true) results.
Proof.
  apply (dalle_main_completes "scripts" image_service (image_host ["137"%byte])
           always_uploaded [brand_item] ["dalle_runner.py"] int_of_no_argument
           (fun _ => []) 0 0%Z 1%Z empty_disk).
  - reflexivity.
  - reflexivity.
  - repeat constructor. discriminate.
Defined.

Lemma dalle_main_stops_at_nameless_item_witness :
  exists w' added,
    dalle_main "scripts" image_service (image_host ["137"%byte]) always_uploaded
      [brand_item; nameless_item; brand_item] ["dalle_runner.py"] int_of_no_argument
      (fun _ => []) 1 empty_disk
      = (Raise (mkExn "KeyError" "'filename'"), w')
    /\ d_trace w' = (d_trace empty_disk ++ added)%list
    /\ filter is_sleep added = repeat (DSleep 13) (List.length [brand_item])
    /\ List.length (filter is_generate added) <= List.length [brand_item]
    /\ d_files w' (results_file "scripts" 0 3) = d_files empty_disk (results_file "scripts" 0 3).
Proof.
  apply (dalle_main_stops_at_nameless_item "scripts" image_service (image_host ["137"%byte])
           always_uploaded [brand_item; nameless_item; brand_item] ["dalle_runner.py"]
           int_of_no_argument (fun _ => []) 0 0%Z 3%Z [brand_item] [brand_item]
           nameless_item empty_disk).
  - reflexivity.
  - reflexivity.
  - reflexivity.
  - repeat constructor. discriminate.
  - reflexivity.
Defined.
